(** * Adaptive pricing, experimentation and promotion engine

    A shallow embedding of the optimisation engine
    ([core/optimization-engine.js]), the promotion service
    ([services/promotion-service.js]), the price mutation of the API client
    ([api/snackprompt-api.js]) and the notifier ([utils/notifications.js]).

    Conventions of the embedding.
    - A JavaScript number is a rational ([Q]), every double being one.  In
      the promotion service and in the long-term price policy the arithmetic
      is that of the doubles: every product, quotient, sum and difference is
      rounded to the nearest binary64 number ([Double.RN]), and a decimal
      literal denotes the double nearest to it.  In the hourly policy, the
      weekly run and the bundles the decimal literals denote the rationals
      they spell and the arithmetic is exact; on whole prices up to 1000 the
      doubles give the same prices there ([exact_prices_are_the_doubles]).
      [NaN], infinities and numbers of magnitude [2^1024] or more are outside
      the model.
    - A JavaScript object is a record; a field that may be absent, [null] or
      [undefined] is an [option].
    - An [async] function is a computation in the monad [M]: it threads the
      state of the outside world ([World]) and either returns a value or
      throws.  [try { .. } catch (error) { .. }] is [try_catch].
    - A date is its number of milliseconds since the epoch ([Z]), read in a
      local time zone whose offset from UTC is the same all year long, as the
      UTC of the deployment; a zone that changes its offset with daylight
      saving time is outside the model. *)

From Stdlib Require Import ZArith QArith Qround Qminmax Qabs Qpower Lqa Lia.
From Stdlib Require Floats.
From Stdlib Require Import List String Bool DecimalString Permutation Sorted.
Import ListNotations.

Open Scope Q_scope.

(** ** JavaScript numbers *)

Module JS.

(** [x > y] and [x < y] on numbers, as booleans. *)
Definition gt (x y : Q) : bool :=
  match x ?= y with Gt => true | _ => false end.

Definition lt (x y : Q) : bool :=
  match x ?= y with Lt => true | _ => false end.

(** [Math.round]: the nearest integer, halves going up. *)
Definition Math_round (x : Q) : Q := inject_Z (Qfloor (x + (1 # 2))).

Definition Math_min (x y : Q) : Q := Qmin x y.

Definition Math_max (x y : Q) : Q := Qmax x y.

(** A number is truthy when it is not zero. *)
Definition truthy (x : Q) : bool := negb (Qeq_bool x 0).

(** The decimal writing of a length, as a template literal prints it. *)
Definition toString (n : nat) : string := NilEmpty.string_of_uint (Nat.to_uint n).

(** The conversion of a number to an integer that [new Date(x)] does:
    truncation towards zero. *)
Definition trunc (x : Q) : Z := if lt x 0 then Qceiling x else Qfloor x.

(** [array.slice(0, n)]. *)
Definition slice0 {A : Type} (n : nat) (l : list A) : list A := firstn n l.

(** [array.sort(cmp)] is a stable sort: an element stays in front of the ones
    that follow it, except those the comparator puts strictly first.
    [before a b] is [cmp(a, b) < 0]; the sort is written as an insertion sort,
    every element being inserted in front of the sorted rest of the array. *)
Fixpoint insert_stable {A : Type} (before : A -> A -> bool) (x : A) (l : list A) : list A :=
  match l with
  | [] => [x]
  | y :: l' => if before y x then y :: insert_stable before x l' else x :: y :: l'
  end.

Fixpoint sort {A : Type} (before : A -> A -> bool) (l : list A) : list A :=
  match l with
  | [] => []
  | x :: l' => insert_stable before x (sort before l')
  end.

End JS.

(** ** Doubles *)

(** The binary64 numbers of the language, as the rationals they are.  An
    operation of the language is the exact operation followed by [RN], the
    rounding to the nearest double, to the even mantissa when two are as near. *)
Module Double.

(** The exponent of the binade of [a > 0]: the [k] with [2^k <= a < 2^(k+1)]. *)
Definition ilog2 (a : Q) : Z :=
  let k := (Z.log2 (Qnum a) - Z.log2 (Z.pos (Qden a)))%Z in
  if Qle_bool (2 ^ k) a then k else (k - 1)%Z.

(** The integer nearest to [t], the even one of the two when [t] is half-way. *)
Definition rne (t : Q) : Z :=
  let f := Qfloor t in
  match Qcompare (t - inject_Z f) (1 # 2) with
  | Lt => f
  | Gt => (f + 1)%Z
  | Eq => if Z.even f then f else (f + 1)%Z
  end.

(** The double nearest to [x]: a mantissa of 53 bits, the exponent of its
    last bit no lower than -1074. *)
Definition RN (x : Q) : Q :=
  if Qeq_bool x 0 then 0
  else
    let e := Z.max (ilog2 (Qabs x) - 52) (-1074) in
    Qred (inject_Z (rne (x / 2 ^ e)) * 2 ^ e).

Definition add (x y : Q) : Q := RN (x + y).
Definition sub (x y : Q) : Q := RN (x - y).
Definition mul (x y : Q) : Q := RN (x * y).
Definition div (x y : Q) : Q := RN (x / y).

End Double.

Arguments Double.RN : simpl never.
Arguments Double.add : simpl never.
Arguments Double.sub : simpl never.
Arguments Double.mul : simpl never.
Arguments Double.div : simpl never.

(** The doubles of the proof assistant's kernel, against which [Double] is
    checked on the formulas of the source. *)
Module Kernel.

(** The value of a double of the kernel, when it is finite. *)
Definition value (f : PrimFloat.float) : option Q :=
  match FloatOps.Prim2SF f with
  | SpecFloat.S754_zero _ => Some 0
  | SpecFloat.S754_finite s m e =>
      Some (Qred ((if s then -1 else 1) * inject_Z (Z.pos m) * 2 ^ e))
  | _ => None
  end.

(** The double of a natural number below [2^53]. *)
Definition of_Z (z : Z) : PrimFloat.float := PrimFloat.of_uint63 (Uint63.of_Z z).

End Kernel.

(** ** Data *)

Record Prompt := {
  id : string;
  title : string;
  description : string;
  price : Q;
  conversion_rate : Q;
  views_last_hour : Q;
  total_views : Q;
  currently_testing : bool;
  price_changed_recently : bool;
  on_promotion : bool;
  promotion_percentage : Q;
  promotion_end_date : option Z;
  creation_date : option Z;
  last_refresh_date : option Z
}.

(** The body of a [PATCH /prompts/{id}] request: the fields to overwrite. *)
Record UpdateData := {
  u_title : option string;
  u_description : option string;
  u_currently_testing : option bool;
  u_price : option Q;
  u_on_promotion : option bool;
  u_promotion_percentage : option Q;
  u_promotion_end_date : option (option Z);
  u_last_refresh_date : option Z
}.

Definition from_option {A : Type} (o : option A) (d : A) : A :=
  match o with Some a => a | None => d end.

(** What the catalog stores after a patch: every field of the request
    replaces the stored one, the others are kept. *)
Definition applyPatch (p : Prompt) (u : UpdateData) : Prompt :=
  {| id := id p;
     title := from_option (u_title u) (title p);
     description := from_option (u_description u) (description p);
     price := from_option (u_price u) (price p);
     conversion_rate := conversion_rate p;
     views_last_hour := views_last_hour p;
     total_views := total_views p;
     currently_testing := from_option (u_currently_testing u) (currently_testing p);
     price_changed_recently := price_changed_recently p;
     on_promotion := from_option (u_on_promotion u) (on_promotion p);
     promotion_percentage := from_option (u_promotion_percentage u) (promotion_percentage p);
     promotion_end_date := from_option (u_promotion_end_date u) (promotion_end_date p);
     creation_date := creation_date p;
     last_refresh_date :=
       match u_last_refresh_date u with Some d => Some d | None => last_refresh_date p end |}.

Record Performance := {
  views_last_7_days : Q;
  perf_conversion_rate : Q
}.

Record TestResult := {
  r_title : string;
  r_description : string;
  conversion : Q
}.

(** The stored variants of a listing, as [retrievePromptVariations] returns
    them. *)
Record Variations := {
  titles : option (list string);
  descriptions : option (list string);
  tested_count : option Z;
  results : option (list TestResult)
}.

Inductive Reason := increase_high_conversion | decrease_low_conversion.

(** An entry of the list returned by the hourly run. *)
Record PriceUpdate := {
  upd_id : string;
  oldPrice : Q;
  newPrice : Q;
  reason : Reason
}.

(** The action records of the daily and weekly runs, one constructor for each
    value of their [type] field. *)
Inductive Action :=
| apply_best_variation (promptId : string) (variation : TestResult) (timestamp : Z)
| start_ab_test (promptId : string) (variationIndex : Z)
    (new_title new_description : option string) (timestamp : Z)
| improve_content (promptId oldTitle newTitle oldDescription newDescription : string)
    (timestamp : Z)
| optimize_long_term_price_up (promptId : string) (old_price new_price elasticity : Q)
    (timestamp : Z)
| optimize_long_term_price_down (promptId : string) (old_price new_price elasticity : Q)
    (timestamp : Z)
| refresh_content (promptId oldTitle newTitle oldDescription newDescription : string)
    (timestamp : Z)
| remove_promotion (promptId : string) (old_price new_price promotionPercentage : Q)
    (timestamp : Z)
| apply_promotion (promptId : string) (old_price new_price promotionPercentage : Q)
    (timestamp : Z).

Inductive NotificationType := t_info | t_success | t_error | t_warning | t_report.

Record Notification := {
  n_type : NotificationType;
  subject : string;
  message : string;
  attachment : option (list Action)
}.

(** ** The outside world *)

(** A request sent to the catalog, or a timer registered with [setTimeout]. *)
Inductive Request :=
| Patch (promptId : string) (data : UpdateData)
| Timeout (promptId : string) (variationIndex : Z) (duration : Z).

Record World := {
  now : Z;
  faults : list bool;
  catalog : list Prompt;
  variationStorage : list (string * option Variations);
  performances : list (string * Performance);
  random : list Q;
  requests : list Request;
  outbox : list Notification
}.

Inductive Result (A : Type) :=
| Ok (a : A)
| Throw (message : string).

Arguments Ok {A} a.
Arguments Throw {A} message.

Definition M (A : Type) : Type := World -> Result A * World.

Definition ret {A : Type} (a : A) : M A := fun w => (Ok a, w).

Definition throw {A : Type} (e : string) : M A := fun w => (Throw e, w).

Definition bind {A B : Type} (c : M A) (k : A -> M B) : M B :=
  fun w =>
    match c w with
    | (Ok a, w') => k a w'
    | (Throw e, w') => (Throw e, w')
    end.

Definition try_catch {A : Type} (c : M A) (handler : string -> M A) : M A :=
  fun w =>
    match c w with
    | (Ok a, w') => (Ok a, w')
    | (Throw e, w') => handler e w'
    end.

Declare Scope js_scope.
Delimit Scope js_scope with js.
Notation "x <- c ;; k" := (bind c (fun x => k))
  (at level 100, c at next level, right associativity) : js_scope.
Notation "c ;;; k" := (bind c (fun _ => k))
  (at level 100, right associativity) : js_scope.
Open Scope js_scope.

(** [for (const x of l) { body }], the loop's variables being [s]. *)
Fixpoint for_of {A S : Type} (l : list A) (body : A -> S -> M S) (s : S) : M S :=
  match l with
  | [] => ret s
  | x :: l' => s' <- body x s ;; for_of l' body s'
  end.

Definition set_faults (f : list bool) (w : World) : World :=
  {| now := now w; faults := f; catalog := catalog w;
     variationStorage := variationStorage w; performances := performances w;
     random := random w; requests := requests w; outbox := outbox w |}.

Definition set_catalog (c : list Prompt) (w : World) : World :=
  {| now := now w; faults := faults w; catalog := c;
     variationStorage := variationStorage w; performances := performances w;
     random := random w; requests := requests w; outbox := outbox w |}.

Definition set_random (r : list Q) (w : World) : World :=
  {| now := now w; faults := faults w; catalog := catalog w;
     variationStorage := variationStorage w; performances := performances w;
     random := r; requests := requests w; outbox := outbox w |}.

Definition add_request (r : Request) (w : World) : World :=
  {| now := now w; faults := faults w; catalog := catalog w;
     variationStorage := variationStorage w; performances := performances w;
     random := random w; requests := requests w ++ [r]; outbox := outbox w |}.

Definition add_notification (n : Notification) (w : World) : World :=
  {| now := now w; faults := faults w; catalog := catalog w;
     variationStorage := variationStorage w; performances := performances w;
     random := random w; requests := requests w; outbox := outbox w ++ [n] |}.

(** Every call that leaves the process takes the next entry of the fault
    schedule; [true] makes the call throw.  An exhausted schedule means no
    further fault. *)
Definition remote (e : string) : M unit :=
  fun w =>
    match faults w with
    | true :: f => (Throw e, set_faults f w)
    | false :: f => (Ok tt, set_faults f w)
    | [] => (Ok tt, w)
    end.

Definition Date_now : M Z := fun w => (Ok (now w), w).

(** ** The API client ([SnackPromptAPI]) *)

(** The two price bounds of the process environment, as [parseFloat] reads
    them: [None] when the variable is unset or is not a number. *)
Record Env := {
  MIN_PROMPT_PRICE : option Q;
  MAX_PROMPT_PRICE : option Q
}.

(** [parseFloat(v) || d]. *)
Definition or_default (v : option Q) (d : Q) : Q :=
  match v with
  | Some x => if JS.truthy x then x else d
  | None => d
  end.

Fixpoint find_prompt (promptId : string) (c : list Prompt) : option Prompt :=
  match c with
  | [] => None
  | p :: c' => if String.eqb (id p) promptId then Some p else find_prompt promptId c'
  end.

Fixpoint store_prompt (p : Prompt) (c : list Prompt) : list Prompt :=
  match c with
  | [] => []
  | q :: c' => if String.eqb (id q) (id p) then p :: c' else q :: store_prompt p c'
  end.

(** [client.get('/prompts/' + promptId)]: the stored listing, or a failure. *)
Definition client_get (promptId : string) : M Prompt :=
  remote "Network Error" ;;;
  fun w =>
    match find_prompt promptId (catalog w) with
    | Some p => (Ok p, w)
    | None => (Throw "Request failed with status code 404", w)
    end.

(** [client.patch('/prompts/' + promptId, data)]: the request is sent; when it
    succeeds the catalog holds the patched listing, which is the response. *)
Definition client_patch (promptId : string) (data : UpdateData) : M Prompt :=
  (fun w => (Ok tt, add_request (Patch promptId data) w)) ;;;
  remote "Network Error" ;;;
  fun w =>
    match find_prompt promptId (catalog w) with
    | Some p =>
        let p' := applyPatch p data in
        (Ok p', set_catalog (store_prompt p' (catalog w)) w)
    | None => (Throw "Request failed with status code 404", w)
    end.

Definition getPrompt (promptId : string) : M Prompt :=
  try_catch (client_get promptId) (fun err => throw err).

Definition getPrompts : M (list Prompt) :=
  try_catch (remote "Network Error" ;;; fun w => (Ok (catalog w), w))
            (fun err => throw err).

Definition updatePrompt (promptId : string) (updateData : UpdateData) : M Prompt :=
  try_catch (client_patch promptId updateData) (fun err => throw err).

Fixpoint lookup {A : Type} (k : string) (l : list (string * A)) : option A :=
  match l with
  | [] => None
  | (k', a) :: l' => if String.eqb k' k then Some a else lookup k l'
  end.

Definition getPromptPerformance (promptId : string) : M Performance :=
  try_catch
    (remote "Network Error" ;;;
     fun w =>
       match lookup promptId (performances w) with
       | Some perf => (Ok perf, w)
       | None => (Throw "Request failed with status code 404", w)
       end)
    (fun err => throw err).

Definition price_patch (p : Q) : UpdateData :=
  {| u_title := None; u_description := None; u_currently_testing := None;
     u_price := Some p; u_on_promotion := None; u_promotion_percentage := None;
     u_promotion_end_date := None; u_last_refresh_date := None |}.

Section Client.

Variable env : Env.

(** The price [updatePromptPrice] puts in its request. *)
Definition written_price (price : Q) : Q :=
  let minPrice := or_default (MIN_PROMPT_PRICE env) 10 in
  let maxPrice := or_default (MAX_PROMPT_PRICE env) 150 in
  JS.Math_min (JS.Math_max (JS.Math_round price) minPrice) maxPrice.

Definition updatePromptPrice (promptId : string) (price : Q) : M Prompt :=
  try_catch
    (let newPrice := written_price price in
     client_patch promptId (price_patch newPrice))
    (fun err => throw err).

End Client.

(** ** Notifications ([utils/notifications.js]) *)

(** The prototype's [sendEmail] only records the message. *)
Definition sendEmail (n : Notification) : M unit :=
  fun w => (Ok tt, add_notification n w).

Definition sendNotification (options : Notification) : M bool :=
  try_catch (sendEmail options ;;; ret true) (fun _ => ret false).

(** Modelled from the spec: [retrievePromptVariations] of
    [services/variation-storage], whose source is not part of the
    repository's files; the experiment controller "fetches the stored variants
    for the listing".  The stored value may be [null]. *)
Definition retrievePromptVariations (promptId : string) : M (option Variations) :=
  remote "Network Error" ;;;
  fun w =>
    match lookup promptId (variationStorage w) with
    | Some v => (Ok v, w)
    | None => (Ok None, w)
    end.

(** [Math.random()]: the next draw of the world's random source. *)
Definition Math_random : M Q :=
  fun w =>
    match random w with
    | r :: rs => (Ok r, set_random rs w)
    | [] => (Ok 0, w)
    end.

(** [AnalyticsService.getLongTermTrends], reduced to the field the engine
    reads, [price_elasticity]: [Math.random() * 0.4 - 0.2] in doubles. *)
Definition getLongTermTrends (promptId : string) : M Q :=
  try_catch
    (_ <- getPromptPerformance promptId ;;
     r <- Math_random ;;
     let priceElasticity :=
       Double.sub (Double.mul r (Double.RN (4 # 10))) (Double.RN (2 # 10)) in
     ret priceElasticity)
    (fun _ => ret 0).

(** ** The two price formulas of a promotion *)

(** [Math.round(price * (1 - discount / 100))], the price under a promotion,
    the product computed exactly: the formula of the model of the weekly run
    of the engine, whose discount is 15 percent, where the doubles of the code
    give the same prices ([exact_prices_are_the_doubles]). *)
Definition promotion_price (price discount : Q) : Q :=
  JS.Math_round (price * (1 - discount / 100)).

(** [Math.round(price / (1 - percentage / 100))], the price once the promotion
    is removed, the quotient computed exactly, for the weekly run of the
    engine likewise.  A percentage of 100 makes the source divide by zero,
    which is outside the model. *)
Definition normal_price (price percentage : Q) : Q :=
  JS.Math_round (price / (1 - percentage / 100)).

(** The same two formulas in the doubles of the code, as the promotion
    service computes [promotionPrice] and [normalPrice]: 45 at 30 percent is
    31.499999999999996 and rounds to 31. *)
Definition promotionPrice (price discount : Q) : Q :=
  JS.Math_round (Double.mul price (Double.sub 1 (Double.div discount 100))).

Definition normalPrice (price percentage : Q) : Q :=
  JS.Math_round (Double.div price (Double.sub 1 (Double.div percentage 100))).

(** ** The optimisation engine ([OptimizationEngine]) *)

Section Engine.

Variable env : Env.

Definition minPriceAdjustment : Q := 95 # 100.
Definition maxPriceAdjustment : Q := 105 # 100.
Definition minPromptPrice : Q := or_default (MIN_PROMPT_PRICE env) 25.
Definition maxPromptPrice : Q := or_default (MAX_PROMPT_PRICE env) 150.
Definition highConversionThreshold : Q := 12 # 100.
Definition lowConversionThreshold : Q := 3 # 100.
Definition highViewThreshold : Q := 20.
Definition minTestViews : Q := 100.

(** The body of the loop of [hourlyOptimization]; the loop's variable is the
    list [updatedPrompts]. *)
Definition hourly_body (prompt : Prompt) (updatedPrompts : list PriceUpdate)
  : M (list PriceUpdate) :=
  if currently_testing prompt then ret updatedPrompts
  else if JS.gt (conversion_rate prompt) highConversionThreshold
          && JS.gt (views_last_hour prompt) highViewThreshold then
    let newPrice := JS.Math_min (price prompt * maxPriceAdjustment) maxPromptPrice in
    if JS.gt newPrice (price prompt + 1) then
      updatePromptPrice env (id prompt) newPrice ;;;
      ret (updatedPrompts ++
           [{| upd_id := id prompt; oldPrice := price prompt; newPrice := newPrice;
               reason := increase_high_conversion |}])
    else ret updatedPrompts
  else if JS.gt (views_last_hour prompt) (highViewThreshold * (15 # 10))
          && JS.lt (conversion_rate prompt) lowConversionThreshold then
    let newPrice := JS.Math_max (price prompt * minPriceAdjustment) minPromptPrice in
    if JS.lt newPrice (price prompt - 1) then
      updatePromptPrice env (id prompt) newPrice ;;;
      ret (updatedPrompts ++
           [{| upd_id := id prompt; oldPrice := price prompt; newPrice := newPrice;
               reason := decrease_low_conversion |}])
    else ret updatedPrompts
  else ret updatedPrompts.

Definition error_notification (subj text err : string) : Notification :=
  {| n_type := t_error; subject := subj; message := text ++ err; attachment := None |}.

Definition hourlyOptimization (stats : list Prompt) : M (list PriceUpdate) :=
  try_catch
    (for_of stats hourly_body [])
    (fun err =>
       sendNotification
         (error_notification "Erreur d'optimisation horaire"
            "Une erreur est survenue lors de l'optimisation horaire: " err) ;;;
       ret []).

Definition content_patch (t d : option string) (testing : option bool) : UpdateData :=
  {| u_title := t; u_description := d; u_currently_testing := testing;
     u_price := None; u_on_promotion := None; u_promotion_percentage := None;
     u_promotion_end_date := None; u_last_refresh_date := None |}.

(** [array[i]] for a number [i]. *)
Definition index {A : Type} (l : list A) (i : Z) : option A :=
  if (i <? 0)%Z then None else nth_error l (Z.to_nat i).

(** [setTimeout(.., duration)]: the conclusion of the test is registered and
    runs later, outside the call. *)
Definition scheduleTestEnd (promptId : string) (variationIndex duration : Z) : M unit :=
  fun w => (Ok tt, add_request (Timeout promptId variationIndex duration) w).

(** [(a, b) => b.conversion - a.conversion] is negative. *)
Definition by_conversion_desc (a b : TestResult) : bool :=
  JS.lt (conversion b - conversion a) 0.

Definition startABTest (prompt : Prompt) : M (option Action) :=
  try_catch
    (variations <- retrievePromptVariations (id prompt) ;;
     match variations with
     | None => ret None
     | Some v =>
       match titles v, descriptions v with
       | Some ts, Some ds =>
         if (List.length ts <=? 1)%nat then ret None
         else if match tested_count v with
                 | Some n => (Z.of_nat (List.length ts) <=? n)%Z
                 | None => false
                 end then
           match results v with
           | None => ret None
           | Some [] => ret None
           | Some rs =>
             match JS.sort by_conversion_desc rs with
             | [] => throw "Cannot read properties of undefined"
             | bestVariation :: _ =>
               updatePrompt (id prompt)
                 (content_patch (Some (r_title bestVariation))
                    (Some (r_description bestVariation)) None) ;;;
               t <- Date_now ;;
               ret (Some (apply_best_variation (id prompt) bestVariation t))
             end
           end
         else
           let nextIndex := from_option (tested_count v) 0%Z in
           updatePrompt (id prompt)
             (content_patch (index ts nextIndex) (index ds nextIndex) (Some true)) ;;;
           scheduleTestEnd (id prompt) nextIndex (3 * 24 * 60 * 60 * 1000)%Z ;;;
           t <- Date_now ;;
           ret (Some (start_ab_test (id prompt) nextIndex
                        (index ts nextIndex) (index ds nextIndex) t))
       | _, _ => ret None
       end
     end)
    (fun _ => ret None).

Definition improvePromptContent (prompt : Prompt) : M (option Action) :=
  try_catch
    (let improvedTitle := (title prompt ++ " - Version Optimisée")%string in
     let improvedDescription :=
       (description prompt ++
        " Cette version améliorée offre des résultats plus précis et personnalisés.")%string in
     updatePrompt (id prompt)
       (content_patch (Some improvedTitle) (Some improvedDescription) None) ;;;
     t <- Date_now ;;
     ret (Some (improve_content (id prompt) (title prompt) improvedTitle
                  (description prompt) improvedDescription t)))
    (fun _ => ret None).

Definition optimizeLongTermPrice (prompt : Prompt) : M (option Action) :=
  try_catch
    (price_elasticity <- getLongTermTrends (id prompt) ;;
     if negb (JS.truthy price_elasticity) then ret None
     else if JS.gt price_elasticity (Double.RN (1 # 10)) then
       let newPrice :=
         JS.Math_min (Double.mul (price prompt) (Double.RN (11 # 10))) maxPromptPrice in
       updatePromptPrice env (id prompt) newPrice ;;;
       t <- Date_now ;;
       ret (Some (optimize_long_term_price_up (id prompt) (price prompt) newPrice
                    price_elasticity t))
     else if JS.lt price_elasticity (- Double.RN (1 # 10)) then
       let newPrice :=
         JS.Math_max (Double.mul (price prompt) (Double.RN (9 # 10))) minPromptPrice in
       updatePromptPrice env (id prompt) newPrice ;;;
       t <- Date_now ;;
       ret (Some (optimize_long_term_price_down (id prompt) (price prompt) newPrice
                    price_elasticity t))
     else ret None)
    (fun _ => ret None).

(** [for (const prompt of l) { const action = await f(prompt);
    if (action) actions.push(action); }]. *)
Definition collect {A : Type} (f : A -> M (option Action)) (x : A) (actions : list Action)
  : M (list Action) :=
  action <- f x ;;
  match action with
  | Some a => ret (actions ++ [a])
  | None => ret actions
  end.

Definition promptsForTesting (allData : list Prompt) : list Prompt :=
  filter (fun p => JS.gt (total_views p) minTestViews
                   && negb (currently_testing p)
                   && JS.lt (conversion_rate p) highConversionThreshold) allData.

Definition lowPerformingPrompts (allData : list Prompt) : list Prompt :=
  filter (fun p => JS.gt (total_views p) (minTestViews * 2)
                   && JS.lt (conversion_rate p) lowConversionThreshold
                   && negb (currently_testing p)) allData.

Definition stablePricePrompts (allData : list Prompt) : list Prompt :=
  filter (fun p => JS.gt (total_views p) (minTestViews * 3)
                   && negb (price_changed_recently p)
                   && negb (currently_testing p)) allData.

Definition dailyOptimization (allData : list Prompt) : M (list Action) :=
  try_catch
    (actions <- for_of (JS.slice0 2 (promptsForTesting allData)) (collect startABTest) [] ;;
     actions <- for_of (JS.slice0 3 (lowPerformingPrompts allData))
                  (collect improvePromptContent) actions ;;
     actions <- for_of (stablePricePrompts allData) (collect optimizeLongTermPrice) actions ;;
     ret actions)
    (fun err =>
       sendNotification
         (error_notification "Erreur d'optimisation quotidienne"
            "Une erreur est survenue lors de l'optimisation quotidienne: " err) ;;;
       ret []).

(** What the daily job hands to [dailyOptimization] is the answer of the
    analytics endpoint, [response.data]: an array of listings, or a value that
    is no array, on which [allData.filter] raises a TypeError with the given
    message. *)
Inductive AllData :=
| array (l : list Prompt)
| no_array (message : string).

(** [allData.filter(p => ...)], the predicate given by what it selects of an
    array. *)
Definition Array_filter (allData : AllData) (select : list Prompt -> list Prompt)
  : M (list Prompt) :=
  match allData with
  | array l => ret (select l)
  | no_array message => throw message
  end.

(** [dailyOptimization] on any value of [allData]: the three filters are
    called inside the [try]. *)
Definition dailyOptimization_of (allData : AllData) : M (list Action) :=
  try_catch
    (forTesting <- Array_filter allData promptsForTesting ;;
     actions <- for_of (JS.slice0 2 forTesting) (collect startABTest) [] ;;
     lowPerforming <- Array_filter allData lowPerformingPrompts ;;
     actions <- for_of (JS.slice0 3 lowPerforming) (collect improvePromptContent) actions ;;
     stablePrice <- Array_filter allData stablePricePrompts ;;
     actions <- for_of stablePrice (collect optimizeLongTermPrice) actions ;;
     ret actions)
    (fun err =>
       sendNotification
         (error_notification "Erreur d'optimisation quotidienne"
            "Une erreur est survenue lors de l'optimisation quotidienne: " err) ;;;
       ret []).

Definition with_performance (prompt : Prompt) : M (Prompt * option Performance) :=
  try_catch
    (performance <- getPromptPerformance (id prompt) ;;
     ret (prompt, Some performance))
    (fun _ => ret (prompt, None)).

(** [await Promise.all(l.map(f))], the calls taken in the order of the list. *)
Fixpoint Promise_all_map {A B : Type} (f : A -> M B) (l : list A) : M (list B) :=
  match l with
  | [] => ret []
  | x :: l' => y <- f x ;; ys <- Promise_all_map f l' ;; ret (y :: ys)
  end.

Definition refreshPromptContent (prompt : Prompt) : M (option Action) :=
  try_catch
    (let refreshedTitle := (title prompt ++ " [2025 Edition]")%string in
     let refreshedDescription :=
       (description prompt ++
        " Mis à jour pour 2025 avec les dernières techniques et optimisations.")%string in
     t <- Date_now ;;
     updatePrompt (id prompt)
       {| u_title := Some refreshedTitle; u_description := Some refreshedDescription;
          u_currently_testing := None; u_price := None; u_on_promotion := None;
          u_promotion_percentage := None; u_promotion_end_date := None;
          u_last_refresh_date := Some t |} ;;;
     t' <- Date_now ;;
     ret (Some (refresh_content (id prompt) (title prompt) refreshedTitle
                  (description prompt) refreshedDescription t')))
    (fun _ => ret None).

Definition promotion_patch (p : Q) (on : bool) (pct : Q) (end_date : option Z) : UpdateData :=
  {| u_title := None; u_description := None; u_currently_testing := None;
     u_price := Some p; u_on_promotion := Some on; u_promotion_percentage := Some pct;
     u_promotion_end_date :=
       match end_date with Some d => Some (Some d) | None => None end;
     u_last_refresh_date := None |}.

Definition removePromotion (prompt : Prompt) : M (option Action) :=
  try_catch
    (let normalPrice := normal_price (price prompt) (promotion_percentage prompt) in
     updatePrompt (id prompt) (promotion_patch normalPrice false 0 None) ;;;
     t <- Date_now ;;
     ret (Some (remove_promotion (id prompt) (price prompt) normalPrice
                  (promotion_percentage prompt) t)))
    (fun _ => ret None).

Definition applyPromotion (prompt : Prompt) : M (option Action) :=
  try_catch
    (let promotionPercentage := 15 in
     let promotionPrice := promotion_price (price prompt) promotionPercentage in
     t <- Date_now ;;
     updatePrompt (id prompt)
       (promotion_patch promotionPrice true promotionPercentage
          (Some (t + 7 * 24 * 60 * 60 * 1000)%Z)) ;;;
     t' <- Date_now ;;
     ret (Some (apply_promotion (id prompt) (price prompt) promotionPrice
                  promotionPercentage t')))
    (fun _ => ret None).

Definition has_performance (P : Performance -> bool) (p : Prompt * option Performance) : bool :=
  match snd p with
  | Some perf => P perf
  | None => false
  end.

Definition weeklyRenovation : M (list Action) :=
  try_catch
    (allPrompts <- getPrompts ;;
     promptsWithPerformance <- Promise_all_map with_performance allPrompts ;;
     t <- Date_now ;;
     let oldPrompts :=
       JS.slice0 2
         (filter (fun p => match creation_date (fst p) with
                           | Some d => (d <? t - 30 * 24 * 60 * 60 * 1000)%Z
                           | None => false
                           end) promptsWithPerformance) in
     actions <- for_of oldPrompts (collect (fun p => refreshPromptContent (fst p))) [] ;;
     let highDemandPrompts :=
       JS.slice0 3
         (filter (has_performance (fun perf =>
                    JS.gt (views_last_7_days perf) 500
                    && JS.gt (perf_conversion_rate perf) highConversionThreshold))
            promptsWithPerformance) in
     actions <- for_of highDemandPrompts
                  (fun p actions =>
                     if on_promotion (fst p) then collect removePromotion (fst p) actions
                     else ret actions) actions ;;
     let lowDemandPrompts :=
       JS.slice0 3
         (filter (fun p =>
                    has_performance (fun perf =>
                      JS.gt (views_last_7_days perf) 100
                      && JS.lt (views_last_7_days perf) 300
                      && JS.lt (perf_conversion_rate perf) lowConversionThreshold) p
                    && negb (on_promotion (fst p)))
            promptsWithPerformance) in
     actions <- for_of lowDemandPrompts (collect (fun p => applyPromotion (fst p))) actions ;;
     sendNotification
       {| n_type := t_report; subject := "Rapport de rénovation hebdomadaire";
          message := "La rénovation hebdomadaire a effectué " ++ JS.toString (List.length actions)
                     ++ " actions. Voir le détail ci-joint.";
          attachment := Some actions |} ;;;
     ret actions)
    (fun err =>
       sendNotification
         (error_notification "Erreur de rénovation hebdomadaire"
            "Une erreur est survenue lors de la rénovation hebdomadaire: " err) ;;;
       ret []).

End Engine.

(** ** Dates *)

Section Dates.

(** The local time zone is [utcOffset] milliseconds ahead of UTC, at every
    instant: the setters and getters of [Date] below are those of a zone
    without daylight saving time. *)
Variable utcOffset : Z.

Definition msPerHour : Z := 60 * 60 * 1000.
Definition msPerDay : Z := 24 * msPerHour.

Definition localDay (t : Z) : Z := ((t + utcOffset) / msPerDay)%Z.

(** [date.getDay()]: 0 is Sunday; the first day of the epoch is a Thursday. *)
Definition getDay (t : Z) : Z := ((localDay t + 4) mod 7)%Z.

(** [date.getHours()]. *)
Definition getHours (t : Z) : Z := (((t + utcOffset) / msPerHour) mod 24)%Z.

(** [date.setDate(date.getDate() + n)]: the same local time, [n] days later. *)
Definition addDays (t n : Z) : Z := (t + n * msPerDay)%Z.

(** [date.setHours(hour, 0, 0, 0)]: the local day of [t], at [hour] o'clock. *)
Definition setHours (t hour : Z) : Z := (localDay t * msPerDay + hour * msPerHour - utcOffset)%Z.

Definition days : list string :=
  ["Sunday"; "Monday"; "Tuesday"; "Wednesday"; "Thursday"; "Friday"; "Saturday"]%string.

(** [array.indexOf(x)], [-1] when [x] is absent. *)
Fixpoint indexOf (l : list string) (x : string) : Z :=
  match l with
  | [] => (-1)%Z
  | y :: l' =>
      if String.eqb y x then 0%Z
      else let i := indexOf l' x in if (i =? -1)%Z then (-1)%Z else (i + 1)%Z
  end.

(** ** The promotion service ([PromotionService]) *)

(** [getNextOccurrence(day, hour)], [today] being the value of [new Date()]. *)
Definition getNextOccurrence (day : string) (hour : Z) (today : Z) : Z :=
  let dayIndex := indexOf days day in
  if (dayIndex =? -1)%Z then
    let tomorrow := addDays today 1 in
    setHours tomorrow hour
  else
    let daysToAdd := (dayIndex - getDay today)%Z in
    let daysToAdd := if (daysToAdd <=? 0)%Z then (daysToAdd + 7)%Z else daysToAdd in
    let daysToAdd :=
      if (daysToAdd =? 0)%Z && (hour <=? getHours today)%Z then 7%Z else daysToAdd in
    let nextOccurrence := addDays today daysToAdd in
    setHours nextOccurrence hour.

Record DataPoint := {
  dp_timestamp : Z;
  dp_visits : option Q
}.

(** An entry of [activityByHourDay]; [avgVisits] is absent until the pass that
    computes the averages. *)
Record Entry := {
  day : string;
  hour : Z;
  count : Q;
  visits : Q;
  avgVisits : option Q
}.

(** The key of an entry is the text [day_hour]; no day name holds a digit or
    an underscore, so two keys are equal exactly when the day and the hour
    are. *)
Definition same_key (d : string) (h : Z) (e : Entry) : bool :=
  String.eqb (day e) d && (hour e =? h)%Z.

(** One round of the loop over the data points: the entry of the key is
    created at the end of the object when it is missing, then its counters
    are increased.  The object keeps its keys in the order of insertion. *)
Fixpoint record_visit (d : string) (h : Z) (v : Q) (activityByHourDay : list Entry)
  : list Entry :=
  match activityByHourDay with
  | [] => [{| day := d; hour := h; count := 0 + 1; visits := 0 + v; avgVisits := None |}]
  | e :: rest =>
      if same_key d h e then
        {| day := day e; hour := hour e; count := count e + 1; visits := visits e + v;
           avgVisits := avgVisits e |} :: rest
      else e :: record_visit d h v rest
  end.

(** [days[date.getDay()]], the name of the day of a date. *)
Definition dayName (date : Z) : string := nth (Z.to_nat (getDay date)) days ""%string.

(** [dataPoint.visits || 0]. *)
Definition visits_or_0 (dataPoint : DataPoint) : Q :=
  match dp_visits dataPoint with
  | Some v => if JS.truthy v then v else 0
  | None => 0
  end.

Definition bucket (analytics : list DataPoint) : list Entry :=
  fold_left
    (fun activityByHourDay dataPoint =>
       let date := dp_timestamp dataPoint in
       let d := dayName date in
       let h := getHours date in
       record_visit d h (visits_or_0 dataPoint) activityByHourDay)
    analytics [].

Definition set_average (e : Entry) : Entry :=
  {| day := day e; hour := hour e; count := count e; visits := visits e;
     avgVisits := Some (visits e / count e) |}.

Definition avg (e : Entry) : Q := from_option (avgVisits e) 0.

(** [(a, b) => a.avgVisits - b.avgVisits] is negative. *)
Definition by_avgVisits (a b : Entry) : bool := JS.lt (avg a - avg b) 0.

Definition findLowActivityPeriods (analytics : list DataPoint) : list Entry :=
  let activityByHourDay := map set_average (bucket analytics) in
  let filteredPeriods :=
    filter (fun entry => (7 <=? hour entry)%Z && (hour entry <=? 23)%Z) activityByHourDay in
  JS.slice0 5 (JS.sort by_avgVisits filteredPeriods).

Definition maxPromotionDuration : Q := 3 * 24.

(** [new Date(Date.now() + actualDuration * 60 * 60 * 1000)], the sum and the
    three products in doubles.  A time beyond the range of [Date] is outside
    the model. *)
Definition promotionEndDate (t : Z) (actualDuration : Q) : Z :=
  JS.trunc
    (Double.add (inject_Z t)
       (Double.mul (Double.mul (Double.mul actualDuration 60) 60) 1000)).

Definition applyPromotionToPrompt (promptId : string) (discountPercentage durationHours : Q)
  : M Prompt :=
  try_catch
    (prompt <- getPrompt promptId ;;
     if on_promotion prompt then ret prompt
     else
       let actualDiscount := JS.Math_min discountPercentage 50 in
       let promotionPrice := promotionPrice (price prompt) actualDiscount in
       let actualDuration := JS.Math_min durationHours maxPromotionDuration in
       t <- Date_now ;;
       let endDate := promotionEndDate t actualDuration in
       updatedPrompt <- updatePrompt promptId
                          (promotion_patch promotionPrice true actualDiscount (Some endDate)) ;;
       ret updatedPrompt)
    (fun err => throw err).

Definition removePromotionFromPrompt (promptId : string) : M Prompt :=
  try_catch
    (prompt <- getPrompt promptId ;;
     if negb (on_promotion prompt) then ret prompt
     else
       let normalPrice := normalPrice (price prompt) (promotion_percentage prompt) in
       updatedPrompt <- updatePrompt promptId
                          {| u_title := None; u_description := None;
                             u_currently_testing := None; u_price := Some normalPrice;
                             u_on_promotion := Some false;
                             u_promotion_percentage := Some 0;
                             u_promotion_end_date := Some None;
                             u_last_refresh_date := None |} ;;
       ret updatedPrompt)
    (fun err => throw err).

End Dates.

(** ** The selection of listings for a promotion ([PromotionService]) *)

Section Selection.

(** [[...l].sort(() => 0.5 - Math.random())]: the order a sort gives under a
    random comparator depends on the engine; it is a parameter here, and all
    that is known of it is that it permutes the list. *)
Variable shuffle : list Prompt -> list Prompt.

(** [selectPromptsForPromotion(prompts, count)], for a count that is a natural
    number, as at its two call sites. *)
Definition selectPromptsForPromotion (prompts : list Prompt) (count : nat) : list Prompt :=
  let availablePrompts := filter (fun p => negb (on_promotion p)) prompts in
  if (List.length availablePrompts <=? count)%nat then availablePrompts
  else
    let shuffled := shuffle availablePrompts in
    JS.slice0 count shuffled.

End Selection.

(** ** The end of a test ([OptimizationEngine.scheduleTestEnd]) *)

Section TestEnd.

(** [storeTestResults] of [services/variation-storage], whose source is not
    part of the repository's files: it is a parameter of the callback. *)
Variable storeTestResults : string -> Z -> Performance -> M unit.

(** The function [scheduleTestEnd] hands to [setTimeout]; it runs when the
    timer fires. *)
Definition testEnd (promptId : string) (variationIndex : Z) : M unit :=
  try_catch
    (results <- getPromptPerformance promptId ;;
     storeTestResults promptId variationIndex results ;;;
     updatePrompt promptId (content_patch None None (Some false)) ;;;
     ret tt)
    (fun _ => ret tt).

End TestEnd.

(** ** The cache of the statistics ([AnalyticsService.getPromptStats]) *)

(** [dataCache.promptStats]: the data, [null] at first, and the time they were
    fetched; the time to live is one hour. *)
Record Cache := {
  c_data : option (list Prompt);
  c_timestamp : Z
}.

Definition ttl : Z := 60 * 60 * 1000.

(** [api.getPromptStats()]: the statistics of the listings are the listings of
    the catalog with their figures. *)
Definition api_getPromptStats : M (list Prompt) :=
  try_catch (remote "Network Error" ;;; fun w => (Ok (catalog w), w))
            (fun err => throw err).

(** [getPromptStats()], the cache of the service being passed in and returned
    with the statistics; a call that throws leaves the cache as it was. *)
Definition getPromptStats (cache : Cache) : M (list Prompt * Cache) :=
  try_catch
    (t <- Date_now ;;
     match c_data cache with
     | Some d =>
         if (t - c_timestamp cache <? ttl)%Z then ret (d, cache)
         else
           stats <- api_getPromptStats ;;
           ret (stats, {| c_data := Some stats; c_timestamp := t |})
     | None =>
         stats <- api_getPromptStats ;;
         ret (stats, {| c_data := Some stats; c_timestamp := t |})
     end)
    (fun err =>
       match c_data cache with
       | Some d => ret (d, cache)
       | None => throw err
       end).

(** The hourly job of the scheduler: the statistics, then the hourly run, all
    inside a [try] whose handler only logs. *)
Definition hourlyJob (env : Env) (cache : Cache) : M Cache :=
  try_catch
    (r <- getPromptStats cache ;;
     hourlyOptimization env (fst r) ;;;
     ret (snd r))
    (fun _ => ret cache).

(** ** Bundles ([PromotionService.createBundle]) *)

(** The bundle handed to [api.createBundle]. *)
Record Bundle := {
  b_name : string;
  b_description : string;
  prompt_ids : list string;
  b_price : Q;
  original_price : Q
}.

Definition bundleDiscount : Q := 20.

(** [s || d] for a string argument that may be left out. *)
Definition string_or_default (s : option string) (d : string) : string :=
  match s with
  | Some (String c s') => String c s'
  | _ => d
  end.

Section Bundles.

(** [api.createBundle]: the POST of the bundle, answered with the bundle the
    server created. *)
Variable api_createBundle : Bundle -> M Bundle.

(** [createBundle(promptIds, name, description)], [promptIds] an array; of a
    rejected [Promise.all] the first rejection is the one thrown. *)
Definition createBundle (promptIds : list string) (name description : option string)
  : M Bundle :=
  try_catch
    (if (List.length promptIds <? 2)%nat
     then throw "Un bundle doit contenir au moins 2 prompts"
     else
       prompts <- Promise_all_map getPrompt promptIds ;;
       let originalPrice := fold_left (fun sum prompt => sum + price prompt) prompts 0 in
       let bundlePrice := JS.Math_round (originalPrice * (1 - bundleDiscount / 100)) in
       let bundleData :=
         {| b_name :=
              string_or_default name
                ("Bundle of " ++ JS.toString (List.length prompts) ++ " prompts");
            b_description :=
              string_or_default description
                "Save 20% on this collection of premium prompts";
            prompt_ids := promptIds;
            b_price := bundlePrice;
            original_price := originalPrice |} in
       api_createBundle bundleData)
    (fun error => throw error).

End Bundles.

(** ** The calendar of [Date] *)

(** The calendar is the one of the language's standard: [DayFromYear],
    [InLeapYear], [YearFromTime], [MonthFromTime], [DateFromTime] and
    [MakeDay], on day numbers counted from the epoch. *)
Definition DayFromYear (y : Z) : Z :=
  (365 * (y - 1970) + (y - 1969) / 4 - (y - 1901) / 100 + (y - 1601) / 400)%Z.

Definition InLeapYear (y : Z) : bool :=
  ((y mod 4 =? 0) && (negb (y mod 100 =? 0) || (y mod 400 =? 0)))%Z.

(** The year of a day is the largest [y] with [DayFromYear y <= d]; it is
    searched upwards, a year at a time, from a year that is not after it. *)
Fixpoint year_from (fuel : nat) (y d : Z) : Z :=
  match fuel with
  | O => y
  | S fuel' => if (DayFromYear (y + 1) <=? d)%Z then year_from fuel' (y + 1)%Z d else y
  end.

Definition YearFromDay (d : Z) : Z :=
  let y0 := (1969 + (if 0 <=? d then d / 366 else d / 365))%Z in
  year_from (Z.to_nat ((d - DayFromYear y0) / 365 + 1)) y0 d.

(** The number, within its year, of the first day of the month [m], from 0
    for January to 11 for December. *)
Definition monthStart (leap : bool) (m : Z) : Z :=
  (nth (Z.to_nat m) [0; 31; 59; 90; 120; 151; 181; 212; 243; 273; 304; 334] 0
   + (if leap && (2 <=? m) then 1 else 0))%Z.

(** The month of a day of the year: the months that have begun, January
    apart, are counted. *)
Definition MonthFromDay (leap : bool) (dayWithinYear : Z) : Z :=
  Z.of_nat
    (List.length
       (filter (fun m => (monthStart leap m <=? dayWithinYear)%Z)
               [1; 2; 3; 4; 5; 6; 7; 8; 9; 10; 11]%Z)).

Definition MakeDay (year month date : Z) : Z :=
  let ym := (year + month / 12)%Z in
  let mn := (month mod 12)%Z in
  (DayFromYear ym + monthStart (InLeapYear ym) mn + date - 1)%Z.

(** [Math.ceil]. *)
Definition Math_ceil (x : Q) : Q := inject_Z (Qceiling x).

(** The decimal writing of an integer, as a template literal prints it. *)
Definition Z_toString (z : Z) : string := NilZero.string_of_int (Z.to_int z).

(** ** Special events and dynamic promotions ([PromotionService]) *)

Record SpecialEvent := {
  ev_name : string;
  ev_month : Z;
  ev_day : Z;
  ev_duration : Z
}.

Definition specialEvents : list SpecialEvent :=
  [ {| ev_name := "Summer Sale"; ev_month := 6; ev_day := 21; ev_duration := 7 * 24 |};
    {| ev_name := "Black Friday"; ev_month := 11; ev_day := 25; ev_duration := 3 * 24 |};
    {| ev_name := "Cyber Monday"; ev_month := 11; ev_day := 28; ev_duration := 1 * 24 |};
    {| ev_name := "New Year Sale"; ev_month := 1; ev_day := 1; ev_duration := 7 * 24 |} ].

(** An element of [upcomingEvents]: the event, spread, with its dates. *)
Record UpcomingEvent := {
  event : SpecialEvent;
  startDate : Z;
  endDate : Z;
  daysUntilEvent : Q
}.

(** A promotion as it is sent to [api.schedulePromotion]; the two times are
    kept as dates, [toISOString] only printing them. *)
Record Promotion := {
  pr_name : string;
  pr_prompt_ids : list string;
  discount_percentage : Q;
  start_time : Z;
  end_time : Z;
  pr_description : string
}.

Definition flashDiscount : Q := 25.
Definition specialEventDiscount : Q := 30.

(** [api.schedulePromotion]: the POST of the promotion; the server answers
    with the promotion it registered, which is the one it was sent. *)
Definition schedulePromotion (promotionData : Promotion) : M Promotion :=
  try_catch (remote "Network Error" ;;; ret promotionData) (fun error => throw error).

(** The elements of a list with their positions, counted from [n]. *)
Definition indexed {A : Type} (n : nat) (l : list A) : list (nat * A) :=
  combine (seq n (List.length l)) l.

Section Promotions.

Variable utcOffset : Z.

(** [date.getFullYear()]. *)
Definition getFullYear (t : Z) : Z := YearFromDay (localDay utcOffset t).

(** [new Date(year, monthIndex, day)]: the local midnight that begins the
    day; a year from 0 to 99 stands for the year 1900 later. *)
Definition new_Date (year monthIndex d : Z) : Z :=
  let year := if (0 <=? year)%Z && (year <=? 99)%Z then (1900 + year)%Z else year in
  (MakeDay year monthIndex d * msPerDay - utcOffset)%Z.

(** [date.setFullYear(year)]: the same month, day of the month and time of
    the day, in the year [year]. *)
Definition setFullYear (t year : Z) : Z :=
  let dayNumber := localDay utcOffset t in
  let y := YearFromDay dayNumber in
  let dayWithinYear := (dayNumber - DayFromYear y)%Z in
  let m := MonthFromDay (InLeapYear y) dayWithinYear in
  let date := (dayWithinYear - monthStart (InLeapYear y) m + 1)%Z in
  (MakeDay year m date * msPerDay + (t + utcOffset) mod msPerDay - utcOffset)%Z.

(** One round of the loop of [checkUpcomingSpecialEvents]. *)
Definition upcoming (today : Z) (upcomingEvents : list UpcomingEvent) (e : SpecialEvent)
  : list UpcomingEvent :=
  let eventDate := new_Date (getFullYear today) (ev_month e - 1) (ev_day e) in
  let eventDate :=
    if (eventDate <? today)%Z then setFullYear eventDate (getFullYear today + 1)
    else eventDate in
  let daysUntil := Math_ceil (inject_Z (eventDate - today) / inject_Z (1000 * 60 * 60 * 24)) in
  if Qle_bool daysUntil 14 then
    upcomingEvents ++
    [{| event := e;
        startDate := eventDate;
        endDate := (eventDate + ev_duration e * 60 * 60 * 1000)%Z;
        daysUntilEvent := daysUntil |}]
  else upcomingEvents.

(** [checkUpcomingSpecialEvents()], [today] being the value of [new Date()]. *)
Definition checkUpcomingSpecialEvents (today : Z) : list UpcomingEvent :=
  fold_left (upcoming today) specialEvents [].

(** The shuffles of a run are independent: the call of
    [selectPromptsForPromotion] numbered [k] shuffles with [shuffle k]. *)
Variable shuffle : nat -> list Prompt -> list Prompt.

(** [analyticsService.getHourlyAnalytics(days)], which answers from its cache
    or from the server. *)
Variable getHourlyAnalytics : Z -> M (list DataPoint).

(** The body of the loop over the periods of low activity; [continue] and the
    handler both leave the list as it is. *)
Definition flash_promotion (allPrompts : list Prompt) (x : nat * Entry)
    (createdPromotions : list Promotion) : M (list Promotion) :=
  let (k, period) := x in
  try_catch
    (let selectedPrompts := selectPromptsForPromotion (shuffle k) allPrompts 3 in
     if (List.length selectedPrompts =? 0)%nat then ret createdPromotions
     else
       today <- Date_now ;;
       let nextOccurrence := getNextOccurrence utcOffset (day period) (hour period) today in
       let promotion :=
         {| pr_name := "Flash Sale " ++ day period ++ " " ++ Z_toString (hour period) ++ "h";
            pr_prompt_ids := map id selectedPrompts;
            discount_percentage := flashDiscount;
            start_time := nextOccurrence;
            end_time := (nextOccurrence + 3 * 60 * 60 * 1000)%Z;
            pr_description := "Limited-time 25% discount on selected prompts" |} in
       createdPromotion <- schedulePromotion promotion ;;
       ret (createdPromotions ++ [createdPromotion]))
    (fun _ => ret createdPromotions).

(** The body of the loop over the upcoming events. *)
Definition event_promotion (allPrompts : list Prompt) (x : nat * UpcomingEvent)
    (createdPromotions : list Promotion) : M (list Promotion) :=
  let (k, e) := x in
  try_catch
    (let selectedPrompts :=
       selectPromptsForPromotion (shuffle k) allPrompts (List.length allPrompts) in
     if (List.length selectedPrompts =? 0)%nat then ret createdPromotions
     else
       let promotion :=
         {| pr_name := ev_name (event e);
            pr_prompt_ids := map id selectedPrompts;
            discount_percentage := specialEventDiscount;
            start_time := startDate e;
            end_time := endDate e;
            pr_description := ev_name (event e) ++ ": 30% off everything!" |} in
       createdPromotion <- schedulePromotion promotion ;;
       ret (createdPromotions ++ [createdPromotion]))
    (fun _ => ret createdPromotions).

Definition setupDynamicPromotions : M (list Promotion) :=
  try_catch
    (hourlyAnalytics <- getHourlyAnalytics 7 ;;
     let lowActivityPeriods := findLowActivityPeriods utcOffset hourlyAnalytics in
     allPrompts <- getPrompts ;;
     createdPromotions <-
       for_of (indexed 0 (JS.slice0 3 lowActivityPeriods)) (flash_promotion allPrompts) [] ;;
     today <- Date_now ;;
     let upcomingEvents := checkUpcomingSpecialEvents today in
     createdPromotions <-
       for_of (indexed 3 upcomingEvents) (event_promotion allPrompts) createdPromotions ;;
     (if (0 <? List.length createdPromotions)%nat then
        sendNotification
          {| n_type := t_info;
             subject := "Promotions programmées";
             message := JS.toString (List.length createdPromotions)
                        ++ " promotions ont été configurées automatiquement.";
             attachment := None |} ;;;
        ret tt
      else ret tt) ;;;
     ret createdPromotions)
    (fun error =>
       sendNotification
         {| n_type := t_error;
            subject := "Erreur de configuration des promotions";
            message := "Une erreur est survenue lors de la configuration des promotions: "
                       ++ error;
            attachment := None |} ;;;
       ret []).

End Promotions.

(** ** Vocabulary of the properties *)

(** What the engine guarantees of a price change it records: the bound of the
    side the price moves to, a move of more than one unit, and the other bound
    when the old price respects it. *)
Definition bounded_change (env : Env) (r : PriceUpdate) : Prop :=
  match reason r with
  | increase_high_conversion =>
      newPrice r <= maxPromptPrice env /\ oldPrice r + 1 < newPrice r /\
      (minPromptPrice env <= oldPrice r -> minPromptPrice env <= newPrice r)
  | decrease_low_conversion =>
      minPromptPrice env <= newPrice r /\ newPrice r < oldPrice r - 1 /\
      (oldPrice r <= maxPromptPrice env -> newPrice r <= maxPromptPrice env)
  end.

(** The process environment without the two price variables. *)
Definition default_env : Env := {| MIN_PROMPT_PRICE := None; MAX_PROMPT_PRICE := None |}.

(** A listing for the examples, with its identifier, price, conversion rate,
    views of the last hour, total views and experiment flag. *)
Definition listing (i : string) (p c v tv : Q) (testing : bool) : Prompt :=
  {| id := i; title := "Title"; description := "Description"; price := p;
     conversion_rate := c; views_last_hour := v; total_views := tv;
     currently_testing := testing; price_changed_recently := false;
     on_promotion := false; promotion_percentage := 0; promotion_end_date := None;
     creation_date := None; last_refresh_date := None |}.

(** A world for the examples: a catalog and a fault schedule, nothing sent yet. *)
Definition world (c : list Prompt) (f : list bool) : World :=
  {| now := 0; faults := f; catalog := c; variationStorage := []; performances := [];
     random := []; requests := []; outbox := [] |}.

(** The world after a remote call that did not fail: the fault schedule has
    lost its first entry. *)
Definition pop_fault (w : World) : World :=
  match faults w with
  | [] => w
  | _ :: f => set_faults f w
  end.

(** The [k]-th remote call from now on does not fail. *)
Definition succeeds (k : nat) (w : World) : Prop := nth k (faults w) false = false.

(** The world after a patch that succeeded on the stored listing [p]. *)
Definition patched (promptId : string) (p : Prompt) (data : UpdateData) (w : World) : World :=
  let w1 := pop_fault (add_request (Patch promptId data) w) in
  set_catalog (store_prompt (applyPatch p data) (catalog w1)) w1.

(** The example world with stored variants and performances. *)
Definition world_with (c : list Prompt) (f : list bool)
    (vs : list (string * option Variations)) (ps : list (string * Performance)) : World :=
  {| now := 0; faults := f; catalog := c; variationStorage := vs; performances := ps;
     random := []; requests := []; outbox := [] |}.

Definition result_of (t : string) (c : Q) : TestResult :=
  {| r_title := t; r_description := "about " ++ t; conversion := c |}.

(** An experiment whose two variants are tested, with three results, the last
    two of equal conversion. *)
Definition finished_experiment : Variations :=
  {| titles := Some ["A"; "B"]%string; descriptions := Some ["a"; "b"]%string;
     tested_count := Some 2%Z;
     results := Some [result_of "A" 5; result_of "B" 7; result_of "C" 7] |}.

(** An experiment with a single variant, tested, with its result. *)
Definition single_variant_experiment : Variations :=
  {| titles := Some ["A"]%string; descriptions := Some ["a"]%string;
     tested_count := Some 1%Z; results := Some [result_of "A" 5] |}.

(** A computation that returns in every world: it never throws. *)
Definition total {A : Type} (c : M A) : Prop :=
  forall w, exists a w', c w = (Ok a, w').

(** A computation that throws whenever a remote call it made failed: [used]
    holds the entries of the fault schedule its run took. *)
Definition fails_with_its_calls {A : Type} (c : M A) : Prop :=
  forall w r w', c w = (r, w') ->
    exists used, faults w = used ++ faults w' /\ (In true used -> exists e, r = Throw e).

(** A helper that contains the failures of its remote calls: it returns in
    every world, and what it returns is [none] when a remote call it made
    failed. *)
Definition contains_failures {A : Type} (none : A) (c : M A) : Prop :=
  forall w, exists r w' used,
    c w = (Ok r, w') /\ faults w = used ++ faults w' /\ (In true used -> r = none).

(** The server does not know the listing. *)
Definition unknown (promptId : string) (w : World) : Prop :=
  find_prompt promptId (catalog w) = None.

(** For a listing the server does not know: the computation leaves it
    unknown; it throws; it returns no action. *)
Definition keeps_unknown {A : Type} (promptId : string) (c : M A) : Prop :=
  forall w r w', unknown promptId w -> c w = (r, w') -> unknown promptId w'.

Definition throws_unknown {A : Type} (promptId : string) (c : M A) : Prop :=
  forall w r w', unknown promptId w -> c w = (r, w') ->
    unknown promptId w' /\ exists e, r = Throw e.

Definition no_action_unknown (promptId : string) (c : M (option Action)) : Prop :=
  forall w r w', unknown promptId w -> c w = (r, w') ->
    unknown promptId w' /\ forall a, r <> Ok (Some a).

(** A computation that sends no notification, whatever its outcome. *)
Definition quiet {A : Type} (c : M A) : Prop :=
  forall w r w', c w = (r, w') -> outbox w' = outbox w.

(** The actions of type [start_ab_test] or [apply_best_variation]. *)
Definition is_experiment_action (a : Action) : bool :=
  match a with
  | start_ab_test _ _ _ _ _ | apply_best_variation _ _ _ => true
  | _ => false
  end.

(** The actions of type [improve_content]. *)
Definition is_improve_content (a : Action) : bool :=
  match a with
  | improve_content _ _ _ _ _ _ => true
  | _ => false
  end.

(** The actions of the long-term price pass. *)
Definition is_long_term_price (a : Action) : bool :=
  match a with
  | optimize_long_term_price_up _ _ _ _ _ | optimize_long_term_price_down _ _ _ _ _ => true
  | _ => false
  end.

(** Every action a helper returns satisfies [P]. *)
Definition yields (P : Action -> Prop) (c : M (option Action)) : Prop :=
  forall w a w', c w = (Ok (Some a), w') -> P a.

(** The list a run returned, empty when it threw. *)
Definition returned {A : Type} (r : Result (list A) * World) : list A :=
  match fst r with
  | Ok l => l
  | Throw _ => []
  end.

(** Four listings that qualify for every pass of the daily run, with a
    finished experiment for each. *)
Definition four_candidates : list Prompt :=
  [listing "a" 50 (1 # 100) 0 400 false; listing "b" 50 (1 # 100) 0 400 false;
   listing "c" 50 (1 # 100) 0 400 false; listing "d" 50 (1 # 100) 0 400 false].

Definition four_experiments : list (string * option Variations) :=
  [("a"%string, Some finished_experiment); ("b"%string, Some finished_experiment);
   ("c"%string, Some finished_experiment); ("d"%string, Some finished_experiment)].

(** A number that is an integer. *)
Definition is_integer (x : Q) : Prop := exists z : Z, x == inject_Z z.

(** An environment whose minimum price is 12.5. *)
Definition fractional_env : Env :=
  {| MIN_PROMPT_PRICE := Some (25 # 2); MAX_PROMPT_PRICE := None |}.

(** An environment whose minimum price, 200, is above the default maximum. *)
Definition inverted_env : Env :=
  {| MIN_PROMPT_PRICE := Some 200; MAX_PROMPT_PRICE := None |}.

(** The data points of a day of the week and an hour of the day, and the sum
    of their visits. *)
Definition in_bucket (utcOffset : Z) (d : string) (h : Z) (dataPoint : DataPoint) : bool :=
  String.eqb (dayName utcOffset (dp_timestamp dataPoint)) d
  && (getHours utcOffset (dp_timestamp dataPoint) =? h)%Z.

Definition points_of (utcOffset : Z) (d : string) (h : Z) (analytics : list DataPoint)
  : list DataPoint :=
  filter (in_bucket utcOffset d h) analytics.

Definition total_visits (points : list DataPoint) : Q :=
  fold_right (fun dataPoint s => s + visits_or_0 dataPoint) 0 points.

Definition number_of (points : list DataPoint) : Q := inject_Z (Z.of_nat (List.length points)).

(** The key of an entry. *)
Definition key (e : Entry) : string * Z := (day e, hour e).

(** An entry of the object counts the points of its key among [done]. *)
Definition counts (utcOffset : Z) (done : list DataPoint) (e : Entry) : Prop :=
  points_of utcOffset (day e) (hour e) done <> [] /\
  count e == number_of (points_of utcOffset (day e) (hour e) done) /\
  visits e == total_visits (points_of utcOffset (day e) (hour e) done).

(** A series of four points: Monday 5 January 1970 at 09:00 and 10:00, the
    next Monday at 10:00 and at 03:00. *)
Definition four_points : list DataPoint :=
  [{| dp_timestamp := 4 * msPerDay + 9 * msPerHour; dp_visits := Some 10 |};
   {| dp_timestamp := 4 * msPerDay + 10 * msPerHour; dp_visits := Some 50 |};
   {| dp_timestamp := 11 * msPerDay + 10 * msPerHour; dp_visits := Some 20 |};
   {| dp_timestamp := 11 * msPerDay + 3 * msPerHour; dp_visits := Some 1 |}].

(** The invariant of the loop of [findLowActivityPeriods] once the points
    [done] are read: the keys of the object are distinct, every entry counts
    the points of its key and has no average yet, and every point has its
    entry. *)
Definition bucketed (utcOffset : Z) (done : list DataPoint) (acc : list Entry) : Prop :=
  NoDup (map key acc) /\
  (forall e, In e acc -> counts utcOffset done e /\ avgVisits e = None) /\
  (forall dataPoint, In dataPoint done ->
     exists e, In e acc /\
               key e = (dayName utcOffset (dp_timestamp dataPoint),
                        getHours utcOffset (dp_timestamp dataPoint))).

(** ** The pricing policy as a function *)






(** The actions of type [refresh_content], [remove_promotion] and
    [apply_promotion]. *)
Definition is_refresh_content (a : Action) : bool :=
  match a with
  | refresh_content _ _ _ _ _ _ => true
  | _ => false
  end.

Definition is_remove_promotion (a : Action) : bool :=
  match a with
  | remove_promotion _ _ _ _ _ => true
  | _ => false
  end.

Definition is_apply_promotion (a : Action) : bool :=
  match a with
  | apply_promotion _ _ _ _ _ => true
  | _ => false
  end.

(** A listing created forty days before the clock of the example worlds, on
    promotion or not, and a world where each listing has a performance. *)
Definition old_listing (i : string) (p : Q) (promoted : bool) (pct : Q) : Prompt :=
  {| id := i; title := "Title"; description := "Description"; price := p;
     conversion_rate := 0; views_last_hour := 0; total_views := 0;
     currently_testing := false; price_changed_recently := false;
     on_promotion := promoted; promotion_percentage := pct; promotion_end_date := None;
     creation_date := Some (- (40 * 24 * 60 * 60 * 1000))%Z; last_refresh_date := None |}.

Definition weekly_world : World :=
  world_with
    [old_listing "a" 85 true 15; old_listing "b" 100 false 0; old_listing "c" 100 false 0]
    []
    []
    [("a"%string, {| views_last_7_days := 600; perf_conversion_rate := 20 # 100 |});
     ("b"%string, {| views_last_7_days := 200; perf_conversion_rate := 1 # 100 |});
     ("c"%string, {| views_last_7_days := 50; perf_conversion_rate := 1 # 100 |})].

(** The hours kept by [findLowActivityPeriods], on an entry and on a point. *)
Definition day_hours (entry : Entry) : bool := (7 <=? hour entry)%Z && (hour entry <=? 23)%Z.

Definition by_day (utcOffset : Z) (dataPoint : DataPoint) : bool :=
  (7 <=? getHours utcOffset (dp_timestamp dataPoint))%Z.



(** The world after [n] remote calls without effect. *)
Definition after_calls (n : nat) (w : World) : World := Nat.iter n pop_fault w.

(** A server that answers with the bundle it was sent. *)
Definition echo_bundle (b : Bundle) : M Bundle := ret b.

(** The local midnight that begins the day of the event in the year of
    [today]. *)
Definition this_year (utcOffset today : Z) (e : SpecialEvent) : Z :=
  new_Date utcOffset (getFullYear utcOffset today) (ev_month e - 1) (ev_day e).

(** An upcoming event begins at a local midnight that is not before [today]
    and at most 14 days after it: the one of this year, or one a year or more
    after that; it ends after its duration, which is positive. *)
Definition well_dated (utcOffset today : Z) (u : UpcomingEvent) : Prop :=
  (today <= startDate u <= today + 14 * msPerDay)%Z /\
  ((startDate u + utcOffset) mod msPerDay = 0)%Z /\
  endDate u = (startDate u + ev_duration (event u) * msPerHour)%Z /\
  (startDate u < endDate u)%Z /\
  (startDate u = this_year utcOffset today (event u) \/
   (this_year utcOffset today (event u) + 365 * msPerDay <= startDate u)%Z).

(** The second world shows the clock, the catalog and the outbox of the
    first. *)
Definition same_view (w w' : World) : Prop :=
  now w' = now w /\ catalog w' = catalog w /\ outbox w' = outbox w.

(** A call that only reads. *)
Definition reads_only {A : Type} (c : M A) : Prop :=
  forall w r w', c w = (r, w') -> same_view w w'.

(** The listings of the catalog that are not on promotion. *)
Definition available (w : World) : list Prompt :=
  filter (fun p => negb (on_promotion p)) (catalog w).

(** A flash sale: 25%, on one to three available listings, for three hours
    from an hour sharp that is still to come. *)
Definition flash_sale (utcOffset : Z) (w : World) (p : Promotion) : Prop :=
  discount_percentage p = 25 /\
  (now w < start_time p)%Z /\
  ((start_time p + utcOffset) mod msPerHour = 0)%Z /\
  end_time p = (start_time p + 3 * msPerHour)%Z /\
  (1 <= List.length (pr_prompt_ids p) <= 3)%nat /\
  (forall k, In k (pr_prompt_ids p) -> In k (map id (available w))).

(** The sale of an event: 30%, on all the available listings, of which there
    is one at least, from a local midnight of the next 14 days to a later
    time. *)
Definition event_sale (utcOffset : Z) (w : World) (p : Promotion) : Prop :=
  discount_percentage p = 30 /\
  (now w <= start_time p <= now w + 14 * msPerDay)%Z /\
  ((start_time p + utcOffset) mod msPerDay = 0)%Z /\
  (start_time p < end_time p)%Z /\
  pr_prompt_ids p = map id (available w) /\
  pr_prompt_ids p <> [].

(** An analytics service that answers with the given points, and the shuffle
    that reverses. *)
Definition analytics_of (points : list DataPoint) (days : Z) : M (list DataPoint) :=
  ret points.

Definition reversing (k : nat) (l : list Prompt) : list Prompt := rev l.

(** A listing on promotion. *)
Definition promoted (i : string) (p : Q) : Prompt :=
  {| id := i; title := "Title"; description := "Description"; price := p;
     conversion_rate := 5 # 100; views_last_hour := 0; total_views := 150;
     currently_testing := false; price_changed_recently := false;
     on_promotion := true; promotion_percentage := 15; promotion_end_date := None;
     creation_date := None; last_refresh_date := None |}.

(** The double of the model and the double of the kernel have the same value. *)
Definition same_double (x : Q) (f : PrimFloat.float) : bool :=
  match Kernel.value f with
  | Some v => Qeq_bool v x
  | None => false
  end.

(** [Math.random() * 0.4 - 0.2] for the draw [r], in doubles. *)
Definition elasticity_of (r : Q) : Q :=
  Double.sub (Double.mul r (Double.RN (4 # 10))) (Double.RN (2 # 10)).

(** A world with the listing, its performance, and one draw to come. *)
Definition drawing (p : Prompt) (r : Q) : World :=
  {| now := 0; faults := []; catalog := [p]; variationStorage := [];
     performances := [(id p, {| views_last_7_days := 0; perf_conversion_rate := 0 |})];
     random := [r]; requests := []; outbox := [] |}.

(** * Properties *)

(** ** Numbers *)

Lemma gt_true (x y : Q) : JS.gt x y = true <-> y < x.
Proof.
  unfold JS.gt. rewrite Qgt_alt. destruct (x ?= y); split; congruence.
Qed.

Lemma lt_true (x y : Q) : JS.lt x y = true <-> x < y.
Proof.
  unfold JS.lt. rewrite Qlt_alt. destruct (x ?= y); split; congruence.
Qed.

Lemma lt_false (x y : Q) : JS.lt x y = false <-> y <= x.
Proof.
  split; intro H.
  - destruct (Qlt_le_dec x y) as [L | L]; [| exact L].
    apply lt_true in L. congruence.
  - destruct (JS.lt x y) eqn:E; [| reflexivity].
    apply lt_true in E. lra.
Qed.

Lemma gt_false (x y : Q) : JS.gt x y = false <-> x <= y.
Proof.
  split; intro H.
  - destruct (Qlt_le_dec y x) as [L | L]; [| exact L].
    apply gt_true in L. congruence.
  - destruct (JS.gt x y) eqn:E; [| reflexivity].
    apply gt_true in E. lra.
Qed.

Lemma Math_min_le_r (x y : Q) : JS.Math_min x y <= y.
Proof. apply Q.le_min_r. Qed.

Lemma Math_min_le_l (x y : Q) : JS.Math_min x y <= x.
Proof. apply Q.le_min_l. Qed.

Lemma Math_max_ge_r (x y : Q) : y <= JS.Math_max x y.
Proof. apply Q.le_max_r. Qed.

Lemma Math_max_ge_l (x y : Q) : x <= JS.Math_max x y.
Proof. apply Q.le_max_l. Qed.

Lemma Math_min_cases (x y : Q) :
  (x <= y /\ JS.Math_min x y == x) \/ (y <= x /\ JS.Math_min x y == y).
Proof.
  unfold JS.Math_min.
  destruct (Q.min_spec x y) as [[L E] | [L E]]; [left | right]; split; auto; lra.
Qed.

Lemma Math_max_cases (x y : Q) :
  (y <= x /\ JS.Math_max x y == x) \/ (x <= y /\ JS.Math_max x y == y).
Proof.
  unfold JS.Math_max.
  destruct (Q.max_spec x y) as [[L E] | [L E]]; [right | left]; split; auto; lra.
Qed.

Lemma inject_Z_sub (x y : Z) : inject_Z (x - y) == inject_Z x - inject_Z y.
Proof.
  unfold Z.sub. rewrite inject_Z_plus, inject_Z_opp. reflexivity.
Qed.

(** [Math.round] is within a half of its argument, halves going up. *)
Lemma Math_round_bounds (x : Q) : x - (1 # 2) < JS.Math_round x /\ JS.Math_round x <= x + (1 # 2).
Proof.
  unfold JS.Math_round. split.
  - pose proof (Qlt_floor (x + (1 # 2))) as H.
    rewrite inject_Z_plus in H. change (inject_Z 1) with 1 in H. lra.
  - apply Qfloor_le.
Qed.

Lemma Math_round_mono (x y : Q) : x <= y -> JS.Math_round x <= JS.Math_round y.
Proof.
  intro H. unfold JS.Math_round. rewrite <- Zle_Qle.
  apply Qfloor_resp_le. lra.
Qed.

Lemma Math_round_integer (z : Z) : JS.Math_round (inject_Z z) = inject_Z z.
Proof.
  unfold JS.Math_round. f_equal.
  apply Z.le_antisymm.
  - apply Z.lt_succ_r. rewrite Zlt_Qlt.
    pose proof (Qfloor_le (inject_Z z + (1 # 2))) as H.
    unfold Z.succ. rewrite inject_Z_plus. change (inject_Z 1) with 1. lra.
  - rewrite <- (Qfloor_Z z) at 1. apply Qfloor_resp_le. lra.
Qed.

Lemma Math_round_comp (x y : Q) : x == y -> JS.Math_round x = JS.Math_round y.
Proof.
  intro H. unfold JS.Math_round. f_equal. apply Qfloor_comp. rewrite H. reflexivity.
Qed.

(** ** Doubles *)

Lemma two_neq_0 : ~ 2 == 0.
Proof. discriminate. Qed.

Lemma pow2_pos (e : Z) : 0 < 2 ^ e.
Proof. apply Qpower_0_lt. reflexivity. Qed.

Lemma Zpow_Q (n : Z) : (0 <= n)%Z -> inject_Z (2 ^ n) == 2 ^ n.
Proof. intro H. rewrite Zpower_Qpower by exact H. reflexivity. Qed.

(** The nearest integer is within a half. *)
Lemma rne_error (t : Q) : Qabs (inject_Z (Double.rne t) - t) <= 1 # 2.
Proof.
  unfold Double.rne.
  pose proof (Qfloor_le t) as Hlo. pose proof (Qlt_floor t) as Hhi.
  rewrite inject_Z_plus in Hhi. change (inject_Z 1) with 1 in Hhi.
  set (f := Qfloor t) in *.
  apply Qabs_Qle_condition.
  destruct (Qcompare (t - inject_Z f) (1 # 2)) eqn:C.
  - apply Qeq_alt in C. destruct (Z.even f); [| rewrite inject_Z_plus; change (inject_Z 1) with 1];
      split; lra.
  - apply Qlt_alt in C. split; lra.
  - apply Qgt_alt in C. rewrite inject_Z_plus. change (inject_Z 1) with 1. split; lra.
Qed.

(** [ilog2] finds the binade: [2^k <= a < 2^(k+1)]. *)
Lemma ilog2_le (a : Q) : 0 < a -> 2 ^ Double.ilog2 a <= a.
Proof.
  intro Ha. unfold Double.ilog2.
  set (k := (Z.log2 (Qnum a) - Z.log2 (Z.pos (Qden a)))%Z).
  destruct (Qle_bool (2 ^ k) a) eqn:E; [apply Qle_bool_iff in E; exact E |].
  destruct a as [n d]. unfold k. cbn [Qnum Qden].
  assert (Hn : (0 < n)%Z) by (unfold Qlt in Ha; simpl in Ha; lia).
  pose proof (Z.log2_spec n Hn) as [Hn1 _].
  pose proof (Z.log2_spec (Z.pos d) (Pos2Z.is_pos d)) as [_ Hd2].
  pose proof (Z.log2_nonneg n) as Ln. pose proof (Z.log2_nonneg (Z.pos d)) as Ld.
  set (ln := Z.log2 n) in *. set (ld := Z.log2 (Z.pos d)) in *.
  replace (ln - ld - 1)%Z with (ln - (ld + 1))%Z by lia.
  rewrite Qpower_minus by exact two_neq_0.
  rewrite <- (Zpow_Q ln) by lia. rewrite <- (Zpow_Q (ld + 1)) by lia.
  apply Qle_shift_div_r.
  { change 0 with (inject_Z 0). rewrite <- Zlt_Qlt. apply Z.pow_pos_nonneg; lia. }
  unfold Qle, Qmult, inject_Z. cbn [Qnum Qden].
  rewrite Pos.mul_1_r, Z.mul_1_r.
  assert (Hd3 : (Z.pos d <= 2 ^ (ld + 1))%Z) by lia.
  assert (Hp : (0 < 2 ^ ln)%Z) by (apply Z.pow_pos_nonneg; lia).
  nia.
Qed.

Lemma ilog2_lt (a : Q) : 0 < a -> a < 2 ^ (Double.ilog2 a + 1).
Proof.
  intro Ha. unfold Double.ilog2.
  set (k := (Z.log2 (Qnum a) - Z.log2 (Z.pos (Qden a)))%Z).
  destruct (Qle_bool (2 ^ k) a) eqn:E.
  - destruct a as [n d]. unfold k. cbn [Qnum Qden].
    assert (Hn : (0 < n)%Z) by (unfold Qlt in Ha; simpl in Ha; lia).
    pose proof (Z.log2_spec n Hn) as [_ Hn2].
    pose proof (Z.log2_spec (Z.pos d) (Pos2Z.is_pos d)) as [Hd1 _].
    pose proof (Z.log2_nonneg n) as Ln. pose proof (Z.log2_nonneg (Z.pos d)) as Ld.
    set (ln := Z.log2 n) in *. set (ld := Z.log2 (Z.pos d)) in *.
    replace (ln - ld + 1)%Z with ((ln + 1) - ld)%Z by lia.
    rewrite Qpower_minus by exact two_neq_0.
    rewrite <- (Zpow_Q (ln + 1)) by lia. rewrite <- (Zpow_Q ld) by lia.
    apply Qlt_shift_div_l.
    { change 0 with (inject_Z 0). rewrite <- Zlt_Qlt. apply Z.pow_pos_nonneg; lia. }
    unfold Qlt, Qmult, inject_Z. cbn [Qnum Qden].
    rewrite Pos.mul_1_r, Z.mul_1_r.
    assert (Hp : (0 < 2 ^ ld)%Z) by (apply Z.pow_pos_nonneg; lia).
    nia.
  - replace (k - 1 + 1)%Z with k by lia.
    destruct (Qlt_le_dec a (2 ^ k)) as [H | H]; [exact H |].
    apply Qle_bool_iff in H. congruence.
Qed.

Lemma ilog2_unique (a : Q) (j : Z) : 2 ^ j <= a -> a < 2 ^ (j + 1) -> Double.ilog2 a = j.
Proof.
  intros H1 H2.
  assert (Ha : 0 < a) by (pose proof (pow2_pos j); lra).
  pose proof (ilog2_le a Ha) as L1. pose proof (ilog2_lt a Ha) as L2.
  assert (A : 2 ^ j < 2 ^ (Double.ilog2 a + 1)) by lra.
  assert (B : 2 ^ Double.ilog2 a < 2 ^ (j + 1)) by lra.
  apply Qpower_lt_compat_l_inv in A; [| reflexivity].
  apply Qpower_lt_compat_l_inv in B; [| reflexivity].
  lia.
Qed.

Lemma Qabs_pos_of_nonzero (x : Q) : ~ x == 0 -> 0 < Qabs x.
Proof.
  intro E0. destruct (Qlt_le_dec x 0) as [H | H].
  - rewrite (Qabs_neg x) by lra. lra.
  - rewrite (Qabs_pos x) by exact H.
    destruct (Qlt_le_dec 0 x) as [H' | H']; [exact H' |].
    exfalso. apply E0. lra.
Qed.

Lemma rne_comp (t t' : Q) : t == t' -> Double.rne t = Double.rne t'.
Proof.
  intro E. unfold Double.rne. rewrite (Qfloor_comp _ _ E).
  assert (C : Qcompare (t - inject_Z (Qfloor t')) (1 # 2)
              = Qcompare (t' - inject_Z (Qfloor t')) (1 # 2)).
  { apply Qcompare_comp; [rewrite E; reflexivity | reflexivity]. }
  rewrite C. reflexivity.
Qed.

(** Equal rationals round to the same double. *)
Lemma RN_comp (x y : Q) : x == y -> Double.RN x = Double.RN y.
Proof.
  intro E. unfold Double.RN.
  destruct (Qeq_bool x 0) eqn:Ex; destruct (Qeq_bool y 0) eqn:Ey; try reflexivity.
  - apply Qeq_bool_eq in Ex. apply Qeq_bool_neq in Ey. exfalso. apply Ey. lra.
  - apply Qeq_bool_eq in Ey. apply Qeq_bool_neq in Ex. exfalso. apply Ex. lra.
  - apply Qeq_bool_neq in Ex.
    pose proof (Qabs_pos_of_nonzero x Ex) as Ha.
    assert (Ea : Qabs x == Qabs y) by (rewrite E; reflexivity).
    assert (El : Double.ilog2 (Qabs x) = Double.ilog2 (Qabs y)).
    { apply ilog2_unique.
      - rewrite Ea. apply ilog2_le. lra.
      - rewrite Ea. apply ilog2_lt. lra. }
    rewrite El.
    set (e := Z.max (Double.ilog2 (Qabs y) - 52) (-1074)).
    assert (Et : x / 2 ^ e == y / 2 ^ e) by (rewrite E; reflexivity).
    rewrite (rne_comp _ _ Et). reflexivity.
Qed.

(** The error of a rounding is at most half a unit of the last place of the
    binade of the number. *)
Lemma RN_error (x : Q) (k : Z) :
  Qabs x < 2 ^ (k + 1) -> (-1022 <= k)%Z ->
  Qabs (Double.RN x - x) <= 2 ^ (k - 53).
Proof.
  intros Hx Hk. unfold Double.RN.
  destruct (Qeq_bool x 0) eqn:E0.
  - apply Qeq_bool_eq in E0.
    assert (E : Qabs (0 - x) == 0) by (rewrite E0; reflexivity).
    rewrite E. apply Qlt_le_weak, pow2_pos.
  - apply Qeq_bool_neq in E0.
    pose proof (Qabs_pos_of_nonzero x E0) as Ha.
    set (e := Z.max (Double.ilog2 (Qabs x) - 52) (-1074)).
    assert (He : (e <= k - 52)%Z).
    { pose proof (ilog2_le (Qabs x) Ha) as H.
      assert (L : 2 ^ Double.ilog2 (Qabs x) < 2 ^ (k + 1)) by lra.
      apply Qpower_lt_compat_l_inv in L; [| reflexivity]. unfold e. lia. }
    pose proof (pow2_pos e) as Pe.
    set (t := x / 2 ^ e).
    assert (Ex : Qred (inject_Z (Double.rne t) * 2 ^ e) - x
                 == (inject_Z (Double.rne t) - t) * 2 ^ e).
    { rewrite Qred_correct. unfold t. field. lra. }
    rewrite Ex, Qabs_Qmult.
    rewrite (Qabs_pos (2 ^ e)) by lra.
    pose proof (rne_error t) as Hr.
    assert (Hp : 2 ^ e <= 2 ^ (k - 52)).
    { apply Qpower_le_compat_l; [exact He | discriminate]. }
    assert (Hh : 2 ^ (k - 52) == 2 * 2 ^ (k - 53)).
    { replace (k - 52)%Z with (1 + (k - 53))%Z by lia.
      rewrite Qpower_plus by exact two_neq_0. reflexivity. }
    pose proof (Qabs_nonneg (inject_Z (Double.rne t) - t)) as Hn.
    pose proof (pow2_pos (k - 53)).
    nra.
Qed.

Lemma RN_within (x r : Q) (k : Z) :
  Qabs x < 2 ^ (k + 1) -> (-1022 <= k)%Z -> 2 ^ (k - 53) == r ->
  x - r <= Double.RN x <= x + r.
Proof.
  intros Hx Hk Hr. pose proof (RN_error x k Hx Hk) as H.
  rewrite Hr in H. apply Qabs_Qle_condition in H. lra.
Qed.

Opaque Double.RN.

Lemma Qabs_lt_bounds (x lo hi b : Q) : lo <= x <= hi -> - b < lo -> hi < b -> Qabs x < b.
Proof.
  intros [H1 H2] Hl Hh. apply Qabs_case; intros; lra.
Qed.

(** The factor [1 - discount / 100] in doubles, for a discount from 0 to 50. *)
Lemma factor_bounds (d : Q) :
  0 <= d <= 50 ->
  (1 # 2) - (1 # 4503599627370496) <= Double.sub 1 (Double.div d 100)
  <= 1 + (1 # 4503599627370496).
Proof.
  intros [Hd0 Hd50]. unfold Double.sub, Double.div.
  assert (Hq : 0 <= d / 100 <= 1 # 2).
  { split; [apply Qle_shift_div_l | apply Qle_shift_div_r]; lra. }
  pose proof (RN_within (d / 100) (1 # 18014398509481984) (-1)) as H1.
  destruct H1 as [H1a H1b];
    [apply (Qabs_lt_bounds _ 0 (1 # 2)); [exact Hq | reflexivity | reflexivity]
    | lia | reflexivity |].
  set (x1 := Double.RN (d / 100)) in *.
  pose proof (RN_within (1 - x1) (1 # 9007199254740992) 0) as H2.
  destruct H2 as [H2a H2b];
    [apply (Qabs_lt_bounds _ ((1 # 2) - (1 # 18014398509481984)) (1 + (1 # 18014398509481984)));
       [lra | reflexivity | reflexivity]
    | lia | reflexivity |].
  lra.
Qed.

(** The round trip of an integer price of magnitude at most [2^50] through the
    two formulas of the promotion service, in doubles: the two roundings of
    the doubles cost an eighth each, the two roundings to integers a half
    each, and the division by a factor of a half at least doubles the first
    two. *)
Lemma double_round_trip (p : Z) (d : Q) :
  (- 2 ^ 50 <= p <= 2 ^ 50)%Z -> 0 <= d <= 50 ->
  inject_Z p - 1 <= normalPrice (promotionPrice (inject_Z p) d) d <= inject_Z p + 1.
Proof.
  intros Hp Hd. unfold normalPrice, promotionPrice.
  pose proof (factor_bounds d Hd) as Hf.
  set (f := Double.sub 1 (Double.div d 100)) in *.
  set (P := inject_Z p).
  assert (HP : - 1125899906842624 <= P <= 1125899906842624).
  { unfold P. split.
    - change (- 1125899906842624) with (inject_Z (- 2 ^ 50)). rewrite <- Zle_Qle. lia.
    - change 1125899906842624 with (inject_Z (2 ^ 50)). rewrite <- Zle_Qle. lia. }
  assert (Hf0 : 0 < f) by lra.
  assert (HPf : - 1125899906842625 <= P * f <= 1125899906842625) by nra.
  unfold Double.mul.
  pose proof (RN_within (P * f) (1 # 8) 50) as Ha.
  destruct Ha as [Ha1 Ha2];
    [apply (Qabs_lt_bounds _ (- 1125899906842625) 1125899906842625);
       [exact HPf | reflexivity | reflexivity]
    | lia | reflexivity |].
  set (a := Double.RN (P * f)) in *.
  pose proof (Math_round_bounds a) as HA.
  set (A := JS.Math_round a) in *.
  set (u := A - P * f).
  assert (Hu : - (5 # 8) <= u <= 5 # 8) by (unfold u; lra).
  assert (Eq : A / f == P + u / f) by (unfold u; field; lra).
  assert (Huf : - (13 # 10) <= u / f <= 13 # 10).
  { split; [apply Qle_shift_div_l | apply Qle_shift_div_r]; try exact Hf0; lra. }
  assert (Hq : P - (13 # 10) <= A / f <= P + (13 # 10)) by (rewrite Eq; lra).
  unfold Double.div.
  set (q := A / f) in *.
  pose proof (RN_within q (1 # 8) 50) as Hb.
  destruct Hb as [Hb1 Hb2];
    [apply (Qabs_lt_bounds _ (- 1125899906842626) 1125899906842626);
       [lra | reflexivity | reflexivity]
    | lia | reflexivity |].
  set (b := Double.RN q) in *.
  unfold JS.Math_round.
  split.
  - assert (H : inject_Z (p - 1) <= b + (1 # 2)).
    { rewrite inject_Z_sub. change (inject_Z 1) with 1. fold P. lra. }
    apply Qfloor_resp_le in H. rewrite Qfloor_Z in H.
    rewrite Zle_Qle in H. rewrite inject_Z_sub in H. change (inject_Z 1) with 1 in H.
    exact H.
  - pose proof (Qfloor_le (b + (1 # 2))) as H.
    assert (H' : inject_Z (Qfloor (b + (1 # 2))) < inject_Z (p + 2)).
    { rewrite inject_Z_plus. change (inject_Z 2) with 2. fold P. lra. }
    rewrite <- Zlt_Qlt in H'.
    assert (H'' : (Qfloor (b + (1 # 2)) <= p + 1)%Z) by lia.
    rewrite Zle_Qle in H''. rewrite inject_Z_plus in H''. change (inject_Z 1) with 1 in H''.
    exact H''.
Qed.

Lemma promotionPrice_comp (x y d : Q) : x == y -> promotionPrice x d = promotionPrice y d.
Proof.
  intro E. unfold promotionPrice, Double.mul. f_equal. apply RN_comp. rewrite E. reflexivity.
Qed.

(** ** The monad *)

Lemma Ok_inj {A : Type} (a b : A) (w w' : World) :
  (Ok a, w) = (Ok b, w') -> a = b /\ w = w'.
Proof. intro H. injection H as -> ->. split; reflexivity. Qed.

Lemma bind_Ok {A B : Type} (c : M A) (k : A -> M B) (w w' : World) (b : B) :
  bind c k w = (Ok b, w') ->
  exists a w1, c w = (Ok a, w1) /\ k a w1 = (Ok b, w').
Proof.
  unfold bind. destruct (c w) as [[a | e] w1]; intro H.
  - exists a, w1. split; [reflexivity | exact H].
  - discriminate.
Qed.

Lemma try_catch_Ok {A : Type} (c : M A) (h : string -> M A) (w w' : World) (a : A) :
  try_catch c h w = (Ok a, w') ->
  c w = (Ok a, w') \/ exists e w1, c w = (Throw e, w1) /\ h e w1 = (Ok a, w').
Proof.
  unfold try_catch. destruct (c w) as [[a' | e] w1]; intro H.
  - left. exact H.
  - right. exists e, w1. split; [reflexivity | exact H].
Qed.

(** An invariant of the body of a loop holds when the loop ends. *)
Lemma for_of_invariant {A S : Type} (I : S -> Prop) (body : A -> S -> M S) :
  (forall x s w s' w', I s -> body x s w = (Ok s', w') -> I s') ->
  forall l s w s' w', I s -> for_of l body s w = (Ok s', w') -> I s'.
Proof.
  intros Hbody l. induction l as [| x l IH]; intros s w s' w' Hs H; simpl in H.
  - unfold ret in H. inversion H; subst. exact Hs.
  - apply bind_Ok in H. destruct H as (s1 & w1 & H1 & H2).
    eapply IH; [| exact H2]. eapply Hbody; eauto.
Qed.

(** ** The hourly run *)

Section HourlyFacts.

Variable env : Env.

Lemma hourly_body_bounded (prompt : Prompt) (s s' : list PriceUpdate) (w w' : World) :
  Forall (bounded_change env) s ->
  hourly_body env prompt s w = (Ok s', w') ->
  Forall (bounded_change env) s'.
Proof.
  intros Hs H. unfold hourly_body in H.
  destruct (currently_testing prompt).
  { inversion H; subst. exact Hs. }
  destruct (JS.gt (conversion_rate prompt) highConversionThreshold
            && JS.gt (views_last_hour prompt) highViewThreshold).
  - destruct (JS.gt _ (price prompt + 1)) eqn:E.
    + apply bind_Ok in H. destruct H as (? & ? & _ & H). inversion H; subst.
      apply Forall_app. split; [exact Hs |]. constructor; [| constructor].
      apply gt_true in E. unfold bounded_change. simpl.
      split; [apply Math_min_le_r |]. split; [exact E | intro; lra].
    + inversion H; subst. exact Hs.
  - destruct (JS.gt (views_last_hour prompt) _ && JS.lt _ _).
    + destruct (JS.lt _ (price prompt - 1)) eqn:E.
      * apply bind_Ok in H. destruct H as (? & ? & _ & H). inversion H; subst.
        apply Forall_app. split; [exact Hs |]. constructor; [| constructor].
        apply lt_true in E. unfold bounded_change. simpl.
        split; [apply Math_max_ge_r |]. split; [exact E | intro; lra].
      * inversion H; subst. exact Hs.
    + inversion H; subst. exact Hs.
Qed.

Lemma hourly_body_skips (prompt : Prompt) (s : list PriceUpdate) (w : World) :
  currently_testing prompt = true ->
  hourly_body env prompt s w = (Ok s, w).
Proof. intro H. unfold hourly_body. rewrite H. reflexivity. Qed.

Lemma hourly_loop_skips (stats : list Prompt) :
  forall s w,
    for_of stats (hourly_body env) s w =
    for_of (filter (fun p => negb (currently_testing p)) stats) (hourly_body env) s w.
Proof.
  induction stats as [| p stats IH]; intros s w; [reflexivity |].
  simpl. destruct (currently_testing p) eqn:E; simpl.
  - unfold bind. rewrite (hourly_body_skips p s w E). apply IH.
  - unfold bind. destruct (hourly_body env p s w) as [[s1 | e] w1]; [apply IH | reflexivity].
Qed.

End HourlyFacts.

Lemma filter_without {A : Type} (f : A -> bool) (x : A) (before after : list A) :
  f x = false -> filter f (before ++ x :: after) = filter f (before ++ after).
Proof.
  intro H. rewrite !filter_app. simpl. rewrite H. reflexivity.
Qed.

Lemma hourlyOptimization_skips (env : Env) (stats : list Prompt) (w : World) :
  hourlyOptimization env stats w =
  hourlyOptimization env (filter (fun p => negb (currently_testing p)) stats) w.
Proof.
  unfold hourlyOptimization, try_catch. rewrite hourly_loop_skips. reflexivity.
Qed.

(** C1.  A listing whose experiment flag is set is skipped by the hourly run:
    the body of the loop leaves the list of updates and the world as they are
    (no request is sent), and the run is the run without that listing.  The
    daily run does not select it for its long-term price pass, nor for any
    other pass: the daily run is the run without that listing. *)
Theorem experiment_running_no_price_change (env : Env) (prompt : Prompt) :
  currently_testing prompt = true ->
  (forall updatedPrompts w,
      hourly_body env prompt updatedPrompts w = (Ok updatedPrompts, w)) /\
  (forall before after w,
      hourlyOptimization env (before ++ prompt :: after) w =
      hourlyOptimization env (before ++ after) w) /\
  (forall allData, ~ In prompt (stablePricePrompts allData)) /\
  (forall before after w,
      dailyOptimization env (before ++ prompt :: after) w =
      dailyOptimization env (before ++ after) w).
Proof.
  intro H. repeat split.
  - intros s w. apply hourly_body_skips. exact H.
  - intros before after w.
    rewrite hourlyOptimization_skips.
    rewrite (hourlyOptimization_skips env (before ++ after)).
    rewrite filter_without; [reflexivity | rewrite H; reflexivity].
  - intros allData Hin. unfold stablePricePrompts in Hin.
    apply filter_In in Hin. destruct Hin as [_ Hin].
    rewrite H in Hin. simpl in Hin. rewrite andb_false_r in Hin. discriminate.
  - intros before after w. unfold dailyOptimization.
    unfold promptsForTesting, lowPerformingPrompts, stablePricePrompts.
    rewrite !(filter_without _ prompt before after); [reflexivity | | |];
      rewrite H; simpl; rewrite ?andb_false_r; reflexivity.
Qed.

Lemma experiment_running_no_price_change_witness :
  let tested := listing "d" 100 (15 # 100) 25 400 true in
  let other := listing "a" 100 (15 # 100) 25 400 false in
  hourlyOptimization default_env ([other] ++ tested :: []) (world [other; tested] []) =
  hourlyOptimization default_env ([other] ++ []) (world [other; tested] []).
Proof.
  intros tested other.
  apply (experiment_running_no_price_change default_env tested).
  reflexivity.
Defined.

(** C2, as the code has it.  Every price change in the list returned by the
    hourly run moves the price by more than one unit and respects the bound of
    the side it moves to: an increase has [newPrice <= maxPrice] and
    [newPrice > oldPrice + 1], a decrease has [minPrice <= newPrice] and
    [newPrice < oldPrice - 1].  The other bound holds when the old price
    respects it. *)
Theorem hourly_changes_bounded (env : Env) (stats : list Prompt) (w w' : World)
    (l : list PriceUpdate) (r : PriceUpdate) :
  hourlyOptimization env stats w = (Ok l, w') ->
  In r l ->
  match reason r with
  | increase_high_conversion =>
      newPrice r <= maxPromptPrice env /\ oldPrice r + 1 < newPrice r /\
      (minPromptPrice env <= oldPrice r -> minPromptPrice env <= newPrice r)
  | decrease_low_conversion =>
      minPromptPrice env <= newPrice r /\ newPrice r < oldPrice r - 1 /\
      (oldPrice r <= maxPromptPrice env -> newPrice r <= maxPromptPrice env)
  end.
Proof.
  intros H Hin. change (bounded_change env r).
  assert (Hall : Forall (bounded_change env) l).
  { unfold hourlyOptimization in H. apply try_catch_Ok in H.
    destruct H as [H | (e & w1 & _ & H)].
    - eapply (for_of_invariant (Forall (bounded_change env))); [| | exact H].
      + intros x s w0 s' w0' Hs Hb. eapply hourly_body_bounded; eauto.
      + constructor.
    - apply bind_Ok in H. destruct H as (? & ? & _ & H). inversion H. constructor. }
  rewrite Forall_forall in Hall. apply Hall. exact Hin.
Qed.

Lemma hourly_changes_bounded_witness :
  let a := listing "a" 100 (15 # 100) 25 0 false in
  let r := {| upd_id := "a"; oldPrice := 100; newPrice := 10500 # 100;
              reason := increase_high_conversion |} in
  newPrice r <= maxPromptPrice default_env /\ oldPrice r + 1 < newPrice r /\
  (minPromptPrice default_env <= oldPrice r -> minPromptPrice default_env <= newPrice r).
Proof.
  intros a r.
  apply (hourly_changes_bounded default_env [a] (world [a] [])
           (snd (hourlyOptimization default_env [a] (world [a] []))) [r] r).
  - vm_compute. reflexivity.
  - left. reflexivity.
Defined.

(** C2 as stated fails: a listing priced 21, below the engine's minimum of 25,
    with a high conversion rate has its price raised to 22.05, and the recorded
    increase is below the minimum.  A listing priced 200, above the maximum of
    150, with many views and a low conversion rate has its price lowered to
    190, and the recorded decrease is above the maximum. *)
Lemma hourly_change_out_of_bounds :
  (let cheap := listing "c" 21 (15 # 100) 25 0 false in
   exists r w',
     hourlyOptimization default_env [cheap] (world [cheap] []) = (Ok [r], w') /\
     reason r = increase_high_conversion /\
     oldPrice r == 21 /\ newPrice r == 2205 # 100 /\
     ~ (minPromptPrice default_env <= newPrice r)) /\
  (let dear := listing "e" 200 (2 # 100) 35 0 false in
   exists r w',
     hourlyOptimization default_env [dear] (world [dear] []) = (Ok [r], w') /\
     reason r = decrease_low_conversion /\
     oldPrice r == 200 /\ newPrice r == 190 /\
     ~ (newPrice r <= maxPromptPrice default_env)).
Proof.
  split.
  - intro cheap. eexists. eexists. split; [vm_compute; reflexivity |].
    repeat split; try reflexivity.
    vm_compute. intro H. apply H. reflexivity.
  - intro dear. eexists. eexists. split; [vm_compute; reflexivity |].
    repeat split; try reflexivity.
    vm_compute. intro H. apply H. reflexivity.
Qed.

(** The two scenarios of the specification: a listing priced 100 with a
    conversion rate of 0.15 and 25 views goes to 105; with a rate of 0.02 and
    35 views it goes to 95. *)
Example hourly_scenarios :
  let up := listing "a" 100 (15 # 100) 25 0 false in
  let down := listing "b" 100 (2 # 100) 35 0 false in
  map (fun r => (upd_id r, Qred (newPrice r), reason r))
    (returned (hourlyOptimization default_env [up; down] (world [up; down] []))) =
  [("a"%string, 105, increase_high_conversion); ("b"%string, 95, decrease_low_conversion)].
Proof. vm_compute. reflexivity. Qed.

(** ** The promotion round trip *)



(** ** Remote calls that succeed *)

Lemma remote_succeeds (e : string) (w : World) :
  succeeds 0 w -> remote e w = (Ok tt, pop_fault w).
Proof.
  unfold succeeds, remote, pop_fault. destruct (faults w) as [| [] f]; simpl; intro H.
  - reflexivity.
  - discriminate.
  - reflexivity.
Qed.

Lemma succeeds_pop (k : nat) (w : World) : succeeds (S k) w -> succeeds k (pop_fault w).
Proof.
  unfold succeeds, pop_fault. destruct (faults w) as [| b f] eqn:E; simpl.
  - intros _. rewrite E. destruct k; reflexivity.
  - intro H. exact H.
Qed.

Lemma pop_fault_fields (w : World) :
  now (pop_fault w) = now w /\ catalog (pop_fault w) = catalog w /\
  variationStorage (pop_fault w) = variationStorage w /\
  performances (pop_fault w) = performances w /\
  requests (pop_fault w) = requests w /\ outbox (pop_fault w) = outbox w.
Proof.
  unfold pop_fault. destruct (faults w); repeat split.
Qed.

Lemma retrievePromptVariations_succeeds (k : string) (v : option Variations) (w : World) :
  succeeds 0 w ->
  lookup k (variationStorage w) = Some v ->
  retrievePromptVariations k w = (Ok v, pop_fault w).
Proof.
  intros Hs Hl. unfold retrievePromptVariations, bind.
  rewrite (remote_succeeds _ w Hs).
  destruct (pop_fault_fields w) as (_ & _ & E & _). rewrite E, Hl. reflexivity.
Qed.

Lemma getPrompt_succeeds (k : string) (p : Prompt) (w : World) :
  succeeds 0 w ->
  find_prompt k (catalog w) = Some p ->
  getPrompt k w = (Ok p, pop_fault w).
Proof.
  intros Hs Hf. unfold getPrompt, try_catch, client_get, bind.
  rewrite (remote_succeeds _ w Hs).
  destruct (pop_fault_fields w) as (_ & E & _). rewrite E, Hf. reflexivity.
Qed.

Lemma updatePrompt_succeeds (k : string) (p : Prompt) (data : UpdateData) (w : World) :
  succeeds 0 w ->
  find_prompt k (catalog w) = Some p ->
  updatePrompt k data w = (Ok (applyPatch p data), patched k p data w).
Proof.
  intros Hs Hf. unfold updatePrompt, try_catch, client_patch, bind, patched.
  assert (Hs' : succeeds 0 (add_request (Patch k data) w)) by exact Hs.
  rewrite (remote_succeeds _ _ Hs').
  destruct (pop_fault_fields (add_request (Patch k data) w)) as (_ & E & _).
  rewrite E. simpl. rewrite Hf. reflexivity.
Qed.

Lemma patched_fields (k : string) (p : Prompt) (data : UpdateData) (w : World) :
  now (patched k p data w) = now w /\
  requests (patched k p data w) = requests w ++ [Patch k data] /\
  outbox (patched k p data w) = outbox w /\
  catalog (patched k p data w) = store_prompt (applyPatch p data) (catalog w).
Proof.
  unfold patched.
  destruct (pop_fault_fields (add_request (Patch k data) w)) as (E1 & E2 & _ & _ & E3 & E4).
  simpl. rewrite E1, E2, E3, E4. repeat split.
Qed.

Lemma find_prompt_id (k : string) (c : list Prompt) (p : Prompt) :
  find_prompt k c = Some p -> id p = k.
Proof.
  induction c as [| q c IH]; simpl; [discriminate |].
  destruct (String.eqb (id q) k) eqn:E.
  - intro H. inversion H; subst. apply String.eqb_eq. exact E.
  - exact IH.
Qed.

Lemma find_prompt_stored (k : string) (c : list Prompt) (p p' : Prompt) :
  find_prompt k c = Some p -> id p' = k ->
  find_prompt k (store_prompt p' c) = Some p'.
Proof.
  intros Hf Hid. induction c as [| q c IH]; simpl in *; [discriminate |].
  rewrite Hid. destruct (String.eqb (id q) k) eqn:E; simpl.
  - rewrite Hid, String.eqb_refl. reflexivity.
  - rewrite E. apply IH. exact Hf.
Qed.

(** ** The round trip through the catalog *)

Lemma Math_min_left (x y : Q) : x <= y -> JS.Math_min x y = x.
Proof.
  intro H. unfold JS.Math_min, Qmin, GenericMinMax.gmin.
  destruct (x ?= y) eqn:E; try reflexivity.
  rewrite <- Qgt_alt in E. lra.
Qed.

Lemma succeeds_patched (k : nat) (promptId : string) (p : Prompt) (data : UpdateData)
    (w : World) :
  succeeds (S k) w -> succeeds k (patched promptId p data w).
Proof.
  intro H. unfold patched.
  apply (succeeds_pop k (add_request (Patch promptId data) w)) in H.
  exact H.
Qed.

Lemma removePromotionFromPrompt_succeeds (promptId : string) (stored : Prompt) (w : World) :
  find_prompt promptId (catalog w) = Some stored ->
  on_promotion stored = true ->
  succeeds 0 w -> succeeds 1 w ->
  exists restored w',
    removePromotionFromPrompt promptId w = (Ok restored, w') /\
    find_prompt promptId (catalog w') = Some restored /\
    price restored = normalPrice (price stored) (promotion_percentage stored) /\
    on_promotion restored = false.
Proof.
  intros Hf Hon H0 H1.
  destruct (pop_fault_fields w) as (_ & Ecat & _).
  set (data := {| u_title := None; u_description := None; u_currently_testing := None;
                  u_price := Some (normalPrice (price stored) (promotion_percentage stored));
                  u_on_promotion := Some false; u_promotion_percentage := Some 0;
                  u_promotion_end_date := Some None; u_last_refresh_date := None |}).
  destruct (patched_fields promptId stored data (pop_fault w)) as (_ & _ & _ & Pcat).
  exists (applyPatch stored data), (patched promptId stored data (pop_fault w)).
  split; [| split; [| split; reflexivity]].
  - unfold removePromotionFromPrompt, try_catch, bind.
    rewrite (getPrompt_succeeds _ _ _ H0 Hf). cbv beta iota. rewrite Hon.
    change (negb true) with false. cbv beta iota. fold data.
    rewrite updatePrompt_succeeds with (p := stored);
      [reflexivity | apply succeeds_pop; exact H1 | rewrite Ecat; exact Hf].
  - rewrite Pcat, Ecat. apply find_prompt_stored with (p := stored); [exact Hf |].
    simpl. apply (find_prompt_id _ _ _ Hf).
Qed.

Lemma applyPromotionToPrompt_succeeds (promptId : string) (stored : Prompt) (d h : Q)
    (w : World) :
  find_prompt promptId (catalog w) = Some stored ->
  on_promotion stored = false ->
  succeeds 0 w -> succeeds 1 w ->
  exists promoted w',
    applyPromotionToPrompt promptId d h w = (Ok promoted, w') /\
    find_prompt promptId (catalog w') = Some promoted /\
    price promoted = promotionPrice (price stored) (JS.Math_min d 50) /\
    on_promotion promoted = true /\
    promotion_percentage promoted = JS.Math_min d 50 /\
    (forall k, succeeds (S (S k)) w -> succeeds k w').
Proof.
  intros Hf Hoff H0 H1.
  destruct (pop_fault_fields w) as (Enow & Ecat & _).
  set (data := promotion_patch (promotionPrice (price stored) (JS.Math_min d 50)) true
                 (JS.Math_min d 50)
                 (Some (promotionEndDate (now w) (JS.Math_min h maxPromotionDuration)))).
  destruct (patched_fields promptId stored data (pop_fault w)) as (_ & _ & _ & Pcat).
  exists (applyPatch stored data), (patched promptId stored data (pop_fault w)).
  split; [| split; [| repeat split]].
  - unfold applyPromotionToPrompt, try_catch, bind.
    rewrite (getPrompt_succeeds _ _ _ H0 Hf), Hoff.
    unfold Date_now. rewrite Enow. fold data.
    rewrite updatePrompt_succeeds with (p := stored);
      [reflexivity | apply succeeds_pop; exact H1 | rewrite Ecat; exact Hf].
  - rewrite Pcat, Ecat. apply find_prompt_stored with (p := stored); [exact Hf |].
    simpl. apply (find_prompt_id _ _ _ Hf).
  - intros k Hk. apply succeeds_patched, succeeds_pop. exact Hk.
Qed.

(** C3, as the code has it.  A listing of integer price [p], of magnitude at
    most [2^50], not on promotion, receives a promotion of [d] percent, [d]
    between 0 and 50, through [applyPromotionToPrompt], and the promotion is
    then removed through [removePromotionFromPrompt]; the four remote calls
    succeed.  In between the stored listing is on promotion, at [d] percent
    and at the price [Math.round(p * (1 - d / 100))] of the doubles; at the
    end it is off promotion, at a price within one unit of [p]. *)
Theorem promotion_round_trip (promptId : string) (stored : Prompt) (p : Z)
    (d h : Q) (w : World) :
  find_prompt promptId (catalog w) = Some stored ->
  on_promotion stored = false ->
  price stored == inject_Z p ->
  (- 2 ^ 50 <= p <= 2 ^ 50)%Z ->
  0 <= d <= 50 ->
  succeeds 0 w -> succeeds 1 w -> succeeds 2 w -> succeeds 3 w ->
  exists promoted w1 restored w2,
    applyPromotionToPrompt promptId d h w = (Ok promoted, w1) /\
    find_prompt promptId (catalog w1) = Some promoted /\
    on_promotion promoted = true /\
    promotion_percentage promoted = d /\
    price promoted = promotionPrice (inject_Z p) d /\
    removePromotionFromPrompt promptId w1 = (Ok restored, w2) /\
    find_prompt promptId (catalog w2) = Some restored /\
    on_promotion restored = false /\
    inject_Z p - 1 <= price restored <= inject_Z p + 1.
Proof.
  intros Hf Hoff Hp Hbound Hd H0 H1 H2 H3.
  destruct (applyPromotionToPrompt_succeeds promptId stored d h w Hf Hoff H0 H1)
    as (promoted & w1 & Happly & Hf1 & Hprice & Hon & Hpct & Hs).
  rewrite (Math_min_left d 50) in Hprice, Hpct by apply Hd.
  rewrite (promotionPrice_comp _ _ d Hp) in Hprice.
  destruct (removePromotionFromPrompt_succeeds promptId promoted w1 Hf1 Hon
              (Hs 0%nat H2) (Hs 1%nat H3))
    as (restored & w2 & Hrem & Hf2 & Hprice2 & Hoff2).
  exists promoted, w1, restored, w2.
  repeat (split; [assumption |]).
  rewrite Hprice2, Hprice, Hpct. apply double_round_trip; assumption.
Qed.

Lemma promotion_round_trip_witness :
  let p := listing "p" 45 (1 # 100) 0 250 false in
  exists promoted w1 restored w2,
    applyPromotionToPrompt "p" 30 24 (world [p] []) = (Ok promoted, w1) /\
    find_prompt "p" (catalog w1) = Some promoted /\
    on_promotion promoted = true /\
    promotion_percentage promoted = 30 /\
    price promoted = promotionPrice (inject_Z 45) 30 /\
    removePromotionFromPrompt "p" w1 = (Ok restored, w2) /\
    find_prompt "p" (catalog w2) = Some restored /\
    on_promotion restored = false /\
    inject_Z 45 - 1 <= price restored <= inject_Z 45 + 1.
Proof.
  intro p.
  apply (promotion_round_trip "p" p 45 30 24 (world [p] []));
    try reflexivity; split; vm_compute; discriminate.
Defined.

(** C3 as stated fails for large prices.  A listing priced 4386788758840440
    receives a promotion of 47 percent and loses it again: the doubles of the
    code bring it back to 4386788758840442, two units above.  The doubles of
    the kernel compute the same two prices. *)
Lemma round_trip_two_units_off :
  let p := listing "p" 4386788758840440 (1 # 100) 0 250 false in
  let run := (applyPromotionToPrompt "p" 47 24 ;;; removePromotionFromPrompt "p")
               (world [p] []) in
  option_map price (find_prompt "p" (catalog (snd run))) = Some 4386788758840442 /\
  ~ (4386788758840440 - 1 <= 4386788758840442 <= 4386788758840440 + 1) /\
  (let factor :=
     PrimFloat.sub (Kernel.of_Z 1) (PrimFloat.div (Kernel.of_Z 47) (Kernel.of_Z 100)) in
   option_map JS.Math_round
     (Kernel.value (PrimFloat.mul (Kernel.of_Z 4386788758840440) factor))
     = Some 2324998042185434 /\
   option_map JS.Math_round
     (Kernel.value (PrimFloat.div (Kernel.of_Z 2324998042185434) factor))
     = Some 4386788758840442).
Proof.
  split; [vm_compute; reflexivity |].
  split; [intros [_ H]; vm_compute in H; apply H; reflexivity |].
  split; vm_compute; reflexivity.
Qed.


(** ** The winner of an experiment *)

(** The first element of the sorted results is the first result of the
    sequence among those of maximal conversion. *)
Lemma sort_by_conversion_head (rs : list TestResult) :
  rs <> [] ->
  exists best rest pre post,
    JS.sort by_conversion_desc rs = best :: rest /\
    rs = pre ++ best :: post /\
    (forall r, In r pre -> conversion r < conversion best) /\
    (forall r, In r post -> conversion r <= conversion best).
Proof.
  induction rs as [| x l IH]; intro Hne; [congruence |].
  destruct l as [| y l'].
  - exists x, [], [], []. simpl. repeat split; intros r [].
  - destruct IH as (b & rest & pre & post & Hs & Hl & Hpre & Hpost); [discriminate |].
    simpl JS.sort. simpl JS.sort in Hs. rewrite Hs. simpl JS.insert_stable.
    destruct (by_conversion_desc b x) eqn:E; unfold by_conversion_desc in E.
    + apply lt_true in E.
      exists b, (JS.insert_stable by_conversion_desc x rest), (x :: pre), post.
      split; [reflexivity |]. split; [rewrite Hl; reflexivity |].
      split; [| exact Hpost].
      intros r [<- | Hr]; [lra | apply Hpre; exact Hr].
    + apply lt_false in E.
      exists x, (b :: rest), [], (y :: l').
      split; [reflexivity |]. split; [reflexivity |].
      split; [intros r [] |].
      intros r Hr. rewrite Hl in Hr. apply in_app_or in Hr.
      destruct Hr as [Hr | [<- | Hr]].
      * apply Hpre in Hr. lra.
      * lra.
      * apply Hpost in Hr. lra.
Qed.

(** C4, as the code has it.  The listing has at least two stored titles, its
    descriptions are stored, all its variants are tested and it has a result;
    the two remote calls succeed and the catalog has the listing.  Then
    [startABTest] sends one request, which gives the listing the title and the
    description of the result of maximal conversion, the first of the sequence
    among equals, and it returns one action, [apply_best_variation], for that
    result. *)
Theorem startABTest_applies_winner (prompt stored : Prompt) (v : Variations)
    (ts ds : list string) (n : Z) (rs : list TestResult) (w : World) :
  lookup (id prompt) (variationStorage w) = Some (Some v) ->
  titles v = Some ts -> descriptions v = Some ds -> (2 <= List.length ts)%nat ->
  tested_count v = Some n -> (Z.of_nat (List.length ts) <= n)%Z ->
  results v = Some rs -> rs <> [] ->
  find_prompt (id prompt) (catalog w) = Some stored ->
  succeeds 0 w -> succeeds 1 w ->
  exists best pre post w' stored',
    rs = pre ++ best :: post /\
    (forall r, In r pre -> conversion r < conversion best) /\
    (forall r, In r post -> conversion r <= conversion best) /\
    startABTest prompt w =
      (Ok (Some (apply_best_variation (id prompt) best (now w))), w') /\
    requests w' =
      requests w ++ [Patch (id prompt)
                       (content_patch (Some (r_title best)) (Some (r_description best)) None)] /\
    find_prompt (id prompt) (catalog w') = Some stored' /\
    title stored' = r_title best /\ description stored' = r_description best.
Proof.
  intros Hl Ht Hd Hlen Hn Hall Hr Hne Hf H0 H1.
  destruct (sort_by_conversion_head rs Hne) as (best & rest & pre & post & Hs & Hsplit & Hpre & Hpost).
  set (data := content_patch (Some (r_title best)) (Some (r_description best)) None).
  exists best, pre, post, (patched (id prompt) stored data (pop_fault w)),
    (applyPatch stored data).
  destruct (pop_fault_fields w) as (Enow & Ecat & _ & _ & Ereq & _).
  destruct (patched_fields (id prompt) stored data (pop_fault w)) as (Pnow & Preq & _ & Pcat).
  repeat split; try assumption.
  - unfold startABTest, try_catch, bind.
    rewrite (retrievePromptVariations_succeeds _ _ w H0 Hl).
    rewrite Ht, Hd.
    destruct (List.length ts <=? 1)%nat eqn:E1; [apply Nat.leb_le in E1; lia |].
    rewrite Hn. destruct (Z.of_nat (List.length ts) <=? n)%Z eqn:E2;
      [| apply Z.leb_gt in E2; lia].
    rewrite Hr. destruct rs as [| r0 rs0]; [congruence |].
    rewrite Hs. fold data.
    rewrite (updatePrompt_succeeds (id prompt) stored data (pop_fault w)).
    + unfold Date_now. rewrite Pnow, Enow. reflexivity.
    + apply succeeds_pop. exact H1.
    + rewrite Ecat. exact Hf.
  - rewrite Preq, Ereq. reflexivity.
  - rewrite Pcat, Ecat. apply find_prompt_stored with (p := stored); [exact Hf |].
    simpl. apply (find_prompt_id _ _ _ Hf).
Qed.

Lemma startABTest_applies_winner_witness :
  let p := listing "p" 50 (5 # 100) 0 150 false in
  let w := world_with [p] [] [("p"%string, Some finished_experiment)] [] in
  exists best pre post w' stored',
    [result_of "A" 5; result_of "B" 7; result_of "C" 7] = pre ++ best :: post /\
    (forall r, In r pre -> conversion r < conversion best) /\
    (forall r, In r post -> conversion r <= conversion best) /\
    startABTest p w = (Ok (Some (apply_best_variation (id p) best (now w))), w') /\
    requests w' =
      requests w ++ [Patch (id p)
                       (content_patch (Some (r_title best)) (Some (r_description best)) None)] /\
    find_prompt (id p) (catalog w') = Some stored' /\
    title stored' = r_title best /\ description stored' = r_description best.
Proof.
  intros p w.
  apply (startABTest_applies_winner p p finished_experiment
           ["A"; "B"]%string ["a"; "b"]%string 2%Z
           [result_of "A" 5; result_of "B" 7; result_of "C" 7] w);
    try reflexivity.
  discriminate.
Defined.

(** The winner of the example is the second result, the first of the two of
    conversion 7. *)
Example startABTest_tie :
  let p := listing "p" 50 (5 # 100) 0 150 false in
  fst (startABTest p (world_with [p] [] [("p"%string, Some finished_experiment)] [])) =
  Ok (Some (apply_best_variation "p" (result_of "B" 7) 0)).
Proof. reflexivity. Qed.

(** C4 as stated fails.  The only variant of a listing is tested and has a
    result: [startABTest] applies nothing and returns no action, because fewer
    than two titles are stored.  The two variants of a listing are tested and
    have results, and the update of the catalog fails: the request is sent,
    the catalog keeps the title, and no action is returned. *)
Lemma winner_not_applied :
  (let p := listing "p" 50 (5 # 100) 0 150 false in
   let w := world_with [p] [] [("p"%string, Some single_variant_experiment)] [] in
   tested_count single_variant_experiment = Some 1%Z /\
   titles single_variant_experiment = Some ["A"%string] /\
   results single_variant_experiment = Some [result_of "A" 5] /\
   fst (startABTest p w) = Ok None /\
   requests (snd (startABTest p w)) = []) /\
  (let p := listing "p" 50 (5 # 100) 0 150 false in
   let w := world_with [p] [false; true] [("p"%string, Some finished_experiment)] [] in
   fst (startABTest p w) = Ok None /\
   map title (catalog (snd (startABTest p w))) = ["Title"%string]).
Proof.
  split; intros p w; repeat split.
Qed.

(** ** The next occurrence of a day and an hour *)

Lemma indexOf_range (l : list string) (x : string) :
  indexOf l x = (-1)%Z \/ (0 <= indexOf l x < Z.of_nat (List.length l))%Z.
Proof.
  induction l as [| y l IH]; simpl indexOf; [left; reflexivity |].
  destruct (String.eqb y x); [right; simpl List.length; lia |].
  destruct (indexOf l x =? -1)%Z eqn:E; [left; reflexivity |].
  apply Z.eqb_neq in E. right. simpl List.length. lia.
Qed.

Lemma indexOf_days_range (day : string) :
  indexOf days day = (-1)%Z \/ (0 <= indexOf days day <= 6)%Z.
Proof.
  destruct (indexOf_range days day) as [H | H]; [left; exact H | right].
  change (Z.of_nat (List.length days)) with 7%Z in H. lia.
Qed.

Lemma localDay_setHours (utcOffset t hour : Z) :
  (0 <= hour < 24)%Z ->
  localDay utcOffset (setHours utcOffset t hour) = localDay utcOffset t.
Proof.
  intro H. unfold setHours.
  set (L := localDay utcOffset t). unfold localDay.
  replace (L * msPerDay + hour * msPerHour - utcOffset + utcOffset)%Z
    with (hour * msPerHour + L * msPerDay)%Z by ring.
  rewrite Z.div_add by (unfold msPerDay, msPerHour; lia).
  rewrite Z.div_small; [reflexivity |].
  unfold msPerDay, msPerHour. lia.
Qed.

Lemma localDay_addDays (utcOffset t n : Z) :
  localDay utcOffset (addDays t n) = (localDay utcOffset t + n)%Z.
Proof.
  unfold addDays, localDay.
  replace (t + n * msPerDay + utcOffset)%Z with (t + utcOffset + n * msPerDay)%Z by ring.
  apply Z.div_add. unfold msPerDay, msPerHour. lia.
Qed.

Lemma getDay_range (utcOffset t : Z) : (0 <= getDay utcOffset t <= 6)%Z.
Proof.
  unfold getDay. pose proof (Z.mod_pos_bound (localDay utcOffset t + 4) 7). lia.
Qed.

(** For a day of the week and an hour of the day, the occurrence computed is
    on one of the seven days that follow today, never today. *)
Lemma getNextOccurrence_after_today (utcOffset : Z) (day : string) (hour today : Z) :
  indexOf days day <> (-1)%Z ->
  (0 <= hour < 24)%Z ->
  (localDay utcOffset today + 1 <=
     localDay utcOffset (getNextOccurrence utcOffset day hour today) <=
   localDay utcOffset today + 7)%Z.
Proof.
  intros Hday Hhour. unfold getNextOccurrence.
  destruct (indexOf_days_range day) as [E | Hi]; [contradiction |].
  destruct (indexOf days day =? -1)%Z eqn:E1; [apply Z.eqb_eq in E1; contradiction |].
  pose proof (getDay_range utcOffset today) as Hg.
  set (k := (indexOf days day - getDay utcOffset today)%Z).
  assert (Hk : (1 <= (if (k <=? 0)%Z then (k + 7)%Z else k) <= 7)%Z).
  { destruct (k <=? 0)%Z eqn:E2; [apply Z.leb_le in E2 | apply Z.leb_gt in E2];
      unfold k in *; lia. }
  set (k' := if (k <=? 0)%Z then (k + 7)%Z else k) in *.
  destruct (k' =? 0)%Z eqn:E3; [apply Z.eqb_eq in E3; lia |].
  simpl. rewrite localDay_setHours by exact Hhour.
  rewrite localDay_addDays. lia.
Qed.

(** C5, where the code departs from it.  On Sunday 4 January 1970 at 22:00
    (UTC), the hour of the weekly scheduling of promotions, the next Sunday
    23:00 is one hour away; [getNextOccurrence] returns Sunday 11 January at
    23:00, a week after that occurrence.  Likewise on Monday 5 January at
    09:00 for Monday 10:00. *)
Theorem getNextOccurrence_skips_today :
  (let today := (3 * msPerDay + 22 * msPerHour)%Z in
   let sameDay := (3 * msPerDay + 23 * msPerHour)%Z in
   getDay 0 today = 0%Z /\ getHours 0 today = 22%Z /\
   getDay 0 sameDay = 0%Z /\ getHours 0 sameDay = 23%Z /\ (today < sameDay)%Z /\
   getNextOccurrence 0 "Sunday" 23 today = (sameDay + 7 * msPerDay)%Z) /\
  (let today := (4 * msPerDay + 9 * msPerHour)%Z in
   let sameDay := (4 * msPerDay + 10 * msPerHour)%Z in
   getDay 0 today = 1%Z /\ getHours 0 today = 9%Z /\
   getDay 0 sameDay = 1%Z /\ getHours 0 sameDay = 10%Z /\ (today < sameDay)%Z /\
   getNextOccurrence 0 "Monday" 10 today = (sameDay + 7 * msPerDay)%Z).
Proof.
  vm_compute. repeat split.
Qed.

(** The two examples of the specification, and the fallback for a name that is
    not a day: Sunday 4 January 1970 09:00 gives the next day at 10:00, Monday
    11:00 gives the Monday after, a wrong name gives tomorrow. *)
Example getNextOccurrence_examples :
  getNextOccurrence 0 "Monday" 10 (3 * msPerDay + 9 * msPerHour) =
    (4 * msPerDay + 10 * msPerHour)%Z /\
  getNextOccurrence 0 "Monday" 10 (4 * msPerDay + 11 * msPerHour) =
    (11 * msPerDay + 10 * msPerHour)%Z /\
  getNextOccurrence 0 "Lundi" 10 (4 * msPerDay + 11 * msPerHour) =
    (5 * msPerDay + 10 * msPerHour)%Z.
Proof. vm_compute. repeat split. Qed.

(** ** Failures and the cadences *)

Lemma total_ret {A : Type} (a : A) : total (ret a).
Proof. intro w. exists a, w. reflexivity. Qed.

Lemma total_bind {A B : Type} (c : M A) (k : A -> M B) :
  total c -> (forall a, total (k a)) -> total (bind c k).
Proof.
  intros Hc Hk w. unfold bind. destruct (Hc w) as (a & w1 & E). rewrite E. apply Hk.
Qed.

Lemma total_try_catch {A : Type} (c : M A) (h : string -> M A) :
  (forall e, total (h e)) -> total (try_catch c h).
Proof.
  intros Hh w. unfold try_catch. destruct (c w) as [[a | e] w1].
  - exists a, w1. reflexivity.
  - apply Hh.
Qed.

Lemma total_for_of {A S : Type} (body : A -> S -> M S) (l : list A) :
  (forall x s, total (body x s)) -> forall s, total (for_of l body s).
Proof.
  intro Hb. induction l as [| x l IH]; intro s; simpl.
  - apply total_ret.
  - apply total_bind; [apply Hb | exact IH].
Qed.

Lemma total_collect {A : Type} (f : A -> M (option Action)) (x : A) (actions : list Action) :
  total (f x) -> total (collect f x actions).
Proof.
  intro Hf. unfold collect. apply total_bind; [exact Hf |].
  intros [a |]; apply total_ret.
Qed.

Lemma total_sendNotification (n : Notification) : total (sendNotification n).
Proof. intro w. exists true, (add_notification n w). reflexivity. Qed.

Lemma total_Date_now : total Date_now.
Proof. intro w. exists (now w), w. reflexivity. Qed.

Lemma total_Promise_all_map {A B : Type} (f : A -> M B) (l : list A) :
  (forall x, total (f x)) -> total (Promise_all_map f l).
Proof.
  intro Hf. induction l as [| x l IH]; simpl.
  - apply total_ret.
  - apply total_bind; [apply Hf |]. intro y.
    apply total_bind; [exact IH |]. intro ys. apply total_ret.
Qed.

Lemma quiet_ret {A : Type} (a : A) : quiet (ret a).
Proof. intros w r w' H. inversion H. reflexivity. Qed.

Lemma quiet_throw {A : Type} (e : string) : quiet (@throw A e).
Proof. intros w r w' H. inversion H. reflexivity. Qed.

Lemma quiet_bind {A B : Type} (c : M A) (k : A -> M B) :
  quiet c -> (forall a, quiet (k a)) -> quiet (bind c k).
Proof.
  intros Hc Hk w r w' H. unfold bind in H.
  destruct (c w) as [[a | e] w1] eqn:E.
  - rewrite (Hk a w1 r w' H). exact (Hc w _ w1 E).
  - inversion H; subst. exact (Hc w _ w' E).
Qed.

Lemma quiet_try_catch {A : Type} (c : M A) (h : string -> M A) :
  quiet c -> (forall e, quiet (h e)) -> quiet (try_catch c h).
Proof.
  intros Hc Hh w r w' H. unfold try_catch in H.
  destruct (c w) as [[a | e] w1] eqn:E.
  - inversion H; subst. exact (Hc w _ w' E).
  - rewrite (Hh e w1 r w' H). exact (Hc w _ w1 E).
Qed.

Lemma quiet_for_of {A S : Type} (body : A -> S -> M S) (l : list A) :
  (forall x s, quiet (body x s)) -> forall s, quiet (for_of l body s).
Proof.
  intro Hb. induction l as [| x l IH]; intro s; simpl.
  - apply quiet_ret.
  - apply quiet_bind; [apply Hb | exact IH].
Qed.

Lemma quiet_collect {A : Type} (f : A -> M (option Action)) (x : A) (actions : list Action) :
  quiet (f x) -> quiet (collect f x actions).
Proof.
  intro Hf. unfold collect. apply quiet_bind; [exact Hf |].
  intros [a |]; apply quiet_ret.
Qed.

Lemma quiet_remote (e : string) : quiet (remote e).
Proof.
  intros w r w' H. unfold remote in H.
  destruct (faults w) as [| [] f]; inversion H; reflexivity.
Qed.

Lemma quiet_Date_now : quiet Date_now.
Proof. intros w r w' H. inversion H. reflexivity. Qed.

Lemma quiet_Math_random : quiet Math_random.
Proof.
  intros w r w' H. unfold Math_random in H.
  destruct (random w); inversion H; reflexivity.
Qed.

Lemma quiet_updatePrompt (k : string) (data : UpdateData) : quiet (updatePrompt k data).
Proof.
  unfold updatePrompt, client_patch.
  apply quiet_try_catch; [| intro; apply quiet_throw].
  apply quiet_bind; [intros w r w' H; inversion H; reflexivity |]. intros _.
  apply quiet_bind; [apply quiet_remote |]. intros _.
  intros w r w' H. destruct (find_prompt k (catalog w)); inversion H; reflexivity.
Qed.

Lemma quiet_updatePromptPrice (env : Env) (k : string) (p : Q) :
  quiet (updatePromptPrice env k p).
Proof.
  unfold updatePromptPrice, client_patch.
  apply quiet_try_catch; [| intro; apply quiet_throw].
  apply quiet_bind; [intros w r w' H; inversion H; reflexivity |]. intros _.
  apply quiet_bind; [apply quiet_remote |]. intros _.
  intros w r w' H. destruct (find_prompt k (catalog w)); inversion H; reflexivity.
Qed.

Lemma quiet_getPromptPerformance (k : string) : quiet (getPromptPerformance k).
Proof.
  unfold getPromptPerformance.
  apply quiet_try_catch; [| intro; apply quiet_throw].
  apply quiet_bind; [apply quiet_remote |]. intros _.
  intros w r w' H. destruct (lookup k (performances w)); inversion H; reflexivity.
Qed.

Lemma quiet_retrievePromptVariations (k : string) : quiet (retrievePromptVariations k).
Proof.
  unfold retrievePromptVariations.
  apply quiet_bind; [apply quiet_remote |]. intros _.
  intros w r w' H. destruct (lookup k (variationStorage w)); inversion H; reflexivity.
Qed.

Lemma quiet_scheduleTestEnd (k : string) (i d : Z) : quiet (scheduleTestEnd k i d).
Proof. intros w r w' H. inversion H. reflexivity. Qed.

Lemma quiet_getLongTermTrends (k : string) : quiet (getLongTermTrends k).
Proof.
  unfold getLongTermTrends.
  apply quiet_try_catch; [| intro; apply quiet_ret].
  apply quiet_bind; [apply quiet_getPromptPerformance |]. intros _.
  apply quiet_bind; [apply quiet_Math_random |]. intro. apply quiet_ret.
Qed.

(** One step of a proof that a computation is quiet: the head of the
    computation decides the lemma. *)
Ltac quiet_step :=
  match goal with
  | |- forall _, _ => intro
  | |- quiet (try_catch _ _) => apply quiet_try_catch
  | |- quiet (bind _ _) => apply quiet_bind
  | |- quiet (ret _) => apply quiet_ret
  | |- quiet (throw _) => apply quiet_throw
  | |- quiet (updatePrompt _ _) => apply quiet_updatePrompt
  | |- quiet (updatePromptPrice _ _ _) => apply quiet_updatePromptPrice
  | |- quiet (retrievePromptVariations _) => apply quiet_retrievePromptVariations
  | |- quiet (getLongTermTrends _) => apply quiet_getLongTermTrends
  | |- quiet (scheduleTestEnd _ _ _) => apply quiet_scheduleTestEnd
  | |- quiet Date_now => apply quiet_Date_now
  | |- quiet (match ?x with _ => _ end) => destruct x
  end.

Lemma quiet_startABTest (prompt : Prompt) : quiet (startABTest prompt).
Proof. unfold startABTest. repeat quiet_step. Qed.

Lemma quiet_improvePromptContent (prompt : Prompt) : quiet (improvePromptContent prompt).
Proof. unfold improvePromptContent. repeat quiet_step. Qed.

Lemma quiet_optimizeLongTermPrice (env : Env) (prompt : Prompt) :
  quiet (optimizeLongTermPrice env prompt).
Proof. unfold optimizeLongTermPrice. repeat quiet_step. Qed.

(** Every helper that handles one listing catches what is thrown inside it. *)
Lemma helpers_total (env : Env) (prompt : Prompt) :
  total (startABTest prompt) /\ total (improvePromptContent prompt) /\
  total (optimizeLongTermPrice env prompt) /\ total (refreshPromptContent prompt) /\
  total (removePromotion prompt) /\ total (applyPromotion prompt) /\
  total (with_performance prompt).
Proof.
  repeat split; apply total_try_catch; intro; apply total_ret.
Qed.

(** The three passes of the daily run, without the handler around them. *)
Lemma daily_passes (env : Env) (allData : list Prompt) :
  total (actions <- for_of (JS.slice0 2 (promptsForTesting allData)) (collect startABTest) [] ;;
         actions <- for_of (JS.slice0 3 (lowPerformingPrompts allData))
                      (collect improvePromptContent) actions ;;
         actions <- for_of (stablePricePrompts allData)
                      (collect (optimizeLongTermPrice env)) actions ;;
         ret actions) /\
  quiet (actions <- for_of (JS.slice0 2 (promptsForTesting allData)) (collect startABTest) [] ;;
         actions <- for_of (JS.slice0 3 (lowPerformingPrompts allData))
                      (collect improvePromptContent) actions ;;
         actions <- for_of (stablePricePrompts allData)
                      (collect (optimizeLongTermPrice env)) actions ;;
         ret actions).
Proof.
  split.
  - apply total_bind.
    { apply total_for_of. intros x s. apply total_collect, helpers_total; exact env. }
    intro. apply total_bind.
    { apply total_for_of. intros x s. apply total_collect, helpers_total; exact env. }
    intro. apply total_bind.
    { apply total_for_of. intros x s. apply total_collect. apply (helpers_total env x). }
    intro. apply total_ret.
  - apply quiet_bind.
    { apply quiet_for_of. intros x s. apply quiet_collect, quiet_startABTest. }
    intro. apply quiet_bind.
    { apply quiet_for_of. intros x s. apply quiet_collect, quiet_improvePromptContent. }
    intro. apply quiet_bind.
    { apply quiet_for_of. intros x s. apply quiet_collect, quiet_optimizeLongTermPrice. }
    intro. apply quiet_ret.
Qed.

(** *** Failures of the remote calls *)

Lemma fails_ret {A : Type} (a : A) : fails_with_its_calls (ret a).
Proof. intros w r w' H. inversion H; subst. exists []. split; [reflexivity | intros []]. Qed.

Lemma fails_throw {A : Type} (e : string) : fails_with_its_calls (@throw A e).
Proof. intros w r w' H. inversion H; subst. exists []. split; [reflexivity | intros []]. Qed.

Lemma fails_bind {A B : Type} (c : M A) (k : A -> M B) :
  fails_with_its_calls c -> (forall a, fails_with_its_calls (k a)) ->
  fails_with_its_calls (bind c k).
Proof.
  intros Hc Hk w r w' H. unfold bind in H.
  destruct (c w) as [[a | e] w1] eqn:E.
  - destruct (Hc _ _ _ E) as (u1 & F1 & T1). destruct (Hk _ _ _ _ H) as (u2 & F2 & T2).
    exists (u1 ++ u2). split; [rewrite <- app_assoc, <- F2; exact F1 |].
    intro Hin. apply in_app_or in Hin. destruct Hin as [Hin | Hin].
    + destruct (T1 Hin) as (e & He). discriminate.
    + exact (T2 Hin).
  - inversion H; subst. destruct (Hc _ _ _ E) as (u & F & _).
    exists u. split; [exact F | intros _; eexists; reflexivity].
Qed.

Lemma fails_rethrow {A : Type} (c : M A) :
  fails_with_its_calls c -> fails_with_its_calls (try_catch c (fun err => throw err)).
Proof.
  intros Hc w r w' H. unfold try_catch in H.
  destruct (c w) as [[a | e] w1] eqn:E; inversion H; subst; exact (Hc _ _ _ E).
Qed.

Lemma fails_remote (e : string) : fails_with_its_calls (remote e).
Proof.
  intros w r w' H. unfold remote in H.
  destruct (faults w) as [| [] f] eqn:F; inversion H; subst.
  - exists []. split; [symmetry; exact F | intros []].
  - exists [true]. split; [reflexivity |]. intros _. exists e. reflexivity.
  - exists [false]. split; [reflexivity |]. intros [Hin | []]. discriminate.
Qed.

(** A step that leaves the fault schedule as it is. *)
Lemma fails_local {A : Type} (c : M A) :
  (forall w, faults (snd (c w)) = faults w) -> fails_with_its_calls c.
Proof.
  intros Hc w r w' H. exists []. split; [| intros []].
  specialize (Hc w). rewrite H in Hc. symmetry. exact Hc.
Qed.

Lemma fails_client_patch (k : string) (data : UpdateData) :
  fails_with_its_calls (client_patch k data).
Proof.
  unfold client_patch.
  apply fails_bind; [apply fails_local; reflexivity |]. intros _.
  apply fails_bind; [apply fails_remote |]. intros _.
  apply fails_local. intro w. destruct (find_prompt k (catalog w)); reflexivity.
Qed.

Lemma fails_updatePrompt (k : string) (data : UpdateData) :
  fails_with_its_calls (updatePrompt k data).
Proof. apply fails_rethrow, fails_client_patch. Qed.

Lemma fails_updatePromptPrice (env : Env) (k : string) (p : Q) :
  fails_with_its_calls (updatePromptPrice env k p).
Proof. apply fails_rethrow, fails_client_patch. Qed.

Lemma fails_getPromptPerformance (k : string) : fails_with_its_calls (getPromptPerformance k).
Proof.
  apply fails_rethrow.
  apply fails_bind; [apply fails_remote |]. intros _.
  apply fails_local. intro w. destruct (lookup k (performances w)); reflexivity.
Qed.

Lemma fails_retrievePromptVariations (k : string) :
  fails_with_its_calls (retrievePromptVariations k).
Proof.
  unfold retrievePromptVariations.
  apply fails_bind; [apply fails_remote |]. intros _.
  apply fails_local. intro w. destruct (lookup k (variationStorage w)); reflexivity.
Qed.

Lemma fails_Math_random : fails_with_its_calls Math_random.
Proof. apply fails_local. intro w. unfold Math_random. destruct (random w); reflexivity. Qed.

(** What a [try] that throws with its calls gives under a [catch] that
    returns [none]. *)
Lemma contains_try {A : Type} (none : A) (c : M A) :
  fails_with_its_calls c -> contains_failures none (try_catch c (fun _ => ret none)).
Proof.
  intros Hc w. unfold try_catch.
  destruct (c w) as [[a | e] w1] eqn:E; destruct (Hc _ _ _ E) as (used & F & T).
  - exists a, w1, used. repeat split; [exact F |].
    intro Hin. destruct (T Hin) as (e & He). discriminate.
  - exists none, w1, used. repeat split. exact F.
Qed.

Ltac fails_step :=
  match goal with
  | |- forall _, _ => intro
  | |- fails_with_its_calls (bind _ _) => apply fails_bind
  | |- fails_with_its_calls (ret _) => apply fails_ret
  | |- fails_with_its_calls (throw _) => apply fails_throw
  | |- fails_with_its_calls (updatePrompt _ _) => apply fails_updatePrompt
  | |- fails_with_its_calls (updatePromptPrice _ _ _) => apply fails_updatePromptPrice
  | |- fails_with_its_calls (getPromptPerformance _) => apply fails_getPromptPerformance
  | |- fails_with_its_calls (retrievePromptVariations _) =>
      apply fails_retrievePromptVariations
  | |- fails_with_its_calls Math_random => apply fails_Math_random
  | |- fails_with_its_calls (scheduleTestEnd _ _ _) => apply fails_local; reflexivity
  | |- fails_with_its_calls Date_now => apply fails_local; reflexivity
  | |- fails_with_its_calls (match ?x with _ => _ end) => destruct x
  end.

(** A failed fetch of the performance gives the elasticity 0. *)
Lemma getLongTermTrends_contains (k : string) : contains_failures 0 (getLongTermTrends k).
Proof. unfold getLongTermTrends. apply contains_try. repeat fails_step. Qed.

(** A [try] that starts with a call that contains its failures, and goes on
    to no action after the value that call gives on a failure. *)
Lemma contains_after {A : Type} (zero : A) (c : M A) (k : A -> M (option Action)) :
  contains_failures zero c -> (forall a, fails_with_its_calls (k a)) ->
  (forall w, k zero w = (Ok None, w)) ->
  contains_failures None (try_catch (bind c k) (fun _ => ret None)).
Proof.
  intros Hc Hk H0 w. unfold try_catch, bind.
  destruct (Hc w) as (a & w1 & u1 & E1 & F1 & T1). rewrite E1.
  destruct (k a w1) as [[r | e] w2] eqn:E2; destruct (Hk _ _ _ _ E2) as (u2 & F2 & T2).
  - exists r, w2, (u1 ++ u2). repeat split; [rewrite <- app_assoc, <- F2; exact F1 |].
    intro Hin. apply in_app_or in Hin. destruct Hin as [Hin | Hin].
    + rewrite (T1 Hin), H0 in E2. inversion E2. reflexivity.
    + destruct (T2 Hin) as (e & He). discriminate.
  - exists None, w2, (u1 ++ u2). repeat split. rewrite <- app_assoc, <- F2. exact F1.
Qed.

Lemma optimizeLongTermPrice_contains (env : Env) (prompt : Prompt) :
  contains_failures None (optimizeLongTermPrice env prompt).
Proof.
  unfold optimizeLongTermPrice.
  apply (contains_after 0); [apply getLongTermTrends_contains | | reflexivity].
  intro a. repeat fails_step.
Qed.

(** Every helper that handles one listing contains the failures of its remote
    calls. *)
Lemma helpers_contain (env : Env) (prompt : Prompt) :
  contains_failures None (startABTest prompt) /\
  contains_failures None (improvePromptContent prompt) /\
  contains_failures None (optimizeLongTermPrice env prompt) /\
  contains_failures None (refreshPromptContent prompt) /\
  contains_failures None (removePromotion prompt) /\
  contains_failures None (applyPromotion prompt) /\
  contains_failures (prompt, None) (with_performance prompt).
Proof.
  split; [| split; [| split; [apply optimizeLongTermPrice_contains | repeat split]]].
  - unfold startABTest. apply contains_try. repeat fails_step.
  - unfold improvePromptContent. cbv zeta. apply contains_try. repeat fails_step.
  - unfold refreshPromptContent. cbv zeta. apply contains_try. repeat fails_step.
  - unfold removePromotion. cbv zeta. apply contains_try. repeat fails_step.
  - unfold applyPromotion. cbv zeta. apply contains_try. repeat fails_step.
  - unfold with_performance. apply contains_try. repeat fails_step.
Qed.

(** *** A listing the server does not know *)

Lemma keeps_local {A : Type} (k : string) (c : M A) :
  (forall w, catalog (snd (c w)) = catalog w) -> keeps_unknown k c.
Proof.
  intros Hc w r w' U H. specialize (Hc w). rewrite H in Hc.
  unfold unknown. simpl in Hc. rewrite Hc. exact U.
Qed.

Lemma remote_catalog (e : string) (w : World) : catalog (snd (remote e w)) = catalog w.
Proof. unfold remote. destruct (faults w) as [| [] f]; reflexivity. Qed.

Lemma keeps_bind {A B : Type} (k : string) (c : M A) (f : A -> M B) :
  keeps_unknown k c -> (forall a, keeps_unknown k (f a)) -> keeps_unknown k (bind c f).
Proof.
  intros Hc Hf w r w' U H. unfold bind in H.
  destruct (c w) as [[a | e] w1] eqn:E.
  - exact (Hf _ _ _ _ (Hc _ _ _ U E) H).
  - inversion H; subst. exact (Hc _ _ _ U E).
Qed.

Lemma keeps_try_catch {A : Type} (k : string) (c : M A) (h : string -> M A) :
  keeps_unknown k c -> (forall e, keeps_unknown k (h e)) -> keeps_unknown k (try_catch c h).
Proof.
  intros Hc Hh w r w' U H. unfold try_catch in H.
  destruct (c w) as [[a | e] w1] eqn:E.
  - inversion H; subst. exact (Hc _ _ _ U E).
  - exact (Hh _ _ _ _ (Hc _ _ _ U E) H).
Qed.

Lemma keeps_retrievePromptVariations (k k' : string) :
  keeps_unknown k (retrievePromptVariations k').
Proof.
  unfold retrievePromptVariations. apply keeps_bind.
  - apply keeps_local, remote_catalog.
  - intros _. apply keeps_local. intro w. destruct (lookup k' (variationStorage w)); reflexivity.
Qed.

Lemma keeps_getLongTermTrends (k k' : string) : keeps_unknown k (getLongTermTrends k').
Proof.
  unfold getLongTermTrends, getPromptPerformance.
  apply keeps_try_catch; [| intro; apply keeps_local; reflexivity].
  apply keeps_bind.
  - apply keeps_try_catch; [| intro; apply keeps_local; reflexivity].
    apply keeps_bind; [apply keeps_local, remote_catalog |]. intros _.
    apply keeps_local. intro w. destruct (lookup k' (performances w)); reflexivity.
  - intros _. apply keeps_bind.
    + apply keeps_local. intro w. unfold Math_random. destruct (random w); reflexivity.
    + intro. apply keeps_local. reflexivity.
Qed.

(** The PATCH of a listing the server does not know is answered by a 404. *)
Lemma client_patch_unknown (k : string) (data : UpdateData) :
  throws_unknown k (client_patch k data).
Proof.
  intros w r w' U H. unfold client_patch, bind in H. unfold unknown in *.
  assert (Hr : forall w0, catalog w0 = catalog w ->
                 (fun w1 => match find_prompt k (catalog w1) with
                            | Some p => (Ok (applyPatch p data),
                                         set_catalog (store_prompt (applyPatch p data)
                                                        (catalog w1)) w1)
                            | None => (Throw "Request failed with status code 404", w1)
                            end) w0 = (Throw "Request failed with status code 404", w0)).
  { intros w0 E. cbv beta. rewrite E, U. reflexivity. }
  unfold remote in H. cbv beta iota in H.
  destruct (faults (add_request (Patch k data) w)) as [| [] f].
  - rewrite Hr in H by reflexivity. inversion H; subst.
    split; [exact U | eexists; reflexivity].
  - inversion H; subst. split; [exact U | eexists; reflexivity].
  - rewrite Hr in H by reflexivity. inversion H; subst.
    split; [exact U | eexists; reflexivity].
Qed.

Lemma throws_rethrow {A : Type} (k : string) (c : M A) :
  throws_unknown k c -> throws_unknown k (try_catch c (fun err => throw err)).
Proof.
  intros Hc w r w' U H. unfold try_catch in H.
  destruct (c w) as [[a | e] w1] eqn:E.
  - destruct (Hc _ _ _ U E) as (_ & e & He). discriminate.
  - inversion H; subst. split; [exact (proj1 (Hc _ _ _ U E)) | eexists; reflexivity].
Qed.

Lemma updatePrompt_unknown (k : string) (data : UpdateData) :
  throws_unknown k (updatePrompt k data).
Proof. apply throws_rethrow, client_patch_unknown. Qed.

Lemma updatePromptPrice_unknown (env : Env) (k : string) (p : Q) :
  throws_unknown k (updatePromptPrice env k p).
Proof. apply throws_rethrow, client_patch_unknown. Qed.

Lemma no_action_ret_None (k : string) : no_action_unknown k (ret None).
Proof. intros w r w' U H. inversion H; subst. split; [exact U | discriminate]. Qed.

Lemma no_action_throw (k e : string) : no_action_unknown k (throw e).
Proof. intros w r w' U H. inversion H; subst. split; [exact U | discriminate]. Qed.

Lemma no_action_bind {A : Type} (k : string) (c : M A) (f : A -> M (option Action)) :
  keeps_unknown k c -> (forall a, no_action_unknown k (f a)) -> no_action_unknown k (bind c f).
Proof.
  intros Hc Hf w r w' U H. unfold bind in H.
  destruct (c w) as [[a | e] w1] eqn:E.
  - exact (Hf _ _ _ _ (Hc _ _ _ U E) H).
  - inversion H; subst. split; [exact (Hc _ _ _ U E) | discriminate].
Qed.

Lemma no_action_after_throw {A : Type} (k : string) (c : M A) (f : A -> M (option Action)) :
  throws_unknown k c -> no_action_unknown k (bind c f).
Proof.
  intros Hc w r w' U H. unfold bind in H.
  destruct (c w) as [[a | e] w1] eqn:E.
  - destruct (Hc _ _ _ U E) as (_ & e & He). discriminate.
  - inversion H; subst. split; [exact (proj1 (Hc _ _ _ U E)) | discriminate].
Qed.

Lemma no_action_try_catch (k : string) (c : M (option Action)) (h : string -> M (option Action)) :
  no_action_unknown k c -> (forall e, no_action_unknown k (h e)) ->
  no_action_unknown k (try_catch c h).
Proof.
  intros Hc Hh w r w' U H. unfold try_catch in H.
  destruct (c w) as [[a | e] w1] eqn:E.
  - inversion H; subst. exact (Hc _ _ _ U E).
  - exact (Hh _ _ _ _ (proj1 (Hc _ _ _ U E)) H).
Qed.

Ltac no_action_step :=
  match goal with
  | |- forall _, _ => intro
  | |- no_action_unknown _ (try_catch _ _) => apply no_action_try_catch
  | |- no_action_unknown _ (ret None) => apply no_action_ret_None
  | |- no_action_unknown _ (throw _) => apply no_action_throw
  | |- no_action_unknown _ (bind (updatePrompt _ _) _) =>
      apply no_action_after_throw, updatePrompt_unknown
  | |- no_action_unknown _ (bind (updatePromptPrice _ _ _) _) =>
      apply no_action_after_throw, updatePromptPrice_unknown
  | |- no_action_unknown _ (bind (retrievePromptVariations _) _) =>
      apply no_action_bind; [apply keeps_retrievePromptVariations |]
  | |- no_action_unknown _ (bind (getLongTermTrends _) _) =>
      apply no_action_bind; [apply keeps_getLongTermTrends |]
  | |- no_action_unknown _ (bind Date_now _) =>
      apply no_action_bind; [apply keeps_local; reflexivity |]
  | |- no_action_unknown _ (match ?x with _ => _ end) => destruct x
  end.

(** The outcome of a helper that returns in every world and returns no action
    for an unknown listing. *)
Lemma no_action_returned (k : string) (c : M (option Action)) (w : World) :
  total c -> no_action_unknown k c -> unknown k w -> fst (c w) = Ok None.
Proof.
  intros Ht Hn U. destruct (Ht w) as (r & w' & E). rewrite E. simpl.
  destruct r as [a |]; [| reflexivity].
  destruct (Hn _ _ _ U E) as [_ Hr]. destruct (Hr a). reflexivity.
Qed.

(** No helper returns an action for a listing the server does not know. *)
Lemma helpers_unknown (env : Env) (prompt : Prompt) (w : World) :
  unknown (id prompt) w ->
  fst (startABTest prompt w) = Ok None /\
  fst (improvePromptContent prompt w) = Ok None /\
  fst (optimizeLongTermPrice env prompt w) = Ok None /\
  fst (refreshPromptContent prompt w) = Ok None /\
  fst (removePromotion prompt w) = Ok None /\
  fst (applyPromotion prompt w) = Ok None.
Proof.
  intro U. destruct (helpers_total env prompt) as (T1 & T2 & T3 & T4 & T5 & T6 & _).
  repeat split; (apply (no_action_returned (id prompt)); [assumption | | exact U]).
  - unfold startABTest. repeat no_action_step.
  - unfold improvePromptContent. repeat no_action_step.
  - unfold optimizeLongTermPrice. repeat no_action_step.
  - unfold refreshPromptContent. repeat no_action_step.
  - unfold removePromotion. repeat no_action_step.
  - unfold applyPromotion. repeat no_action_step.
Qed.

(** The fetch of a performance the server does not have throws, and the
    listing is kept without a performance. *)
Lemma with_performance_unknown (prompt : Prompt) (w : World) :
  lookup (id prompt) (performances w) = None ->
  fst (with_performance prompt w) = Ok (prompt, None).
Proof.
  intro U. unfold with_performance, getPromptPerformance, try_catch, bind, remote.
  destruct (faults w) as [| [] f]; cbn [performances set_faults]; try rewrite U; reflexivity.
Qed.

(** On an array the daily run is the run of the array's listings. *)
Lemma dailyOptimization_of_array (env : Env) (l : list Prompt) :
  dailyOptimization_of env (array l) = dailyOptimization env l.
Proof. reflexivity. Qed.

Lemma dailyOptimization_of_no_array (env : Env) (message : string) (w : World) :
  dailyOptimization_of env (no_array message) w =
  (Ok [], add_notification
            (error_notification "Erreur d'optimisation quotidienne"
               "Une erreur est survenue lors de l'optimisation quotidienne: " message) w).
Proof. reflexivity. Qed.

(** C6, as the code has it.  No cadence lets an exception out: each of the
    three returns a list in every world.  What the body of a cadence itself
    throws is caught by the cadence, which sends an error notification and
    returns the empty list: a price mutation that fails in the loop of the
    hourly run, analytics data that are no array in the daily run, the fetch
    of the listings that fails in the weekly run.  What is thrown while one
    listing of the daily or weekly run is handled is caught by the helper of
    that listing, which returns no action (no performance, for the fetch of
    the performance): so it is when a remote call the helper made failed, and
    when the server does not know the listing.  The run goes on, and on an
    array of listings the daily run returns and sends no notification at
    all. *)
Theorem cadences_contain_failures (env : Env) :
  (forall stats, total (hourlyOptimization env stats)) /\
  (forall allData, total (dailyOptimization_of env allData)) /\
  total weeklyRenovation /\
  (forall stats w e w1,
      for_of stats (hourly_body env) [] w = (Throw e, w1) ->
      hourlyOptimization env stats w =
        (Ok [], add_notification
                  (error_notification "Erreur d'optimisation horaire"
                     "Une erreur est survenue lors de l'optimisation horaire: " e) w1)) /\
  (forall message w,
      dailyOptimization_of env (no_array message) w =
        (Ok [], add_notification
                  (error_notification "Erreur d'optimisation quotidienne"
                     "Une erreur est survenue lors de l'optimisation quotidienne: "
                     message) w)) /\
  (forall w e w1,
      getPrompts w = (Throw e, w1) ->
      weeklyRenovation w =
        (Ok [], add_notification
                  (error_notification "Erreur de rénovation hebdomadaire"
                     "Une erreur est survenue lors de la rénovation hebdomadaire: " e) w1)) /\
  (forall prompt,
      contains_failures None (startABTest prompt) /\
      contains_failures None (improvePromptContent prompt) /\
      contains_failures None (optimizeLongTermPrice env prompt) /\
      contains_failures None (refreshPromptContent prompt) /\
      contains_failures None (removePromotion prompt) /\
      contains_failures None (applyPromotion prompt) /\
      contains_failures (prompt, None) (with_performance prompt)) /\
  (forall prompt w,
      unknown (id prompt) w ->
      fst (startABTest prompt w) = Ok None /\
      fst (improvePromptContent prompt w) = Ok None /\
      fst (optimizeLongTermPrice env prompt w) = Ok None /\
      fst (refreshPromptContent prompt w) = Ok None /\
      fst (removePromotion prompt w) = Ok None /\
      fst (applyPromotion prompt w) = Ok None) /\
  (forall prompt w,
      lookup (id prompt) (performances w) = None ->
      fst (with_performance prompt w) = Ok (prompt, None)) /\
  (forall l,
      dailyOptimization_of env (array l) = dailyOptimization env l /\
      total (dailyOptimization env l) /\ quiet (dailyOptimization env l)).
Proof.
  assert (Hh : forall s t e, total (sendNotification (error_notification s t e) ;;; ret (@nil Action))).
  { intros. apply total_bind; [apply total_sendNotification | intro; apply total_ret]. }
  split; [| split; [| split; [| split; [| split; [| split; [| split; [| split; [| split]]]]]]]].
  - intro stats. apply total_try_catch. intro e.
    apply total_bind; [apply total_sendNotification | intro; apply total_ret].
  - intro allData. apply total_try_catch. intro e. apply Hh.
  - apply total_try_catch. intro e. apply Hh.
  - intros stats w e w1 H. unfold hourlyOptimization, try_catch. rewrite H. reflexivity.
  - intros message w. apply dailyOptimization_of_no_array.
  - intros w e w1 H. unfold weeklyRenovation, try_catch, bind. rewrite H. reflexivity.
  - intro prompt. apply helpers_contain.
  - intros prompt w. apply helpers_unknown.
  - intros prompt w. apply with_performance_unknown.
  - intro l. split; [apply dailyOptimization_of_array |].
    split; [apply total_try_catch; intro e; apply Hh |].
    unfold dailyOptimization.
    intros w r w' H. unfold try_catch in H.
    destruct (daily_passes env l) as [Ht Hq].
    destruct (Ht w) as (a & w1 & E). rewrite E in H. inversion H; subst.
    exact (Hq w _ _ E).
Qed.

Lemma cadences_contain_failures_witness :
  let a := listing "a" 100 (15 # 100) 25 0 false in
  let w := world [a] [true] in
  hourlyOptimization default_env [a] w =
    (Ok [], add_notification
              (error_notification "Erreur d'optimisation horaire"
                 "Une erreur est survenue lors de l'optimisation horaire: "
                 "Network Error")
              (snd (for_of [a] (hourly_body default_env) [] w))) /\
  fst (improvePromptContent a (world [] [])) = Ok None /\
  fst (with_performance a w) = Ok (a, None).
Proof.
  intros a w.
  destruct (cadences_contain_failures default_env)
    as (_ & _ & _ & H & _ & _ & _ & Hu & Hp & _).
  split; [apply H; vm_compute; reflexivity |].
  split; [apply (Hu a (world [] [])); reflexivity | apply (Hp a w); reflexivity].
Defined.

(** The helpers on a remote call that fails: the fetch of the stored variants,
    the PATCH of the content, the fetch of the performance behind the
    long-term price (with a draw that would raise the price), the PATCH of a
    refresh, of the end and of the start of a promotion, the fetch of a
    performance.  Each run takes the failing entry of the schedule and returns
    no action. *)
Example helpers_on_a_failing_call :
  let p := listing "p" 50 (1 # 100) 0 250 false in
  let w := drawing p (3 # 4) in
  let failing := set_faults [true] w in
  fst (startABTest p failing) = Ok None /\
  fst (improvePromptContent p failing) = Ok None /\
  fst (optimizeLongTermPrice default_env p failing) = Ok None /\
  fst (refreshPromptContent p failing) = Ok None /\
  fst (removePromotion p failing) = Ok None /\
  fst (applyPromotion p failing) = Ok None /\
  fst (with_performance p failing) = Ok (p, None) /\
  faults (snd (startABTest p failing)) = [] /\
  (exists a, fst (optimizeLongTermPrice default_env p w) = Ok (Some a)) /\
  (exists a, fst (improvePromptContent p w) = Ok (Some a)).
Proof.
  vm_compute. repeat split; eexists; reflexivity.
Qed.

(** C6 as stated fails.  In this daily run the fetch of the stored variants
    throws inside [startABTest]; the run goes on, returns the one action of
    its content pass and sends no notification.  In this weekly run the fetch
    of the performance of the listing throws; the run goes on and sends its
    report, not an error notification. *)
Lemma failure_inside_helper :
  (let p := listing "p" 50 (1 # 100) 0 250 false in
   let w := world [p] [true] in
   fst (retrievePromptVariations (id p) w) = Throw "Network Error" /\
   exists a w',
     dailyOptimization default_env [p] w = (Ok [a], w') /\
     a = improve_content "p" "Title" "Title - Version Optimisée" "Description"
           "Description Cette version améliorée offre des résultats plus précis et personnalisés."
           0 /\
     outbox w' = []) /\
  (let p := listing "p" 50 (1 # 100) 0 250 false in
   let w := world [p] [false; true] in
   fst (getPromptPerformance (id p) (pop_fault w)) = Throw "Network Error" /\
   map n_type (outbox (snd (weeklyRenovation w))) = [t_report]).
Proof.
  split.
  - intros p w. split; [reflexivity |].
    eexists. eexists. split; [vm_compute; reflexivity |].
    split; reflexivity.
  - intros p w. split; reflexivity.
Qed.

(** ** The caps of the daily run *)

Lemma yields_try_catch (P : Action -> Prop) (c : M (option Action)) (h : string -> M (option Action)) :
  yields P c -> (forall e, yields P (h e)) -> yields P (try_catch c h).
Proof.
  intros Hc Hh w a w' H. apply try_catch_Ok in H.
  destruct H as [H | (e & w1 & _ & H)]; [exact (Hc _ _ _ H) | exact (Hh _ _ _ _ H)].
Qed.

Lemma yields_bind {A : Type} (P : Action -> Prop) (c : M A) (k : A -> M (option Action)) :
  (forall x, yields P (k x)) -> yields P (bind c k).
Proof.
  intros Hk w a w' H. apply bind_Ok in H. destruct H as (x & w1 & _ & H).
  exact (Hk _ _ _ _ H).
Qed.

Lemma yields_ret_None (P : Action -> Prop) : yields P (ret None).
Proof. intros w a w' H. inversion H. Qed.

Lemma yields_ret_Some (P : Action -> Prop) (a : Action) : P a -> yields P (ret (Some a)).
Proof. intros Ha w a' w' H. inversion H; subst. exact Ha. Qed.

Lemma yields_throw (P : Action -> Prop) (e : string) : yields P (throw e).
Proof. intros w a w' H. inversion H. Qed.

Ltac yields_step :=
  match goal with
  | |- forall _, _ => intro
  | |- yields _ (try_catch _ _) => apply yields_try_catch
  | |- yields _ (bind _ _) => apply yields_bind
  | |- yields _ (ret None) => apply yields_ret_None
  | |- yields _ (ret (Some _)) => apply yields_ret_Some; reflexivity
  | |- yields _ (throw _) => apply yields_throw
  | |- yields _ (match ?x with _ => _ end) => destruct x
  end.

Lemma startABTest_yields (prompt : Prompt) :
  yields (fun a => is_experiment_action a = true) (startABTest prompt).
Proof. unfold startABTest. repeat yields_step. Qed.

Lemma improvePromptContent_yields (prompt : Prompt) :
  yields (fun a => is_improve_content a = true) (improvePromptContent prompt).
Proof. unfold improvePromptContent. repeat yields_step. Qed.

Lemma optimizeLongTermPrice_yields (env : Env) (prompt : Prompt) :
  yields (fun a => is_long_term_price a = true) (optimizeLongTermPrice env prompt).
Proof. unfold optimizeLongTermPrice. repeat yields_step. Qed.

(** A loop that collects the actions of a helper adds at most one action for
    each element, all of them of the helper's kind. *)
Lemma for_of_collect {A : Type} (P : Action -> Prop) (f : A -> M (option Action)) :
  (forall x, yields P (f x)) ->
  forall l actions w r w',
    for_of l (collect f) actions w = (Ok r, w') ->
    exists new, r = actions ++ new /\ (List.length new <= List.length l)%nat /\ Forall P new.
Proof.
  intros Hf l. induction l as [| x l IH]; intros actions w r w' H; simpl in H.
  - inversion H; subst. exists []. rewrite app_nil_r. repeat split; constructor.
  - apply bind_Ok in H. destruct H as (s1 & w1 & H1 & H2).
    unfold collect in H1. apply bind_Ok in H1. destruct H1 as (o & w0 & Hx & Ho).
    apply IH in H2. destruct H2 as (new & -> & Hlen & Hall).
    destruct o as [a |]; inversion Ho; subst.
    + exists (a :: new). rewrite <- app_assoc. simpl.
      repeat split; [lia |]. constructor; [exact (Hf x _ _ _ Hx) | exact Hall].
    + exists new. simpl. repeat split; [lia | exact Hall].
Qed.

Lemma filter_none {A : Type} (q : A -> bool) (l : list A) :
  Forall (fun a => q a = false) l -> filter q l = [].
Proof.
  induction 1 as [| a l Ha _ IH]; simpl; [reflexivity |]. rewrite Ha. exact IH.
Qed.

Lemma filter_length_le {A : Type} (q : A -> bool) (l : list A) :
  (List.length (filter q l) <= List.length l)%nat.
Proof.
  induction l as [| a l IH]; simpl; [lia |]. destruct (q a); simpl; lia.
Qed.

(** C7.  The list a daily run returns has at most two actions of type
    [start_ab_test] or [apply_best_variation] and at most three of type
    [improve_content]. *)
Theorem daily_batch_caps (env : Env) (allData : list Prompt) (w w' : World)
    (actions : list Action) :
  dailyOptimization env allData w = (Ok actions, w') ->
  (List.length (filter is_experiment_action actions) <= 2)%nat /\
  (List.length (filter is_improve_content actions) <= 3)%nat.
Proof.
  intro H. unfold dailyOptimization in H. apply try_catch_Ok in H.
  destruct H as [H | (e & w1 & _ & H)].
  - apply bind_Ok in H. destruct H as (a1 & w1 & H1 & H).
    apply bind_Ok in H. destruct H as (a2 & w2 & H2 & H).
    apply bind_Ok in H. destruct H as (a3 & w3 & H3 & H).
    inversion H; subst.
    apply (for_of_collect _ _ startABTest_yields) in H1.
    apply (for_of_collect _ _ improvePromptContent_yields) in H2.
    apply (for_of_collect _ _ (optimizeLongTermPrice_yields env)) in H3.
    destruct H1 as (n1 & -> & L1 & F1). destruct H2 as (n2 & -> & L2 & F2).
    destruct H3 as (n3 & -> & L3 & F3).
    unfold JS.slice0 in L1, L2.
    pose proof (firstn_le_length 2 (promptsForTesting allData)).
    pose proof (firstn_le_length 3 (lowPerformingPrompts allData)).
    simpl app. rewrite !filter_app, !length_app.
    rewrite (filter_none is_experiment_action n2), (filter_none is_experiment_action n3),
      (filter_none is_improve_content n1), (filter_none is_improve_content n3).
    + pose proof (filter_length_le is_experiment_action n1).
      pose proof (filter_length_le is_improve_content n2).
      simpl. lia.
    + eapply Forall_impl; [| exact F3]. intros [] Ha; simpl in *; congruence.
    + eapply Forall_impl; [| exact F1]. intros [] Ha; simpl in *; congruence.
    + eapply Forall_impl; [| exact F3]. intros [] Ha; simpl in *; congruence.
    + eapply Forall_impl; [| exact F2]. intros [] Ha; simpl in *; congruence.
  - apply bind_Ok in H. destruct H as (? & ? & _ & H). inversion H; subst.
    simpl. lia.
Qed.

Lemma daily_batch_caps_witness :
  let w := world_with four_candidates [] four_experiments [] in
  let actions := returned (dailyOptimization default_env four_candidates w) in
  (List.length (filter is_experiment_action actions) <= 2)%nat /\
  (List.length (filter is_improve_content actions) <= 3)%nat.
Proof.
  intros w actions.
  apply (daily_batch_caps default_env four_candidates w
           (snd (dailyOptimization default_env four_candidates w)) actions).
  vm_compute. reflexivity.
Defined.

(** In that run both caps are reached: four listings qualify for each pass,
    two experiment actions and three content actions are returned. *)
Example daily_caps_reached :
  let w := world_with four_candidates [] four_experiments [] in
  let actions := returned (dailyOptimization default_env four_candidates w) in
  List.length (promptsForTesting four_candidates) = 4%nat /\
  List.length (lowPerformingPrompts four_candidates) = 4%nat /\
  List.length (filter is_experiment_action actions) = 2%nat /\
  List.length (filter is_improve_content actions) = 3%nat.
Proof. vm_compute. repeat split. Qed.

(** ** Applying a promotion *)

Lemma getPrompt_Ok (k : string) (w w1 : World) (p : Prompt) :
  getPrompt k w = (Ok p, w1) ->
  find_prompt k (catalog w) = Some p /\ w1 = pop_fault w.
Proof.
  unfold getPrompt, try_catch, client_get, bind, remote, pop_fault, throw.
  destruct (faults w) as [| [] f] eqn:E; simpl; try discriminate.
  - destruct (find_prompt k (catalog w)); intro H; inversion H; subst. split; reflexivity.
  - destruct (find_prompt k (catalog w)); intro H; inversion H; subst. split; reflexivity.
Qed.

(** A patch is sent, whether it succeeds or not. *)
Lemma updatePrompt_sent (k : string) (data : UpdateData) (w w' : World) (r : Result Prompt) :
  updatePrompt k data w = (r, w') ->
  requests w' = requests w ++ [Patch k data].
Proof.
  unfold updatePrompt, try_catch, client_patch, bind, remote, throw.
  simpl. destruct (faults w) as [| [] f]; simpl.
  - destruct (find_prompt k (catalog w)); intro H; inversion H; reflexivity.
  - intro H; inversion H; reflexivity.
  - destruct (find_prompt k (catalog w)); intro H; inversion H; reflexivity.
Qed.

(** A patch that succeeds returns the stored listing, patched. *)
Lemma updatePrompt_Ok (k : string) (data : UpdateData) (w w' : World) (u : Prompt) :
  updatePrompt k data w = (Ok u, w') ->
  exists p, find_prompt k (catalog w) = Some p /\ u = applyPatch p data.
Proof.
  unfold updatePrompt, try_catch, client_patch, bind, remote, throw.
  simpl. destruct (faults w) as [| [] f]; simpl.
  - destruct (find_prompt k (catalog w)) as [p |]; intro H; inversion H.
    exists p. split; reflexivity.
  - discriminate.
  - destruct (find_prompt k (catalog w)) as [p |]; intro H; inversion H.
    exists p. split; reflexivity.
Qed.

(** C8.  [applyPromotionToPrompt] has fetched the listing [prompt].  When the
    listing is on promotion, the call returns it as it is and sends no
    request: requests and catalog are unchanged.  Otherwise it sends one
    request, with the discount [min(discountPercentage, 50)], an end date
    [min(durationHours, 72)] hours from now, and the price
    [round(price * (1 - discount / 100))], the product, the difference and
    the quotient being those of the doubles; when the request succeeds the
    call returns the listing with these fields. *)
Theorem applyPromotionToPrompt_effect (promptId : string) (discountPercentage durationHours : Q)
    (prompt : Prompt) (w w1 : World) :
  getPrompt promptId w = (Ok prompt, w1) ->
  if on_promotion prompt then
    applyPromotionToPrompt promptId discountPercentage durationHours w = (Ok prompt, w1) /\
    requests w1 = requests w /\ catalog w1 = catalog w
  else
    exists data r w',
      applyPromotionToPrompt promptId discountPercentage durationHours w = (r, w') /\
      requests w' = requests w ++ [Patch promptId data] /\
      u_promotion_percentage data = Some (JS.Math_min discountPercentage 50) /\
      u_promotion_end_date data =
        Some (Some (JS.trunc
                      (Double.add (inject_Z (now w))
                         (Double.mul
                            (Double.mul (Double.mul (JS.Math_min durationHours 72) 60) 60)
                            1000)))) /\
      u_price data =
        Some (JS.Math_round
                (Double.mul (price prompt)
                   (Double.sub 1 (Double.div (JS.Math_min discountPercentage 50) 100)))) /\
      u_on_promotion data = Some true /\
      (forall updated, r = Ok updated -> updated = applyPatch prompt data) /\
      (succeeds 1 w -> r = Ok (applyPatch prompt data)).
Proof.
  intro Hget. destruct (getPrompt_Ok _ _ _ _ Hget) as [Hfind ->].
  destruct (pop_fault_fields w) as (Enow & Ecat & _ & _ & Ereq & _).
  destruct (on_promotion prompt) eqn:Hon.
  - split; [| split; assumption].
    unfold applyPromotionToPrompt, try_catch, bind. rewrite Hget, Hon. reflexivity.
  - set (data := promotion_patch
                   (promotionPrice (price prompt) (JS.Math_min discountPercentage 50))
                   true (JS.Math_min discountPercentage 50)
                   (Some (promotionEndDate (now w)
                            (JS.Math_min durationHours maxPromotionDuration)))).
    assert (Hrun : applyPromotionToPrompt promptId discountPercentage durationHours w =
                   try_catch (updatePrompt promptId data) (fun err => throw err) (pop_fault w)).
    { unfold applyPromotionToPrompt, try_catch, bind. rewrite Hget, Hon.
      unfold Date_now. rewrite Enow. fold data.
      destruct (updatePrompt promptId data (pop_fault w)) as [[u | e] w2]; reflexivity. }
    destruct (updatePrompt promptId data (pop_fault w)) as [r w'] eqn:Hupd.
    exists data, r, w'.
    split.
    { rewrite Hrun. unfold try_catch. rewrite Hupd. destruct r; reflexivity. }
    split.
    { rewrite (updatePrompt_sent _ _ _ _ _ Hupd), Ereq. reflexivity. }
    repeat split.
    + intros updated ->.
      destruct (updatePrompt_Ok _ _ _ _ _ Hupd) as (p0 & Hp0 & ->).
      rewrite Ecat, Hfind in Hp0. inversion Hp0. reflexivity.
    + intro H1. apply succeeds_pop in H1.
      rewrite (updatePrompt_succeeds promptId prompt data (pop_fault w) H1) in Hupd
        by (rewrite Ecat; exact Hfind).
      inversion Hupd. reflexivity.
Qed.

Lemma applyPromotionToPrompt_effect_witness :
  let p := listing "p" 99 (1 # 100) 0 250 false in
  let w := world [p] [] in
  exists data r w',
    applyPromotionToPrompt "p" 60 100 w = (r, w') /\
    requests w' = requests w ++ [Patch "p" data] /\
    u_promotion_percentage data = Some (JS.Math_min 60 50) /\
    u_promotion_end_date data =
      Some (Some (JS.trunc
                    (Double.add (inject_Z (now w))
                       (Double.mul (Double.mul (Double.mul (JS.Math_min 100 72) 60) 60)
                          1000)))) /\
    u_price data =
      Some (JS.Math_round
              (Double.mul (price p) (Double.sub 1 (Double.div (JS.Math_min 60 50) 100)))) /\
    u_on_promotion data = Some true /\
    (forall updated, r = Ok updated -> updated = applyPatch p data) /\
    (succeeds 1 w -> r = Ok (applyPatch p data)).
Proof.
  intros p w.
  apply (applyPromotionToPrompt_effect "p" 60 100 p w (pop_fault w)).
  reflexivity.
Defined.

(** In the first example the discount is 50, the promotion lasts 72 hours and
    the price goes from 99 to 50.  In the second the price goes from 45 to
    31 at 30 percent: the product of the doubles is 31.499999999999996, where
    the exact product is 31.5 and would round to 32. *)
Example applyPromotionToPrompt_clamps :
  (let p := listing "p" 99 (1 # 100) 0 250 false in
   requests (snd (applyPromotionToPrompt "p" 60 100 (world [p] []))) =
   [Patch "p" (promotion_patch 50 true 50 (Some (72 * 60 * 60 * 1000)%Z))]) /\
  (let p := listing "p" 45 (1 # 100) 0 250 false in
   requests (snd (applyPromotionToPrompt "p" 30 24 (world [p] []))) =
   [Patch "p" (promotion_patch 31 true 30 (Some (24 * 60 * 60 * 1000)%Z))]) /\
  Double.mul 45 (Double.sub 1 (Double.div 30 100)) = 8866461766385663 # 281474976710656 /\
  promotion_price 45 30 = 32.
Proof. vm_compute. repeat split. Qed.

(** The doubles of the model are those of the kernel on the formulas of the
    promotion service: the price under a promotion and the price after it,
    for the prices from 1 to 150 and the whole discounts from 0 to 50. *)
Example doubles_of_the_kernel :
  forallb
    (fun p =>
       forallb
         (fun d =>
            let factor :=
              PrimFloat.sub (Kernel.of_Z 1) (PrimFloat.div (Kernel.of_Z d) (Kernel.of_Z 100)) in
            same_double
              (Double.mul (inject_Z p) (Double.sub 1 (Double.div (inject_Z d) 100)))
              (PrimFloat.mul (Kernel.of_Z p) factor)
            && same_double
                 (Double.div (inject_Z p) (Double.sub 1 (Double.div (inject_Z d) 100)))
                 (PrimFloat.div (Kernel.of_Z p) factor))
         (map Z.of_nat (seq 0 51)))
    (map Z.of_nat (seq 1 150)) = true.
Proof. vm_compute. reflexivity. Qed.

(** Where the model computes in exact arithmetic, the doubles of the code
    give the same prices and take the same decisions: the price under the
    promotion of the weekly run and the price after it, the price of a
    bundle, the rounded prices of the hourly policy and its two tests of a
    change of more than one unit, for the whole prices from 0 to 1000. *)
Example exact_prices_are_the_doubles :
  forallb
    (fun p =>
       let x := inject_Z p in
       Qeq_bool (promotionPrice x 15) (promotion_price x 15)
       && Qeq_bool (normalPrice x 15) (normal_price x 15)
       && Qeq_bool (JS.Math_round (Double.mul x (Double.sub 1 (Double.div bundleDiscount 100))))
                   (JS.Math_round (x * (1 - bundleDiscount / 100)))
       && Qeq_bool (JS.Math_round (Double.mul x (Double.RN maxPriceAdjustment)))
                   (JS.Math_round (x * maxPriceAdjustment))
       && Qeq_bool (JS.Math_round (Double.mul x (Double.RN minPriceAdjustment)))
                   (JS.Math_round (x * minPriceAdjustment))
       && Bool.eqb (JS.gt (Double.mul x (Double.RN maxPriceAdjustment)) (Double.add x 1))
                   (JS.gt (x * maxPriceAdjustment) (x + 1))
       && Bool.eqb (JS.lt (Double.mul x (Double.RN minPriceAdjustment)) (Double.sub x 1))
                   (JS.lt (x * minPriceAdjustment) (x - 1)))
    (map Z.of_nat (seq 0 1001)) = true.
Proof. vm_compute. reflexivity. Qed.

(** ** The price the API client writes *)

Lemma written_price_bounds (env : Env) (p : Q) :
  or_default (MIN_PROMPT_PRICE env) 10 <= or_default (MAX_PROMPT_PRICE env) 150 ->
  or_default (MIN_PROMPT_PRICE env) 10 <= written_price env p
  <= or_default (MAX_PROMPT_PRICE env) 150.
Proof.
  intro H. unfold written_price.
  set (lo := or_default (MIN_PROMPT_PRICE env) 10) in *.
  set (hi := or_default (MAX_PROMPT_PRICE env) 150) in *.
  destruct (Math_min_cases (JS.Math_max (JS.Math_round p) lo) hi) as [[L E] | [L E]];
    pose proof (Math_max_ge_r (JS.Math_round p) lo); rewrite E; split; lra.
Qed.

Lemma written_price_integer (env : Env) (p : Q) :
  is_integer (or_default (MIN_PROMPT_PRICE env) 10) ->
  is_integer (or_default (MAX_PROMPT_PRICE env) 150) ->
  is_integer (written_price env p).
Proof.
  intros [zlo Hlo] [zhi Hhi]. unfold written_price.
  set (lo := or_default (MIN_PROMPT_PRICE env) 10) in *.
  set (hi := or_default (MAX_PROMPT_PRICE env) 150) in *.
  destruct (Math_min_cases (JS.Math_max (JS.Math_round p) lo) hi) as [[_ E] | [_ E]].
  - destruct (Math_max_cases (JS.Math_round p) lo) as [[_ E'] | [_ E']].
    + exists (Qfloor (p + (1 # 2))). rewrite E, E'. reflexivity.
    + exists zlo. rewrite E, E'. exact Hlo.
  - exists zhi. rewrite E. exact Hhi.
Qed.

Lemma updatePromptPrice_sent (env : Env) (k : string) (p : Q) (w w' : World)
    (r : Result Prompt) :
  updatePromptPrice env k p w = (r, w') ->
  requests w' = requests w ++ [Patch k (price_patch (written_price env p))].
Proof.
  unfold updatePromptPrice, try_catch, client_patch, bind, remote, throw.
  simpl. destruct (faults w) as [| [] f]; simpl.
  - destruct (find_prompt k (catalog w)); intro H; inversion H; reflexivity.
  - intro H; inversion H; reflexivity.
  - destruct (find_prompt k (catalog w)); intro H; inversion H; reflexivity.
Qed.

(** C10, as the code has it.  For every price [p], [updatePromptPrice] sends
    one request whose price is [min(max(round(p), minPrice), maxPrice)].  That
    price lies between the two configured bounds when the minimum is not above
    the maximum, and it is an integer when the two bounds are integers, as the
    default bounds 10 and 150 are.  The price written may differ from the one
    the engine records: the hourly run records 22.05 for a listing priced 21
    and the request carries 22. *)
Theorem updatePromptPrice_writes_clamped (env : Env) :
  (forall promptId p w r w',
      updatePromptPrice env promptId p w = (r, w') ->
      requests w' =
        requests w ++
        [Patch promptId
           (price_patch
              (JS.Math_min (JS.Math_max (JS.Math_round p)
                              (or_default (MIN_PROMPT_PRICE env) 10))
                 (or_default (MAX_PROMPT_PRICE env) 150)))]) /\
  (forall p,
      or_default (MIN_PROMPT_PRICE env) 10 <= or_default (MAX_PROMPT_PRICE env) 150 ->
      or_default (MIN_PROMPT_PRICE env) 10 <= written_price env p
      <= or_default (MAX_PROMPT_PRICE env) 150) /\
  (forall p,
      is_integer (or_default (MIN_PROMPT_PRICE env) 10) ->
      is_integer (or_default (MAX_PROMPT_PRICE env) 150) ->
      is_integer (written_price env p)) /\
  (forall p, is_integer (written_price default_env p) /\
             10 <= written_price default_env p <= 150) /\
  (let cheap := listing "c" 21 (15 # 100) 25 0 false in
   let run := hourlyOptimization default_env [cheap] (world [cheap] []) in
   map newPrice (returned run) = [2205 # 100] /\
   requests (snd run) = [Patch "c" (price_patch 22)]).
Proof.
  split; [| split; [| split; [| split]]].
  - intros promptId p w r w' H. exact (updatePromptPrice_sent env _ _ _ _ _ H).
  - intros p H. apply written_price_bounds. exact H.
  - intros p Hlo Hhi. apply written_price_integer; assumption.
  - intro p. split.
    + apply written_price_integer; [exists 10%Z | exists 150%Z]; reflexivity.
    + apply (written_price_bounds default_env p). vm_compute. discriminate.
  - vm_compute. split; reflexivity.
Qed.

Lemma updatePromptPrice_writes_clamped_witness :
  10 <= written_price default_env (2205 # 100) <= 150.
Proof.
  destruct (updatePromptPrice_writes_clamped default_env) as (_ & H & _).
  apply H. vm_compute. discriminate.
Defined.

(** C10 as stated fails.  With a minimum price of 12.5 in the environment,
    the price written for [p = 3] is 12.5, which is not an integer.  With a
    minimum price of 200, above the default maximum of 150, the price written
    for [p = 100] is 150, which is below the minimum. *)
Lemma written_price_outside_claim :
  (MIN_PROMPT_PRICE fractional_env = Some (25 # 2) /\
   written_price fractional_env 3 == 25 # 2 /\
   ~ is_integer (written_price fractional_env 3)) /\
  (MIN_PROMPT_PRICE inverted_env = Some 200 /\
   written_price inverted_env 100 == 150 /\
   ~ (or_default (MIN_PROMPT_PRICE inverted_env) 10 <= written_price inverted_env 100)).
Proof.
  split.
  - split; [reflexivity |]. split; [vm_compute; reflexivity |].
    intros [z Hz].
    assert (E : written_price fractional_env 3 == 25 # 2) by (vm_compute; reflexivity).
    rewrite E in Hz. unfold Qeq in Hz. simpl in Hz. lia.
  - split; [reflexivity |]. split; [vm_compute; reflexivity |].
    vm_compute. intro H. apply H. reflexivity.
Qed.

(** ** The stable sort *)

Section StableSort.

Context {A : Type}.
Variable before : A -> A -> bool.
Variable measure : A -> Q.
Hypothesis before_measure : forall a b, before a b = JS.lt (measure a - measure b) 0.

Lemma insert_stable_perm (x : A) (l : list A) :
  Permutation (x :: l) (JS.insert_stable before x l).
Proof.
  induction l as [| y l IH]; simpl; [apply Permutation_refl |].
  destruct (before y x).
  - apply perm_trans with (y :: x :: l); [apply perm_swap |].
    apply perm_skip. exact IH.
  - apply Permutation_refl.
Qed.

Lemma sort_perm (l : list A) : Permutation l (JS.sort before l).
Proof.
  induction l as [| x l IH]; simpl; [apply perm_nil |].
  apply perm_trans with (x :: JS.sort before l); [apply perm_skip; exact IH |].
  apply insert_stable_perm.
Qed.

Lemma insert_stable_sorted (x : A) (l : list A) :
  StronglySorted (fun a b => measure a <= measure b) l ->
  StronglySorted (fun a b => measure a <= measure b) (JS.insert_stable before x l).
Proof.
  induction 1 as [| y l Hl IH Hy]; simpl.
  - constructor; constructor.
  - destruct (before y x) eqn:E; rewrite before_measure in E.
    + apply lt_true in E. constructor; [exact IH |].
      apply (Permutation_Forall (insert_stable_perm x l)).
      constructor; [lra | exact Hy].
    + apply lt_false in E. constructor; [constructor; assumption |].
      constructor; [lra |].
      eapply Forall_impl; [| exact Hy]. simpl. intros a Ha. lra.
Qed.

Lemma sort_sorted (l : list A) :
  StronglySorted (fun a b => measure a <= measure b) (JS.sort before l).
Proof.
  induction l as [| x l IH]; simpl; [constructor |].
  apply insert_stable_sorted. exact IH.
Qed.

End StableSort.

Lemma In_firstn {A : Type} (n : nat) (l : list A) (a : A) : In a (firstn n l) -> In a l.
Proof.
  intro H. rewrite <- (firstn_skipn n l). apply in_or_app. left. exact H.
Qed.

Lemma StronglySorted_app {A : Type} (R : A -> A -> Prop) (l1 l2 : list A) :
  StronglySorted R (l1 ++ l2) ->
  StronglySorted R l1 /\ forall a b, In a l1 -> In b l2 -> R a b.
Proof.
  induction l1 as [| x l1 IH]; simpl; intro H.
  - split; [constructor | intros a b []].
  - inversion H as [| ? ? Hs Hx]; subst. destruct (IH Hs) as [IH1 IH2]. split.
    + constructor; [exact IH1 |].
      rewrite Forall_forall in *. intros a Ha. apply Hx. apply in_or_app. left. exact Ha.
    + intros a b [<- | Ha] Hb.
      * rewrite Forall_forall in Hx. apply Hx. apply in_or_app. right. exact Hb.
      * apply IH2; assumption.
Qed.

(** The first elements of a sorted list are below the ones left out, and
    something is left out only when the count is reached. *)
Lemma firstn_sorted_below {A : Type} (R : A -> A -> Prop) (n : nat) (l : list A) :
  StronglySorted R l ->
  StronglySorted R (firstn n l) /\
  forall b, In b (skipn n l) ->
            List.length (firstn n l) = n /\ forall a, In a (firstn n l) -> R a b.
Proof.
  intro H. rewrite <- (firstn_skipn n l) in H.
  apply StronglySorted_app in H. destruct H as [H1 H2].
  split; [exact H1 |]. intros b Hskip.
  split.
  - rewrite length_firstn.
    assert (0 < List.length (skipn n l))%nat
      by (destruct (skipn n l); [destruct Hskip | simpl; lia]).
    rewrite length_skipn in *. lia.
  - intros a Ha. apply H2; assumption.
Qed.

Lemma NoDup_map_filter {A B : Type} (f : A -> B) (q : A -> bool) (l : list A) :
  NoDup (map f l) -> NoDup (map f (filter q l)).
Proof.
  induction l as [| x l IH]; simpl; intro H; [constructor |].
  inversion H as [| ? ? Hx Hl]; subst.
  destruct (q x); simpl; [| apply IH; exact Hl].
  constructor; [| apply IH; exact Hl].
  intro Hin. apply Hx. apply in_map_iff in Hin. destruct Hin as (y & Hy & Hy').
  apply in_map_iff. exists y. split; [exact Hy |].
  apply filter_In in Hy'. tauto.
Qed.

Lemma NoDup_firstn {A : Type} (n : nat) (l : list A) : NoDup l -> NoDup (firstn n l).
Proof.
  intro H. rewrite <- (firstn_skipn n l) in H. apply NoDup_app_remove_r in H. exact H.
Qed.

(** ** The buckets of the low-activity search *)

Section Buckets.

Variable utcOffset : Z.

Lemma same_key_true (d : string) (h : Z) (e : Entry) :
  same_key d h e = true <-> key e = (d, h).
Proof.
  unfold same_key, key. rewrite andb_true_iff, String.eqb_eq, Z.eqb_eq.
  split; [intros [-> ->]; reflexivity | intro H; inversion H; split; reflexivity].
Qed.

Lemma in_bucket_true (d : string) (h : Z) (dataPoint : DataPoint) :
  in_bucket utcOffset d h dataPoint = true <->
  (dayName utcOffset (dp_timestamp dataPoint), getHours utcOffset (dp_timestamp dataPoint))
  = (d, h).
Proof.
  unfold in_bucket. rewrite andb_true_iff, String.eqb_eq, Z.eqb_eq.
  split; [intros [-> ->]; reflexivity | intro H; inversion H; split; reflexivity].
Qed.

Lemma number_of_snoc (l : list DataPoint) (dataPoint : DataPoint) :
  number_of (l ++ [dataPoint]) == number_of l + 1.
Proof.
  unfold number_of. rewrite length_app. simpl List.length.
  rewrite Nat2Z.inj_add, inject_Z_plus. reflexivity.
Qed.

Lemma total_visits_snoc (l : list DataPoint) (dataPoint : DataPoint) :
  total_visits (l ++ [dataPoint]) == total_visits l + visits_or_0 dataPoint.
Proof.
  induction l as [| x l IH].
  - reflexivity.
  - change (total_visits (l ++ [dataPoint]) + visits_or_0 x
            == total_visits l + visits_or_0 x + visits_or_0 dataPoint).
    rewrite IH. ring.
Qed.

Lemma points_of_snoc (d : string) (h : Z) (done : list DataPoint) (dataPoint : DataPoint) :
  points_of utcOffset d h (done ++ [dataPoint]) =
  points_of utcOffset d h done ++ (if in_bucket utcOffset d h dataPoint then [dataPoint] else []).
Proof.
  unfold points_of. rewrite filter_app. reflexivity.
Qed.

(** The two outcomes of a round of the loop: the entry of the key is
    increased where it stands, or a new entry is added at the end. *)
Lemma record_visit_cases (d : string) (h : Z) (v : Q) (acc : list Entry) :
  (exists pre e post,
      acc = pre ++ e :: post /\ key e = (d, h) /\
      record_visit d h v acc =
        pre ++ {| day := day e; hour := hour e; count := count e + 1;
                  visits := visits e + v; avgVisits := avgVisits e |} :: post) \/
  ((forall x, In x acc -> key x <> (d, h)) /\
   record_visit d h v acc =
     acc ++ [{| day := d; hour := h; count := 0 + 1; visits := 0 + v; avgVisits := None |}]).
Proof.
  induction acc as [| e acc IH]; simpl.
  - right. split; [intros x [] | reflexivity].
  - destruct (same_key d h e) eqn:E.
    + left. exists [], e, acc. apply same_key_true in E. repeat split. exact E.
    + assert (Hne : key e <> (d, h)).
      { intro K. apply same_key_true in K. congruence. }
      destruct IH as [(pre & e0 & post & -> & K & ->) | [Hall ->]].
      * left. exists (e :: pre), e0, post. repeat split. exact K.
      * right. split; [| reflexivity].
        intros x [<- | Hx]; [exact Hne | apply Hall; exact Hx].
Qed.

Lemma counts_other (done : list DataPoint) (dataPoint : DataPoint) (e : Entry) :
  key e <> (dayName utcOffset (dp_timestamp dataPoint),
            getHours utcOffset (dp_timestamp dataPoint)) ->
  counts utcOffset done e -> counts utcOffset (done ++ [dataPoint]) e.
Proof.
  intros Hne Hc. unfold counts in *. rewrite points_of_snoc.
  destruct (in_bucket utcOffset (day e) (hour e) dataPoint) eqn:E.
  - apply in_bucket_true in E. exfalso. apply Hne. unfold key. symmetry. exact E.
  - rewrite app_nil_r. exact Hc.
Qed.

Lemma bucketed_step (done : list DataPoint) (acc : list Entry) (dataPoint : DataPoint) :
  bucketed utcOffset done acc ->
  bucketed utcOffset (done ++ [dataPoint])
    (record_visit (dayName utcOffset (dp_timestamp dataPoint))
       (getHours utcOffset (dp_timestamp dataPoint)) (visits_or_0 dataPoint) acc).
Proof.
  intros (Hnd & Hc & Hall).
  set (d := dayName utcOffset (dp_timestamp dataPoint)).
  set (h := getHours utcOffset (dp_timestamp dataPoint)).
  assert (Hin : in_bucket utcOffset d h dataPoint = true)
    by (apply in_bucket_true; reflexivity).
  destruct (record_visit_cases d h (visits_or_0 dataPoint) acc)
    as [(pre & e & post & -> & K & ->) | [Hnone ->]].
  - (* the entry exists *)
    set (e' := {| day := day e; hour := hour e; count := count e + 1;
                  visits := visits e + visits_or_0 dataPoint; avgVisits := avgVisits e |}).
    assert (Hkeys : map key (pre ++ e' :: post) = map key (pre ++ e :: post)).
    { rewrite !map_app. reflexivity. }
    split; [rewrite Hkeys; exact Hnd |]. split.
    + intros x Hx. apply in_app_or in Hx. destruct Hx as [Hx | [<- | Hx]].
      * assert (Hx' : In x (pre ++ e :: post)) by (apply in_or_app; left; exact Hx).
        destruct (Hc x Hx') as [Hcx Hax]. split; [| exact Hax].
        apply counts_other; [| exact Hcx]. fold d h. rewrite <- K. intro Heq.
        rewrite map_app in Hnd. simpl in Hnd. apply NoDup_remove_2 in Hnd.
        apply Hnd. apply in_or_app. left. rewrite <- Heq. apply in_map. exact Hx.
      * destruct (Hc e) as [(Hne & Hcount & Hvisits) Hae];
          [apply in_or_app; right; left; reflexivity |].
        inversion K as [[Kd Kh]]. split; [| exact Hae].
        unfold counts. simpl. rewrite Kd, Kh in *.
        rewrite points_of_snoc, Hin. split; [| split].
        -- intro Hnil. apply app_eq_nil in Hnil. destruct Hnil. discriminate.
        -- rewrite number_of_snoc, Hcount. reflexivity.
        -- rewrite total_visits_snoc, Hvisits. reflexivity.
      * assert (Hx' : In x (pre ++ e :: post)) by (apply in_or_app; right; right; exact Hx).
        destruct (Hc x Hx') as [Hcx Hax]. split; [| exact Hax].
        apply counts_other; [| exact Hcx]. fold d h. rewrite <- K. intro Heq.
        rewrite map_app in Hnd. simpl in Hnd. apply NoDup_remove_2 in Hnd.
        apply Hnd. apply in_or_app. right. rewrite <- Heq. apply in_map. exact Hx.
    + intros p Hp. apply in_app_or in Hp. destruct Hp as [Hp | [<- | []]].
      * destruct (Hall p Hp) as (x & Hx & Kx).
        apply in_app_or in Hx. destruct Hx as [Hx | [<- | Hx]].
        -- exists x. split; [apply in_or_app; left; exact Hx | exact Kx].
        -- exists e'. split; [apply in_or_app; right; left; reflexivity | exact Kx].
        -- exists x. split; [apply in_or_app; right; right; exact Hx | exact Kx].
      * exists e'. split; [apply in_or_app; right; left; reflexivity | exact K].
  - (* a new entry *)
    set (e' := {| day := d; hour := h; count := 0 + 1;
                  visits := 0 + visits_or_0 dataPoint; avgVisits := None |}).
    assert (Hempty : points_of utcOffset d h done = []).
    { destruct (points_of utcOffset d h done) as [| p ps] eqn:E; [reflexivity |].
      assert (Hp : In p (points_of utcOffset d h done)) by (rewrite E; left; reflexivity).
      unfold points_of in Hp. apply filter_In in Hp. destruct Hp as [Hp Hb].
      apply in_bucket_true in Hb. destruct (Hall p Hp) as (x & Hx & Kx).
      exfalso. apply (Hnone x Hx). rewrite Kx. exact Hb. }
    split; [| split].
    + rewrite map_app. simpl. apply NoDup_app; [exact Hnd | repeat constructor; intros [] |].
      intros k Hk [<- | []]. apply in_map_iff in Hk. destruct Hk as (x & Kx & Hx).
      exact (Hnone x Hx Kx).
    + intros x Hx. apply in_app_or in Hx. destruct Hx as [Hx | [<- | []]].
      * destruct (Hc x Hx) as [Hcx Hax]. split; [| exact Hax].
        apply counts_other; [| exact Hcx]. apply Hnone. exact Hx.
      * split; [| reflexivity]. unfold counts. simpl.
        rewrite points_of_snoc, Hin, Hempty. simpl. repeat split.
        discriminate.
    + intros p Hp. apply in_app_or in Hp. destruct Hp as [Hp | [<- | []]].
      * destruct (Hall p Hp) as (x & Hx & Kx).
        exists x. split; [apply in_or_app; left; exact Hx | exact Kx].
      * exists e'. split; [apply in_or_app; right; left; reflexivity | reflexivity].
Qed.

Lemma bucketed_loop (l done : list DataPoint) (acc : list Entry) :
  bucketed utcOffset done acc ->
  bucketed utcOffset (done ++ l)
    (fold_left
       (fun activityByHourDay dataPoint =>
          record_visit (dayName utcOffset (dp_timestamp dataPoint))
            (getHours utcOffset (dp_timestamp dataPoint)) (visits_or_0 dataPoint)
            activityByHourDay) l acc).
Proof.
  revert done acc. induction l as [| p l IH]; intros done acc H; simpl.
  - rewrite app_nil_r. exact H.
  - replace (done ++ p :: l) with ((done ++ [p]) ++ l)
      by (rewrite <- app_assoc; reflexivity).
    apply IH. apply bucketed_step. exact H.
Qed.

Lemma bucket_bucketed (analytics : list DataPoint) :
  bucketed utcOffset analytics (bucket utcOffset analytics).
Proof.
  apply (bucketed_loop analytics [] []).
  split; [constructor | split; intros x []].
Qed.

End Buckets.

(** ** The low-activity periods *)

Lemma getHours_range (utcOffset t : Z) : (0 <= getHours utcOffset t <= 23)%Z.
Proof.
  unfold getHours. pose proof (Z.mod_pos_bound ((t + utcOffset) / msPerHour) 24). lia.
Qed.

(** C9.  [findLowActivityPeriods] returns at most five entries, in ascending
    order of their average, of distinct day and hour.  Every entry returned
    has an hour from 7 to 23, so none from 0 to 6; its average is the sum of
    the visits of the data points of its day of the week and hour of the day,
    divided by their number.  Every data point whose hour is at least 7 has
    its bucket among the entries returned, unless five entries are returned
    and the average of that bucket is at least each of theirs. *)
Theorem findLowActivityPeriods_lowest (utcOffset : Z) (analytics : list DataPoint) :
  let periods := findLowActivityPeriods utcOffset analytics in
  (List.length periods <= 5)%nat /\
  StronglySorted (fun a b => avg a <= avg b) periods /\
  NoDup (map key periods) /\
  (forall e, In e periods ->
     let points := points_of utcOffset (day e) (hour e) analytics in
     points <> [] /\ (7 <= hour e <= 23)%Z /\
     avgVisits e = Some (visits e / count e) /\
     avg e == total_visits points / number_of points) /\
  (forall dataPoint, In dataPoint analytics ->
     let d := dayName utcOffset (dp_timestamp dataPoint) in
     let h := getHours utcOffset (dp_timestamp dataPoint) in
     (7 <= h)%Z ->
     (exists e, In e periods /\ day e = d /\ hour e = h) \/
     (List.length periods = 5%nat /\
      forall e, In e periods ->
        avg e <= total_visits (points_of utcOffset d h analytics)
                 / number_of (points_of utcOffset d h analytics))).
Proof.
  intro periods.
  destruct (bucket_bucketed utcOffset analytics) as (Hnd & Hc & Hall).
  set (B := bucket utcOffset analytics) in *.
  set (A := map set_average B).
  set (F := filter (fun entry => (7 <=? hour entry)%Z && (hour entry <=? 23)%Z) A).
  set (S := JS.sort by_avgVisits F).
  assert (HS : periods = firstn 5 S) by reflexivity.
  assert (Hperm : Permutation F S) by apply sort_perm.
  assert (Hsorted : StronglySorted (fun a b => avg a <= avg b) S)
    by (apply (sort_sorted by_avgVisits avg); reflexivity).
  assert (HA : forall e, In e A ->
             points_of utcOffset (day e) (hour e) analytics <> [] /\
             avgVisits e = Some (visits e / count e) /\
             avg e == total_visits (points_of utcOffset (day e) (hour e) analytics)
                      / number_of (points_of utcOffset (day e) (hour e) analytics)).
  { intros e He. apply in_map_iff in He. destruct He as (e0 & <- & He0).
    destruct (Hc e0 He0) as [(Hne & Hcount & Hvisits) _].
    simpl. split; [exact Hne |]. split; [reflexivity |].
    unfold avg. simpl. rewrite Hcount, Hvisits. reflexivity. }
  assert (HF : forall e, In e S -> In e A /\ (7 <= hour e <= 23)%Z).
  { intros e He. apply (Permutation_in _ (Permutation_sym Hperm)) in He.
    apply filter_In in He. destruct He as [He Hh]. split; [exact He |].
    apply andb_true_iff in Hh. destruct Hh as [H7 H23].
    apply Z.leb_le in H7. apply Z.leb_le in H23. lia. }
  destruct (firstn_sorted_below (fun a b => avg a <= avg b) 5 S Hsorted) as [Hfs Hbelow].
  split; [rewrite HS; apply firstn_le_length |].
  split; [rewrite HS; exact Hfs |].
  split.
  { rewrite HS, <- firstn_map. apply NoDup_firstn.
    apply (Permutation_NoDup (Permutation_map key Hperm)).
    apply NoDup_map_filter.
    unfold A. rewrite map_map. exact Hnd. }
  split.
  - intros e He. rewrite HS in He. apply In_firstn in He.
    destruct (HF e He) as [HeA Hh]. destruct (HA e HeA) as (Hne & Havg & Hval).
    repeat split; try assumption; lia.
  - intros dataPoint Hdp d h H7.
    destruct (Hall dataPoint Hdp) as (e0 & He0 & K). inversion K as [[Kd Kh]].
    set (e := set_average e0).
    assert (HeA : In e A) by (apply in_map; exact He0).
    assert (HeS : In e S).
    { apply (Permutation_in _ Hperm). apply filter_In. split; [exact HeA |].
      simpl. rewrite Kh. pose proof (getHours_range utcOffset (dp_timestamp dataPoint)).
      apply andb_true_iff. split; apply Z.leb_le; fold h; lia. }
    rewrite <- (firstn_skipn 5 S) in HeS. apply in_app_or in HeS.
    destruct HeS as [Hin | Hout].
    + left. exists e. split; [rewrite HS; exact Hin |]. split; assumption.
    + right. destruct (Hbelow e Hout) as [Hlen Hle].
      split; [rewrite HS; exact Hlen |].
      intros a Ha. rewrite HS in Ha. specialize (Hle a Ha).
      destruct (HA e HeA) as (_ & _ & Hval). simpl in Hval. rewrite Kd, Kh in Hval.
      fold d h in Hval. rewrite <- Hval. exact Hle.
Qed.

(** The scenario of the specification: Monday 09:00 with an average of 10
    comes before Monday 10:00 with an average of 35, and the point at 03:00 is
    left out. *)
Example findLowActivityPeriods_scenario :
  map (fun e => (day e, hour e, Qred (avg e))) (findLowActivityPeriods 0 four_points) =
  [("Monday"%string, 9%Z, 10); ("Monday"%string, 10%Z, 35)].
Proof. vm_compute. reflexivity. Qed.

Lemma findLowActivityPeriods_lowest_witness :
  let e := hd {| day := ""; hour := 0; count := 0; visits := 0; avgVisits := None |}
             (findLowActivityPeriods 0 four_points) in
  (7 <= hour e <= 23)%Z /\
  avg e == total_visits (points_of 0 (day e) (hour e) four_points)
           / number_of (points_of 0 (day e) (hour e) four_points).
Proof.
  intro e.
  destruct (findLowActivityPeriods_lowest 0 four_points) as (_ & _ & _ & H & _).
  destruct (H e) as (_ & Hh & _ & Hv).
  - vm_compute. left. reflexivity.
  - split; [exact Hh | exact Hv].
Defined.

(** * Further properties *)

(** ** The hourly run and the pricing policy *)






(** In that run the first request succeeds and the second fails: both were
    sent, the first price is changed in the catalog, and the list returned is
    empty. *)
Example hourly_abort_keeps_first_change :
  let up := listing "a" 100 (15 # 100) 25 0 false in
  let down := listing "b" 100 (2 # 100) 35 0 false in
  let run := hourlyOptimization default_env [up; down] (world [up; down] [false; true]) in
  fst run = Ok [] /\
  requests (snd run) = [Patch "a" (price_patch 105); Patch "b" (price_patch 95)] /\
  map (fun p => Qred (price p)) (catalog (snd run)) = [105; 100].
Proof. vm_compute. repeat split. Qed.









(** ** The long-term price *)

Lemma getPromptPerformance_requests (k : string) (w w' : World) (r : Result Performance) :
  getPromptPerformance k w = (r, w') -> requests w' = requests w.
Proof.
  unfold getPromptPerformance, try_catch, bind, remote, throw.
  destruct (faults w) as [| [] f]; simpl.
  - destruct (lookup k (performances w)); intro H; inversion H; reflexivity.
  - intro H; inversion H; reflexivity.
  - destruct (lookup k (performances w)); intro H; inversion H; reflexivity.
Qed.

Lemma getLongTermTrends_requests (k : string) (w w' : World) (r : Result Q) :
  getLongTermTrends k w = (r, w') -> requests w' = requests w.
Proof.
  unfold getLongTermTrends, try_catch, bind.
  destruct (getPromptPerformance k w) as [[perf | e] w1] eqn:E;
    apply getPromptPerformance_requests in E.
  - unfold Math_random. destruct (random w1); simpl; intro H; inversion H; subst; exact E.
  - simpl. intro H. inversion H; subst. exact E.
Qed.

Lemma getPromptPerformance_random (k : string) (w w' : World) (r : Result Performance) :
  getPromptPerformance k w = (r, w') -> random w' = random w.
Proof.
  unfold getPromptPerformance, try_catch, bind, remote, throw.
  destruct (faults w) as [| [] f]; simpl.
  - destruct (lookup k (performances w)); intro H; inversion H; reflexivity.
  - intro H; inversion H; reflexivity.
  - destruct (lookup k (performances w)); intro H; inversion H; reflexivity.
Qed.

(** The elasticity is zero, or the one of the next draw. *)
Lemma getLongTermTrends_elasticity (k : string) (w w' : World) (el : Q) :
  getLongTermTrends k w = (Ok el, w') ->
  el = 0 \/ el = elasticity_of (hd 0 (random w)).
Proof.
  unfold getLongTermTrends, try_catch, bind.
  destruct (getPromptPerformance k w) as [[perf | e] w1] eqn:E.
  - apply getPromptPerformance_random in E. rewrite <- E.
    unfold Math_random, ret, elasticity_of.
    destruct (random w1); cbn [hd]; intro H; apply Ok_inj in H; destruct H as [<- _];
      right; reflexivity.
  - unfold ret. intro H. apply Ok_inj in H. destruct H as [<- _]. left. reflexivity.
Qed.

(** X3.  A long-term price action is an increase to [min(price * 1.1,
    maxPrice)] decided on an elasticity above 0.1, or a decrease to
    [max(price * 0.9, minPrice)] decided on an elasticity below -0.1, the
    elasticity being [Math.random() * 0.4 - 0.2] for the next draw and all the
    arithmetic that of the doubles; in both cases exactly one request was
    sent, for that price rounded and clamped by the client.  When the
    performance of the listing cannot be fetched, the elasticity falls back
    to zero: no action is returned and no request is sent. *)
Theorem long_term_price_change (env : Env) (prompt : Prompt) (w : World) :
  (forall a w',
      optimizeLongTermPrice env prompt w = (Ok (Some a), w') ->
      exists elasticity t newPrice,
        elasticity = elasticity_of (hd 0 (random w)) /\
        requests w' =
          requests w ++ [Patch (id prompt) (price_patch (written_price env newPrice))] /\
        ((a = optimize_long_term_price_up (id prompt) (price prompt) newPrice elasticity t /\
          Double.RN (1 # 10) < elasticity /\
          newPrice = JS.Math_min (Double.mul (price prompt) (Double.RN (11 # 10)))
                       (maxPromptPrice env) /\
          newPrice <= maxPromptPrice env) \/
         (a = optimize_long_term_price_down (id prompt) (price prompt) newPrice elasticity t /\
          elasticity < - Double.RN (1 # 10) /\
          newPrice = JS.Math_max (Double.mul (price prompt) (Double.RN (9 # 10)))
                       (minPromptPrice env) /\
          minPromptPrice env <= newPrice))) /\
  (forall e w1,
      getPromptPerformance (id prompt) w = (Throw e, w1) ->
      optimizeLongTermPrice env prompt w = (Ok None, w1) /\ requests w1 = requests w).
Proof.
  split.
  - intros a w' H. unfold optimizeLongTermPrice in H. apply try_catch_Ok in H.
    destruct H as [H | (e & w1 & _ & H)]; [| inversion H].
    apply bind_Ok in H. destruct H as (el & w1 & Hel & H).
    pose proof (getLongTermTrends_elasticity _ _ _ _ Hel) as Hdraw.
    apply getLongTermTrends_requests in Hel.
    destruct (negb (JS.truthy el)) eqn:Etruthy; [inversion H |].
    assert (Hel' : el = elasticity_of (hd 0 (random w))).
    { destruct Hdraw as [-> | Hd]; [discriminate | exact Hd]. }
    destruct (JS.gt el (Double.RN (1 # 10))) eqn:Eup.
    + apply bind_Ok in H. destruct H as (u & w2 & Hu & H).
      apply bind_Ok in H. destruct H as (t & w3 & Ht & H).
      inversion Ht; subst w3 t. inversion H; subst a w'.
      apply updatePromptPrice_sent in Hu. apply gt_true in Eup.
      exists el. eexists. eexists. split; [exact Hel' |].
      split; [rewrite Hu, Hel; reflexivity |].
      left. repeat split; [exact Eup | apply Math_min_le_r].
    + destruct (JS.lt el (- Double.RN (1 # 10))) eqn:Edown; [| inversion H].
      apply bind_Ok in H. destruct H as (u & w2 & Hu & H).
      apply bind_Ok in H. destruct H as (t & w3 & Ht & H).
      inversion Ht; subst w3 t. inversion H; subst a w'.
      apply updatePromptPrice_sent in Hu. apply lt_true in Edown.
      exists el. eexists. eexists. split; [exact Hel' |].
      split; [rewrite Hu, Hel; reflexivity |].
      right. repeat split; [exact Edown | apply Math_max_ge_r].
  - intros e w1 H. split; [| exact (getPromptPerformance_requests _ _ _ _ H)].
    unfold optimizeLongTermPrice, try_catch, bind, getLongTermTrends, try_catch, bind.
    rewrite H. reflexivity.
Qed.

Lemma long_term_price_change_witness :
  let p := listing "p" 100 (5 # 100) 0 400 false in
  (exists a w',
     optimizeLongTermPrice default_env p (drawing p (3 # 4)) = (Ok (Some a), w') /\
     exists elasticity t newPrice,
       elasticity = elasticity_of (hd 0 (random (drawing p (3 # 4)))) /\
       requests w' =
         requests (drawing p (3 # 4))
         ++ [Patch (id p) (price_patch (written_price default_env newPrice))] /\
       ((a = optimize_long_term_price_up (id p) (price p) newPrice elasticity t /\
         Double.RN (1 # 10) < elasticity /\
         newPrice = JS.Math_min (Double.mul (price p) (Double.RN (11 # 10)))
                      (maxPromptPrice default_env) /\
         newPrice <= maxPromptPrice default_env) \/
        (a = optimize_long_term_price_down (id p) (price p) newPrice elasticity t /\
         elasticity < - Double.RN (1 # 10) /\
         newPrice = JS.Math_max (Double.mul (price p) (Double.RN (9 # 10)))
                      (minPromptPrice default_env) /\
         minPromptPrice default_env <= newPrice))) /\
  (let w := world [p] [true] in
   optimizeLongTermPrice default_env p w = (Ok None, pop_fault w) /\
   requests (pop_fault w) = requests w).
Proof.
  intro p. split.
  - eexists. eexists. split; [vm_compute; reflexivity |].
    apply (proj1 (long_term_price_change default_env p (drawing p (3 # 4)))).
    vm_compute. reflexivity.
  - intro w.
    apply (proj2 (long_term_price_change default_env p w) "Network Error"%string (pop_fault w)).
    reflexivity.
Defined.

(** With a draw of 0.75 the elasticity of the doubles is 0.10000000000000003,
    above the double 0.1, where exact arithmetic would give one tenth and no
    action: the price of 100 goes to 110.00000000000001, written as 110.
    With a draw of 0.125 the elasticity is -0.15 and the price goes to 90;
    with a draw of 0.5 it is zero and nothing is sent.  The doubles of the
    kernel give the same elasticity and the same new price. *)
Example long_term_price_examples :
  let p := listing "p" 100 (5 # 100) 0 400 false in
  requests (snd (optimizeLongTermPrice default_env p (drawing p (3 # 4))))
    = [Patch "p" (price_patch 110)] /\
  requests (snd (optimizeLongTermPrice default_env p (drawing p (1 # 8))))
    = [Patch "p" (price_patch 90)] /\
  requests (snd (optimizeLongTermPrice default_env p (drawing p (1 # 2)))) = [] /\
  elasticity_of (3 # 4) = 1801439850948199 # 18014398509481984 /\
  Double.RN (1 # 10) = 3602879701896397 # 36028797018963968 /\
  (3 # 4) * (4 # 10) - (2 # 10) == 1 # 10 /\
  Double.mul 100 (Double.RN (11 # 10)) = 7740561859543041 # 70368744177664 /\
  same_double (elasticity_of (3 # 4))
    (PrimFloat.sub
       (PrimFloat.mul (PrimFloat.div (Kernel.of_Z 3) (Kernel.of_Z 4))
          (PrimFloat.div (Kernel.of_Z 4) (Kernel.of_Z 10)))
       (PrimFloat.div (Kernel.of_Z 2) (Kernel.of_Z 10))) = true /\
  same_double (Double.mul 100 (Double.RN (11 # 10)))
    (PrimFloat.mul (Kernel.of_Z 100) (PrimFloat.div (Kernel.of_Z 11) (Kernel.of_Z 10)))
  = true.
Proof. vm_compute. repeat split. Qed.

(** ** Starting an experiment *)

Lemma retrievePromptVariations_requests (k : string) (w w' : World)
    (r : Result (option Variations)) :
  retrievePromptVariations k w = (r, w') ->
  requests w' = requests w /\ catalog w' = catalog w.
Proof.
  unfold retrievePromptVariations, bind, remote.
  destruct (faults w) as [| [] f]; simpl.
  - destruct (lookup k (variationStorage w)); intro H; inversion H; split; reflexivity.
  - intro H; inversion H; split; reflexivity.
  - destruct (lookup k (variationStorage w)); intro H; inversion H; split; reflexivity.
Qed.

(** X4.  The listing has at least two stored titles, its descriptions are
    stored and not all its variants are tested; the two remote calls succeed
    and the catalog has the listing.  Then [startABTest] gives the listing the
    title and the description of the variant of index [tested_count] (0 when
    the count is absent) and sets its experiment flag, registers the end of
    the test three days later, and returns one [start_ab_test] action.  The
    stored listing being flagged, the hourly loop leaves it alone and the
    daily run does not select it for a new experiment. *)
Theorem startABTest_starts_next_variant (prompt stored : Prompt) (v : Variations)
    (ts ds : list string) (w : World) :
  lookup (id prompt) (variationStorage w) = Some (Some v) ->
  titles v = Some ts -> descriptions v = Some ds -> (2 <= List.length ts)%nat ->
  (forall n, tested_count v = Some n -> (n < Z.of_nat (List.length ts))%Z) ->
  find_prompt (id prompt) (catalog w) = Some stored ->
  succeeds 0 w -> succeeds 1 w ->
  exists w' stored',
    startABTest prompt w =
      (Ok (Some (start_ab_test (id prompt) (from_option (tested_count v) 0%Z)
                   (index ts (from_option (tested_count v) 0%Z))
                   (index ds (from_option (tested_count v) 0%Z)) (now w))), w') /\
    requests w' =
      requests w ++
      [Patch (id prompt)
         (content_patch (index ts (from_option (tested_count v) 0%Z))
            (index ds (from_option (tested_count v) 0%Z)) (Some true));
       Timeout (id prompt) (from_option (tested_count v) 0%Z) (3 * 24 * 60 * 60 * 1000)%Z] /\
    find_prompt (id prompt) (catalog w') = Some stored' /\
    currently_testing stored' = true /\
    (forall env acc w0, hourly_body env stored' acc w0 = (Ok acc, w0)) /\
    promptsForTesting [stored'] = [].
Proof.
  intros Hl Ht Hd Hlen Hn Hf H0 H1.
  set (i := from_option (tested_count v) 0%Z).
  set (data := content_patch (index ts i) (index ds i) (Some true)).
  destruct (pop_fault_fields w) as (Enow & Ecat & _ & _ & Ereq & _).
  destruct (patched_fields (id prompt) stored data (pop_fault w)) as (Pnow & Preq & _ & Pcat).
  set (w2 := patched (id prompt) stored data (pop_fault w)) in *.
  exists (add_request (Timeout (id prompt) i (3 * 24 * 60 * 60 * 1000)%Z) w2),
    (applyPatch stored data).
  assert (Hflag : currently_testing (applyPatch stored data) = true) by reflexivity.
  split; [| split; [| split; [| split; [exact Hflag | split]]]].
  - unfold startABTest, try_catch, bind.
    rewrite (retrievePromptVariations_succeeds _ _ w H0 Hl).
    rewrite Ht, Hd.
    destruct (List.length ts <=? 1)%nat eqn:E1; [apply Nat.leb_le in E1; lia |].
    assert (E2 : match tested_count v with
                 | Some n => (Z.of_nat (List.length ts) <=? n)%Z
                 | None => false
                 end = false).
    { destruct (tested_count v) as [n |]; [| reflexivity].
      apply Z.leb_gt. apply Hn. reflexivity. }
    rewrite E2. fold i. fold data.
    rewrite (updatePrompt_succeeds (id prompt) stored data (pop_fault w));
      [| apply succeeds_pop; exact H1 | rewrite Ecat; exact Hf].
    fold w2. unfold scheduleTestEnd, Date_now. simpl.
    destruct (pop_fault_fields (add_request (Patch (id prompt) data) (pop_fault w)))
      as (E' & _).
    rewrite E'. simpl. rewrite Enow. reflexivity.
  - cbn [requests add_request]. rewrite Preq, Ereq, <- app_assoc. reflexivity.
  - cbn [catalog add_request]. rewrite Pcat, Ecat.
    apply find_prompt_stored with (p := stored); [exact Hf |].
    simpl. apply (find_prompt_id _ _ _ Hf).
  - intros env acc w0. apply hourly_body_skips. exact Hflag.
  - unfold promptsForTesting. cbn [filter]. rewrite Hflag. simpl negb.
    rewrite andb_false_r. reflexivity.
Qed.

(** A fresh experiment: two variants, none tested. *)
Lemma startABTest_starts_next_variant_witness :
  let p := listing "p" 50 (5 # 100) 0 150 false in
  let v := {| titles := Some ["A"; "B"]%string; descriptions := Some ["a"; "b"]%string;
              tested_count := None; results := None |} in
  let w := world_with [p] [] [("p"%string, Some v)] [] in
  exists w' stored',
    startABTest p w =
      (Ok (Some (start_ab_test "p" 0 (Some "A"%string) (Some "a"%string) 0)), w') /\
    requests w' =
      requests w ++
      [Patch "p" (content_patch (Some "A"%string) (Some "a"%string) (Some true));
       Timeout "p" 0 (3 * 24 * 60 * 60 * 1000)%Z] /\
    find_prompt "p" (catalog w') = Some stored' /\
    currently_testing stored' = true /\
    (forall env acc w0, hourly_body env stored' acc w0 = (Ok acc, w0)) /\
    promptsForTesting [stored'] = [].
Proof.
  intros p v w.
  apply (startABTest_starts_next_variant p p v ["A"; "B"]%string ["a"; "b"]%string w);
    try reflexivity.
  intros n Hn. discriminate.
Defined.

(** X5.  [startABTest] sends nothing and returns no action when the stored
    variants cannot be fetched, are absent, lack titles or descriptions, or
    have fewer than two titles. *)
Theorem startABTest_needs_two_variants (prompt : Prompt) (w w1 : World)
    (r : Result (option Variations)) :
  retrievePromptVariations (id prompt) w = (r, w1) ->
  match r with
  | Throw _ => True
  | Ok None => True
  | Ok (Some v) =>
      titles v = None \/ descriptions v = None \/
      exists ts, titles v = Some ts /\ (List.length ts <= 1)%nat
  end ->
  startABTest prompt w = (Ok None, w1) /\
  requests w1 = requests w /\ catalog w1 = catalog w.
Proof.
  intros Hr Hv. split; [| exact (retrievePromptVariations_requests _ _ _ _ Hr)].
  unfold startABTest, try_catch, bind. rewrite Hr.
  destruct r as [[v |] | e]; try reflexivity.
  destruct Hv as [Hv | [Hv | (ts & Hv & Hlen)]].
  - rewrite Hv. reflexivity.
  - rewrite Hv. destruct (titles v); reflexivity.
  - rewrite Hv. destruct (descriptions v); [| reflexivity].
    apply Nat.leb_le in Hlen. rewrite Hlen. reflexivity.
Qed.

Lemma startABTest_needs_two_variants_witness :
  let p := listing "p" 50 (5 # 100) 0 150 false in
  let w := world_with [p] [] [("p"%string, Some single_variant_experiment)] [] in
  startABTest p w = (Ok None, pop_fault w) /\
  requests (pop_fault w) = requests w /\ catalog (pop_fault w) = catalog w.
Proof.
  intros p w.
  apply (startABTest_needs_two_variants p w (pop_fault w) (Ok (Some single_variant_experiment))).
  - reflexivity.
  - right. right. exists ["A"%string]. split; [reflexivity | simpl; lia].
Defined.

(** ** The weekly run *)

Lemma bind_inv {A B : Type} (c : M A) (k : A -> M B) (w w' : World) (r : Result B) :
  bind c k w = (r, w') ->
  (exists a w1, c w = (Ok a, w1) /\ k a w1 = (r, w')) \/
  (exists e, c w = (Throw e, w') /\ r = Throw e).
Proof.
  unfold bind. destruct (c w) as [[a | e] w1]; intro H.
  - left. exists a, w1. split; [reflexivity | exact H].
  - right. exists e. inversion H; subst. split; reflexivity.
Qed.

Lemma quiet_getPrompts : quiet getPrompts.
Proof.
  unfold getPrompts. apply quiet_try_catch; [| intro; apply quiet_throw].
  apply quiet_bind; [apply quiet_remote |]. intros _ w r w' H. inversion H. reflexivity.
Qed.

Lemma quiet_with_performance (prompt : Prompt) : quiet (with_performance prompt).
Proof.
  unfold with_performance. apply quiet_try_catch; [| intro; apply quiet_ret].
  apply quiet_bind; [apply quiet_getPromptPerformance | intro; apply quiet_ret].
Qed.

Lemma quiet_Promise_all_map {A B : Type} (f : A -> M B) (l : list A) :
  (forall x, quiet (f x)) -> quiet (Promise_all_map f l).
Proof.
  intro Hf. induction l as [| x l IH]; simpl; [apply quiet_ret |].
  apply quiet_bind; [apply Hf |]. intro.
  apply quiet_bind; [exact IH |]. intro. apply quiet_ret.
Qed.

Lemma quiet_refreshPromptContent (prompt : Prompt) : quiet (refreshPromptContent prompt).
Proof. unfold refreshPromptContent. repeat quiet_step. Qed.

Lemma quiet_removePromotion (prompt : Prompt) : quiet (removePromotion prompt).
Proof. unfold removePromotion. repeat quiet_step. Qed.

Lemma quiet_applyPromotion (prompt : Prompt) : quiet (applyPromotion prompt).
Proof. unfold applyPromotion. repeat quiet_step. Qed.

Lemma refreshPromptContent_yields (prompt : Prompt) :
  yields (fun a => is_refresh_content a = true) (refreshPromptContent prompt).
Proof. unfold refreshPromptContent. repeat yields_step. Qed.

Lemma removePromotion_yields (prompt : Prompt) :
  yields (fun a => is_remove_promotion a = true) (removePromotion prompt).
Proof. unfold removePromotion. repeat yields_step. Qed.

Lemma applyPromotion_yields (prompt : Prompt) :
  yields (fun a => is_apply_promotion a = true) (applyPromotion prompt).
Proof. unfold applyPromotion. repeat yields_step. Qed.

(** A loop whose body adds at most one action of a kind adds at most one
    action of that kind for each element. *)
Lemma for_of_appends {A : Type} (P : Action -> Prop) (body : A -> list Action -> M (list Action)) :
  (forall x acc w r w',
      body x acc w = (Ok r, w') -> r = acc \/ exists a, r = acc ++ [a] /\ P a) ->
  forall l actions w r w',
    for_of l body actions w = (Ok r, w') ->
    exists new, r = actions ++ new /\ (List.length new <= List.length l)%nat /\ Forall P new.
Proof.
  intros Hb l. induction l as [| x l IH]; intros actions w r w' H; simpl in H.
  - inversion H; subst. exists []. rewrite app_nil_r. repeat split; constructor.
  - apply bind_Ok in H. destruct H as (s1 & w1 & H1 & H2).
    apply IH in H2. destruct H2 as (new & -> & Hlen & Hall).
    destruct (Hb _ _ _ _ _ H1) as [-> | (a & -> & Ha)].
    + exists new. simpl. repeat split; [lia | exact Hall].
    + exists (a :: new). rewrite <- app_assoc. simpl.
      repeat split; [lia |]. constructor; assumption.
Qed.

Lemma collect_appends {A : Type} (P : Action -> Prop) (f : A -> M (option Action)) (x : A)
    (acc : list Action) (w w' : World) (r : list Action) :
  yields P (f x) ->
  collect f x acc w = (Ok r, w') -> r = acc \/ exists a, r = acc ++ [a] /\ P a.
Proof.
  intros Hf H. unfold collect in H. apply bind_Ok in H. destruct H as (o & w0 & Hx & Ho).
  destruct o as [a |]; inversion Ho; subst.
  - right. exists a. split; [reflexivity | exact (Hf _ _ _ Hx)].
  - left. reflexivity.
Qed.

(** X6.  The list a weekly run returns has at most two [refresh_content]
    actions, at most three [remove_promotion] actions and at most three
    [apply_promotion] actions.  The run sends exactly one notification: the
    report, with the returned actions attached, or, when the listings could
    not be fetched, an error notification with an empty list returned. *)
Theorem weekly_caps_and_notification (w w' : World) (actions : list Action) :
  weeklyRenovation w = (Ok actions, w') ->
  (List.length (filter is_refresh_content actions) <= 2)%nat /\
  (List.length (filter is_remove_promotion actions) <= 3)%nat /\
  (List.length (filter is_apply_promotion actions) <= 3)%nat /\
  exists n, outbox w' = outbox w ++ [n] /\
            ((n_type n = t_report /\ attachment n = Some actions) \/
             (n_type n = t_error /\ actions = [])).
Proof.
  intro H. unfold weeklyRenovation, try_catch in H.
  match type of H with
  | context [match ?c with _ => _ end] => destruct c as [[a | e] w1] eqn:Hb
  end.
  - (* the block returned *)
    inversion H; subst. clear H.
    apply bind_Ok in Hb. destruct Hb as (allPrompts & w1 & H0 & Hb).
    apply bind_Ok in Hb. destruct Hb as (pwp & w2 & H1 & Hb).
    apply bind_Ok in Hb. destruct Hb as (t & w2' & Ht & Hb). unfold Date_now in Ht. injection Ht as _ <-.
    apply bind_Ok in Hb. destruct Hb as (a1 & w3 & H2 & Hb).
    apply bind_Ok in Hb. destruct Hb as (a2 & w4 & H3 & Hb).
    apply bind_Ok in Hb. destruct Hb as (a3 & w5 & H4 & Hb).
    unfold bind in Hb. simpl in Hb. inversion Hb; subst. clear Hb.
    pose proof (quiet_getPrompts _ _ _ H0) as Q0.
    pose proof (quiet_Promise_all_map with_performance allPrompts quiet_with_performance
                  _ _ _ H1) as Q1.
    assert (Q2 : outbox w3 = outbox w2).
    { refine (quiet_for_of _ _ _ _ _ _ _ H2). intros x s.
      apply quiet_collect, quiet_refreshPromptContent. }
    assert (Q3 : outbox w4 = outbox w3).
    { refine (quiet_for_of _ _ _ _ _ _ _ H3). intros x s.
      destruct (on_promotion (fst x)); [| apply quiet_ret].
      apply quiet_collect, quiet_removePromotion. }
    assert (Q4 : outbox w5 = outbox w4).
    { refine (quiet_for_of _ _ _ _ _ _ _ H4). intros x s.
      apply quiet_collect, quiet_applyPromotion. }
    apply (for_of_appends (fun a => is_refresh_content a = true)) in H2.
    2:{ intros x acc w0 r w0' Hx. apply (collect_appends _ _ _ _ _ _ _ (refreshPromptContent_yields (fst x)) Hx). }
    apply (for_of_appends (fun a => is_remove_promotion a = true)) in H3.
    2:{ intros x acc w0 r w0' Hx. destruct (on_promotion (fst x)).
        - apply (collect_appends _ _ _ _ _ _ _ (removePromotion_yields (fst x)) Hx).
        - inversion Hx. left. reflexivity. }
    apply (for_of_appends (fun a => is_apply_promotion a = true)) in H4.
    2:{ intros x acc w0 r w0' Hx. apply (collect_appends _ _ _ _ _ _ _ (applyPromotion_yields (fst x)) Hx). }
    destruct H2 as (n1 & -> & L1 & F1). destruct H3 as (n2 & -> & L2 & F2).
    destruct H4 as (n3 & -> & L3 & F3).
    unfold JS.slice0 in L1, L2, L3.
    match type of L1 with (_ <= List.length (firstn 2 ?l))%nat =>
      pose proof (firstn_le_length 2 l) end.
    match type of L2 with (_ <= List.length (firstn 3 ?l))%nat =>
      pose proof (firstn_le_length 3 l) end.
    match type of L3 with (_ <= List.length (firstn 3 ?l))%nat =>
      pose proof (firstn_le_length 3 l) end.
    simpl app. rewrite !filter_app, !length_app.
    rewrite (filter_none is_refresh_content n2), (filter_none is_refresh_content n3),
      (filter_none is_remove_promotion n1), (filter_none is_remove_promotion n3),
      (filter_none is_apply_promotion n1), (filter_none is_apply_promotion n2).
    + pose proof (filter_length_le is_refresh_content n1).
      pose proof (filter_length_le is_remove_promotion n2).
      pose proof (filter_length_le is_apply_promotion n3).
      simpl. repeat split; try lia.
      eexists. split.
      * rewrite Q4, Q3, Q2, Q1, Q0. reflexivity.
      * left. split; reflexivity.
    + eapply Forall_impl; [| exact F2]. intros [] Ha; simpl in *; congruence.
    + eapply Forall_impl; [| exact F1]. intros [] Ha; simpl in *; congruence.
    + eapply Forall_impl; [| exact F3]. intros [] Ha; simpl in *; congruence.
    + eapply Forall_impl; [| exact F1]. intros [] Ha; simpl in *; congruence.
    + eapply Forall_impl; [| exact F3]. intros [] Ha; simpl in *; congruence.
    + eapply Forall_impl; [| exact F2]. intros [] Ha; simpl in *; congruence.
  - (* the block threw *)
    unfold bind in H. simpl in H. inversion H; subst. clear H.
    simpl. repeat split; try lia.
    assert (Q : outbox w1 = outbox w);
      [| eexists; split; [simpl; rewrite Q; reflexivity | right; split; reflexivity]].
    apply bind_inv in Hb. destruct Hb as [(allPrompts & w2 & H0 & Hb) | (e0 & H0 & _)];
      [| exact (quiet_getPrompts _ _ _ H0)].
    pose proof (quiet_getPrompts _ _ _ H0) as Q0.
    apply bind_inv in Hb. destruct Hb as [(pwp & w3 & H1 & Hb) | (e0 & H1 & _)];
      pose proof (quiet_Promise_all_map with_performance allPrompts quiet_with_performance
                    _ _ _ H1) as Q1; [| congruence].
    apply bind_inv in Hb. destruct Hb as [(t & w3' & Ht & Hb) | (e0 & Ht & _)];
      [| inversion Ht].
    unfold Date_now in Ht. injection Ht as _ <-.
    apply bind_inv in Hb. destruct Hb as [(a1 & w4 & H2 & Hb) | (e0 & H2 & _)].
    2:{ rewrite <- Q0, <- Q1. refine (quiet_for_of _ _ _ _ _ _ _ H2). intros x s.
        apply quiet_collect, quiet_refreshPromptContent. }
    assert (Q2 : outbox w4 = outbox w3).
    { refine (quiet_for_of _ _ _ _ _ _ _ H2). intros x s.
      apply quiet_collect, quiet_refreshPromptContent. }
    apply bind_inv in Hb. destruct Hb as [(a2 & w5 & H3 & Hb) | (e0 & H3 & _)].
    2:{ rewrite <- Q0, <- Q1, <- Q2. refine (quiet_for_of _ _ _ _ _ _ _ H3). intros x s.
        destruct (on_promotion (fst x)); [| apply quiet_ret].
        apply quiet_collect, quiet_removePromotion. }
    assert (Q3 : outbox w5 = outbox w4).
    { refine (quiet_for_of _ _ _ _ _ _ _ H3). intros x s.
      destruct (on_promotion (fst x)); [| apply quiet_ret].
      apply quiet_collect, quiet_removePromotion. }
    apply bind_inv in Hb. destruct Hb as [(a3 & w6 & H4 & Hb) | (e0 & H4 & _)].
    2:{ rewrite <- Q0, <- Q1, <- Q2, <- Q3. refine (quiet_for_of _ _ _ _ _ _ _ H4).
        intros x s. apply quiet_collect, quiet_applyPromotion. }
    unfold bind in Hb. simpl in Hb. discriminate.
Qed.

Lemma weekly_caps_and_notification_witness :
  let actions := returned (weeklyRenovation weekly_world) in
  let w' := snd (weeklyRenovation weekly_world) in
  (List.length (filter is_refresh_content actions) <= 2)%nat /\
  (List.length (filter is_remove_promotion actions) <= 3)%nat /\
  (List.length (filter is_apply_promotion actions) <= 3)%nat /\
  exists n, outbox w' = outbox weekly_world ++ [n] /\
            ((n_type n = t_report /\ attachment n = Some actions) \/
             (n_type n = t_error /\ actions = [])).
Proof.
  intros actions w'.
  apply (weekly_caps_and_notification weekly_world w' actions).
  vm_compute. reflexivity.
Defined.

(** In that run two of the three old listings are refreshed, the promotion of
    the listing in high demand is removed (85 goes back to 100) and the
    listing of low demand receives a promotion (100 goes to 85). *)
Example weekly_example :
  map (fun a => match a with
                | refresh_content i _ _ _ _ _ => (i, 0, 0)
                | remove_promotion i o n _ _ => (i, Qred o, Qred n)
                | apply_promotion i o n _ _ => (i, Qred o, Qred n)
                | _ => (""%string, 0, 0)
                end) (returned (weeklyRenovation weekly_world)) =
  [("a"%string, 0, 0); ("b"%string, 0, 0); ("a"%string, 85, 100); ("b"%string, 100, 85)].
Proof. vm_compute. reflexivity. Qed.

(** ** The price written, once more *)

Lemma Math_round_of_integer (x : Q) : is_integer x -> JS.Math_round x == x.
Proof.
  intros [z Hz]. rewrite (Math_round_comp x (inject_Z z) Hz), Math_round_integer.
  symmetry. exact Hz.
Qed.

(** X7.  The price the client writes grows with the price it is given.  When
    the two configured bounds are integers, the minimum not above the maximum,
    writing a price that was written leaves it as it is: sending a stored price
    again never moves it. *)
Theorem written_price_monotone_idempotent (env : Env) :
  (forall p q, p <= q -> written_price env p <= written_price env q) /\
  (is_integer (or_default (MIN_PROMPT_PRICE env) 10) ->
   is_integer (or_default (MAX_PROMPT_PRICE env) 150) ->
   or_default (MIN_PROMPT_PRICE env) 10 <= or_default (MAX_PROMPT_PRICE env) 150 ->
   forall p, written_price env (written_price env p) == written_price env p).
Proof.
  split.
  - intros p q H. unfold written_price, JS.Math_min, JS.Math_max.
    apply Q.min_le_compat_r. apply Q.max_le_compat_r. apply Math_round_mono. exact H.
  - intros Hlo Hhi Hle p.
    pose proof (written_price_integer env p Hlo Hhi) as Hint.
    pose proof (written_price_bounds env p Hle) as [Hb1 Hb2].
    set (x := written_price env p) in *.
    unfold written_price at 1. unfold JS.Math_min, JS.Math_max.
    rewrite (Math_round_of_integer x Hint).
    rewrite (Q.max_l x _ Hb1). apply Q.min_l. exact Hb2.
Qed.

Lemma written_price_monotone_idempotent_witness :
  written_price default_env (written_price default_env (2205 # 100))
  == written_price default_env (2205 # 100).
Proof.
  destruct (written_price_monotone_idempotent default_env) as [_ H].
  apply H.
  - exists 10%Z. reflexivity.
  - exists 150%Z. reflexivity.
  - vm_compute. discriminate.
Defined.

(** ** The next occurrence, for every date *)

Lemma getHours_setHours (utcOffset t hour : Z) :
  (0 <= hour < 24)%Z -> getHours utcOffset (setHours utcOffset t hour) = hour.
Proof.
  intro H. unfold getHours, setHours.
  set (L := localDay utcOffset t).
  replace (L * msPerDay + hour * msPerHour - utcOffset + utcOffset)%Z
    with ((L * 24 + hour) * msPerHour)%Z by (unfold msPerDay; ring).
  rewrite Z.div_mul by (unfold msPerHour; lia).
  rewrite Z.add_comm, Z.mod_add by lia.
  apply Z.mod_small. exact H.
Qed.

Lemma setHours_on_the_hour (utcOffset t hour : Z) :
  ((setHours utcOffset t hour + utcOffset) mod msPerHour = 0)%Z.
Proof.
  unfold setHours. set (L := localDay utcOffset t).
  replace (L * msPerDay + hour * msPerHour - utcOffset + utcOffset)%Z
    with ((L * 24 + hour) * msPerHour)%Z by (unfold msPerDay; ring).
  apply Z.mod_mul. unfold msPerHour. lia.
Qed.

Lemma after_the_day (utcOffset t t' : Z) :
  (localDay utcOffset t < localDay utcOffset t')%Z -> (t < t')%Z.
Proof.
  unfold localDay. intro H.
  destruct (Z_lt_le_dec t t') as [L | L]; [exact L | exfalso].
  assert ((t' + utcOffset) / msPerDay <= (t + utcOffset) / msPerDay)%Z.
  { apply Z.div_le_mono; [unfold msPerDay, msPerHour; lia | lia]. }
  lia.
Qed.

(** X8.  In a time zone at a constant offset from UTC (no daylight saving
    time), whatever the offset and the current date, for a name of a day of
    the week and an hour from 0 to 23, [getNextOccurrence] returns a date on
    that day of the week, at that hour sharp, after now, one to seven days
    after today. *)
Theorem getNextOccurrence_matches (utcOffset : Z) (day : string) (hour today : Z) :
  indexOf days day <> (-1)%Z ->
  (0 <= hour < 24)%Z ->
  let next := getNextOccurrence utcOffset day hour today in
  getDay utcOffset next = indexOf days day /\
  getHours utcOffset next = hour /\
  ((next + utcOffset) mod msPerHour = 0)%Z /\
  (today < next)%Z /\
  (1 <= localDay utcOffset next - localDay utcOffset today <= 7)%Z.
Proof.
  intros Hday Hhour next.
  pose proof (getNextOccurrence_after_today utcOffset day hour today Hday Hhour) as Hafter.
  fold next in Hafter.
  assert (Hd : getDay utcOffset next = indexOf days day /\
               getHours utcOffset next = hour /\
               ((next + utcOffset) mod msPerHour = 0)%Z).
  { unfold next, getNextOccurrence.
    destruct (indexOf_days_range day) as [E | Hi]; [contradiction |].
    destruct (indexOf days day =? -1)%Z eqn:E1; [apply Z.eqb_eq in E1; contradiction |].
    pose proof (getDay_range utcOffset today) as Hg.
    set (k := (indexOf days day - getDay utcOffset today)%Z).
    set (k' := if (k <=? 0)%Z then (k + 7)%Z else k).
    assert (Hk : (k' = k \/ k' = k + 7)%Z)
      by (unfold k'; destruct (k <=? 0)%Z; [right | left]; reflexivity).
    assert (Hk1 : (1 <= k' <= 7)%Z).
    { unfold k'. destruct (k <=? 0)%Z eqn:E2;
        [apply Z.leb_le in E2 | apply Z.leb_gt in E2]; unfold k in *; lia. }
    destruct (k' =? 0)%Z eqn:E3; [apply Z.eqb_eq in E3; lia |].
    simpl andb. cbv iota.
    split; [| split; [apply getHours_setHours; exact Hhour | apply setHours_on_the_hour]].
    unfold getDay at 1. rewrite localDay_setHours by exact Hhour.
    rewrite localDay_addDays.
    unfold k, getDay in Hk. unfold getDay in Hg.
    set (L := localDay utcOffset today) in *.
    pose proof (Z.div_mod (L + 4) 7).
    destruct Hk as [-> | ->].
    - replace (L + (indexOf days day - (L + 4) mod 7) + 4)%Z
        with (indexOf days day + ((L + 4) / 7) * 7)%Z by lia.
      rewrite Z.mod_add by lia. apply Z.mod_small. lia.
    - replace (L + (indexOf days day - (L + 4) mod 7 + 7) + 4)%Z
        with (indexOf days day + ((L + 4) / 7 + 1) * 7)%Z by lia.
      rewrite Z.mod_add by lia. apply Z.mod_small. lia. }
  destruct Hd as (H1 & H2 & H3).
  repeat split; try assumption; try lia.
  apply (after_the_day utcOffset). lia.
Qed.

Lemma getNextOccurrence_matches_witness :
  let next := getNextOccurrence 3600000 "Friday" 18 1000000000000 in
  getDay 3600000 next = indexOf days "Friday" /\
  getHours 3600000 next = 18%Z /\
  ((next + 3600000) mod msPerHour = 0)%Z /\
  (1000000000000 < next)%Z /\
  (1 <= localDay 3600000 next - localDay 3600000 1000000000000 <= 7)%Z.
Proof.
  apply (getNextOccurrence_matches 3600000 "Friday" 18 1000000000000).
  - vm_compute. discriminate.
  - lia.
Defined.

(** X9.  For a name that is not a day of the week, [getNextOccurrence]
    returns tomorrow at the given hour sharp. *)
Theorem getNextOccurrence_fallback (utcOffset : Z) (day : string) (hour today : Z) :
  indexOf days day = (-1)%Z ->
  (0 <= hour < 24)%Z ->
  let next := getNextOccurrence utcOffset day hour today in
  localDay utcOffset next = (localDay utcOffset today + 1)%Z /\
  getHours utcOffset next = hour /\
  ((next + utcOffset) mod msPerHour = 0)%Z /\
  (today < next)%Z.
Proof.
  intros Hday Hhour next.
  assert (E : next = setHours utcOffset (addDays today 1) hour).
  { unfold next, getNextOccurrence. rewrite Hday. reflexivity. }
  assert (Hl : localDay utcOffset next = (localDay utcOffset today + 1)%Z).
  { rewrite E, localDay_setHours by exact Hhour. apply localDay_addDays. }
  split; [exact Hl |].
  split; [rewrite E; apply getHours_setHours; exact Hhour |].
  split; [rewrite E; apply setHours_on_the_hour |].
  apply (after_the_day utcOffset). lia.
Qed.

Lemma getNextOccurrence_fallback_witness :
  let next := getNextOccurrence 0 "Lundi" 10 1000000000000 in
  localDay 0 next = (localDay 0 1000000000000 + 1)%Z /\
  getHours 0 next = 10%Z /\
  ((next + 0) mod msPerHour = 0)%Z /\
  (1000000000000 < next)%Z.
Proof.
  apply (getNextOccurrence_fallback 0 "Lundi" 10 1000000000000).
  - vm_compute. reflexivity.
  - lia.
Defined.

(** ** Promotions of the weekly run and of the service *)



Lemma removePromotionFromPrompt_off (promptId : string) (stored : Prompt) (w : World) :
  find_prompt promptId (catalog w) = Some stored ->
  on_promotion stored = false ->
  succeeds 0 w ->
  removePromotionFromPrompt promptId w = (Ok stored, pop_fault w).
Proof.
  intros Hf Hoff H0. unfold removePromotionFromPrompt, try_catch, bind.
  rewrite (getPrompt_succeeds _ _ _ H0 Hf). cbv beta iota. rewrite Hoff. reflexivity.
Qed.

(** X11.  Promotions of the service never stack, and a removal needs a
    promotion.  After a promotion is applied to a listing that had none, a
    second application, whatever its discount and duration, returns the
    listing as the first left it and sends no request: the catalog keeps the
    first promotion, whose price is the rounded product of the doubles of the
    service.  Removing the promotion of a listing that has none returns
    the listing and sends no request. *)
Theorem promotions_do_not_stack (promptId : string) (stored : Prompt) (w : World) :
  find_prompt promptId (catalog w) = Some stored ->
  on_promotion stored = false ->
  succeeds 0 w -> succeeds 1 w -> succeeds 2 w ->
  (forall d1 h1 d2 h2,
      exists promoted w1 w2,
        applyPromotionToPrompt promptId d1 h1 w = (Ok promoted, w1) /\
        applyPromotionToPrompt promptId d2 h2 w1 = (Ok promoted, w2) /\
        requests w2 = requests w1 /\ catalog w2 = catalog w1 /\
        price promoted = promotionPrice (price stored) (JS.Math_min d1 50) /\
        promotion_percentage promoted = JS.Math_min d1 50) /\
  removePromotionFromPrompt promptId w = (Ok stored, pop_fault w) /\
  requests (pop_fault w) = requests w /\ catalog (pop_fault w) = catalog w.
Proof.
  intros Hf Hoff H0 H1 H2.
  destruct (pop_fault_fields w) as (Enow & Ecat & _ & _ & Ereq & _).
  split; [| split; [apply removePromotionFromPrompt_off; assumption | split; assumption]].
  intros d1 h1 d2 h2.
  set (data := promotion_patch (promotionPrice (price stored) (JS.Math_min d1 50)) true
                 (JS.Math_min d1 50)
                 (Some (promotionEndDate (now w) (JS.Math_min h1 maxPromotionDuration)))).
  set (w1 := patched promptId stored data (pop_fault w)).
  destruct (patched_fields promptId stored data (pop_fault w)) as (_ & _ & _ & Pcat).
  fold w1 in Pcat.
  assert (Hf1 : find_prompt promptId (catalog w1) = Some (applyPatch stored data)).
  { rewrite Pcat, Ecat. apply find_prompt_stored with (p := stored); [exact Hf |].
    simpl. apply (find_prompt_id _ _ _ Hf). }
  assert (S1 : succeeds 0 w1) by (apply succeeds_patched, succeeds_pop; exact H2).
  destruct (pop_fault_fields w1) as (_ & Ecat1 & _ & _ & Ereq1 & _).
  exists (applyPatch stored data), w1, (pop_fault w1).
  split; [| split; [| split; [exact Ereq1 | split; [exact Ecat1 | split; reflexivity]]]].
  - unfold applyPromotionToPrompt, try_catch, bind.
    rewrite (getPrompt_succeeds _ _ _ H0 Hf). cbv beta iota. rewrite Hoff.
    unfold Date_now. rewrite Enow. fold data.
    rewrite updatePrompt_succeeds with (p := stored);
      [reflexivity | apply succeeds_pop; exact H1 | rewrite Ecat; exact Hf].
  - unfold applyPromotionToPrompt, try_catch, bind.
    rewrite (getPrompt_succeeds _ _ _ S1 Hf1). reflexivity.
Qed.

Lemma promotions_do_not_stack_witness :
  let p := listing "p" 99 (1 # 100) 0 250 false in
  let w := world [p] [] in
  (forall d1 h1 d2 h2,
      exists promoted w1 w2,
        applyPromotionToPrompt "p" d1 h1 w = (Ok promoted, w1) /\
        applyPromotionToPrompt "p" d2 h2 w1 = (Ok promoted, w2) /\
        requests w2 = requests w1 /\ catalog w2 = catalog w1 /\
        price promoted = promotionPrice (price p) (JS.Math_min d1 50) /\
        promotion_percentage promoted = JS.Math_min d1 50) /\
  removePromotionFromPrompt "p" w = (Ok p, pop_fault w) /\
  requests (pop_fault w) = requests w /\ catalog (pop_fault w) = catalog w.
Proof.
  intros p w.
  apply (promotions_do_not_stack "p" p w); reflexivity.
Defined.

(** ** The points of the night *)

Section Night.

Variable utcOffset : Z.

Lemma record_visit_day_hours (d : string) (h : Z) (v : Q) (acc : list Entry) :
  filter day_hours (record_visit d h v acc) =
  if (7 <=? h)%Z && (h <=? 23)%Z then record_visit d h v (filter day_hours acc)
  else filter day_hours acc.
Proof.
  induction acc as [| e acc IH].
  - simpl. unfold day_hours. simpl. destruct ((7 <=? h)%Z && (h <=? 23)%Z); reflexivity.
  - simpl record_visit. destruct (same_key d h e) eqn:E.
    + assert (Hh : day_hours e = (7 <=? h)%Z && (h <=? 23)%Z).
      { apply same_key_true in E. inversion E. reflexivity. }
      cbn [filter].
      change (day_hours {| day := day e; hour := hour e; count := count e + 1;
                           visits := visits e + v; avgVisits := avgVisits e |})
        with (day_hours e).
      rewrite Hh. destruct ((7 <=? h)%Z && (h <=? 23)%Z); [| reflexivity].
      simpl record_visit. rewrite E. reflexivity.
    + cbn [filter]. rewrite IH. destruct (day_hours e) eqn:Ee.
      * destruct ((7 <=? h)%Z && (h <=? 23)%Z); [| reflexivity].
        simpl record_visit. rewrite E. reflexivity.
      * reflexivity.
Qed.

Lemma bucket_day_hours (analytics : list DataPoint) :
  forall acc,
    filter day_hours
      (fold_left
         (fun activityByHourDay dataPoint =>
            record_visit (dayName utcOffset (dp_timestamp dataPoint))
              (getHours utcOffset (dp_timestamp dataPoint)) (visits_or_0 dataPoint)
              activityByHourDay) analytics acc) =
    fold_left
      (fun activityByHourDay dataPoint =>
         record_visit (dayName utcOffset (dp_timestamp dataPoint))
           (getHours utcOffset (dp_timestamp dataPoint)) (visits_or_0 dataPoint)
           activityByHourDay) (filter (by_day utcOffset) analytics) (filter day_hours acc).
Proof.
  induction analytics as [| p l IH]; intro acc; simpl; [reflexivity |].
  rewrite IH, record_visit_day_hours.
  pose proof (getHours_range utcOffset (dp_timestamp p)) as Hr.
  unfold by_day.
  destruct (7 <=? getHours utcOffset (dp_timestamp p))%Z eqn:E7; simpl.
  - assert (E23 : (getHours utcOffset (dp_timestamp p) <=? 23)%Z = true)
      by (apply Z.leb_le; lia).
    rewrite E23. reflexivity.
  - reflexivity.
Qed.

Lemma filter_map_commute {A B : Type} (f : B -> bool) (g : A -> B) (l : list A) :
  filter f (map g l) = map g (filter (fun x => f (g x)) l).
Proof.
  induction l as [| x l IH]; simpl; [reflexivity |].
  destruct (f (g x)); simpl; rewrite IH; reflexivity.
Qed.

Lemma filter_idem {A : Type} (f : A -> bool) (l : list A) :
  filter f (filter f l) = filter f l.
Proof.
  induction l as [| x l IH]; simpl; [reflexivity |].
  destruct (f x) eqn:E; simpl; [rewrite E, IH |]; [reflexivity | exact IH].
Qed.

Lemma candidates_by_day (analytics : list DataPoint) :
  filter day_hours (map set_average (bucket utcOffset analytics)) =
  map set_average (bucket utcOffset (filter (by_day utcOffset) analytics)).
Proof.
  rewrite filter_map_commute.
  change (fun x => day_hours (set_average x)) with day_hours.
  unfold bucket. rewrite bucket_day_hours. reflexivity.
Qed.

(** X12.  The data points of the night, of an hour from 0 to 6, never change
    the outcome of [findLowActivityPeriods]: the result is the result on the
    series without them. *)
Theorem findLowActivityPeriods_ignores_night (analytics : list DataPoint) :
  findLowActivityPeriods utcOffset analytics =
  findLowActivityPeriods utcOffset (filter (by_day utcOffset) analytics).
Proof.
  unfold findLowActivityPeriods.
  change (fun entry : Entry => (7 <=? hour entry)%Z && (hour entry <=? 23)%Z) with day_hours.
  rewrite !candidates_by_day, filter_idem. reflexivity.
Qed.

End Night.

(** Without its point at 03:00 the series of four points gives the same two
    periods. *)
Example findLowActivityPeriods_without_night :
  filter (by_day 0) four_points = firstn 3 four_points /\
  findLowActivityPeriods 0 four_points = findLowActivityPeriods 0 (firstn 3 four_points).
Proof. vm_compute. split; reflexivity. Qed.

(** ** The selection of listings for a promotion *)

(** X13.  Whatever permutation the random sort produces,
    [selectPromptsForPromotion] returns listings of the list given, none of
    them on promotion, as many as asked for or all the available ones when
    there are fewer, in which case they keep their order; a listing is never
    selected twice. *)
Theorem selectPromptsForPromotion_sound (shuffle : list Prompt -> list Prompt)
    (prompts : list Prompt) (count : nat) :
  (forall l, Permutation l (shuffle l)) ->
  let available := filter (fun p => negb (on_promotion p)) prompts in
  let selected := selectPromptsForPromotion shuffle prompts count in
  (forall p, In p selected -> In p prompts /\ on_promotion p = false) /\
  List.length selected = Nat.min count (List.length available) /\
  ((List.length available <= count)%nat -> selected = available) /\
  (NoDup prompts -> NoDup selected).
Proof.
  intros Hperm available selected.
  unfold selected, selectPromptsForPromotion. fold available.
  destruct (List.length available <=? count)%nat eqn:E.
  - apply Nat.leb_le in E. repeat split.
    + apply filter_In in H. tauto.
    + apply filter_In in H. destruct H as [_ H]. apply negb_true_iff in H. exact H.
    + lia.
    + intro Hnd. apply NoDup_filter. exact Hnd.
  - apply Nat.leb_gt in E. unfold JS.slice0. repeat split.
    + apply In_firstn in H. apply (Permutation_in _ (Permutation_sym (Hperm available))) in H.
      apply filter_In in H. tauto.
    + apply In_firstn in H. apply (Permutation_in _ (Permutation_sym (Hperm available))) in H.
      apply filter_In in H. destruct H as [_ H]. apply negb_true_iff in H. exact H.
    + rewrite length_firstn, <- (Permutation_length (Hperm available)). reflexivity.
    + intro. lia.
    + intro Hnd. apply NoDup_firstn.
      apply (Permutation_NoDup (Hperm available)). apply NoDup_filter. exact Hnd.
Qed.

Lemma selectPromptsForPromotion_sound_witness :
  let prompts := [old_listing "a" 85 true 15; old_listing "b" 100 false 0;
                  old_listing "c" 100 false 0; old_listing "d" 100 false 0] in
  let available := filter (fun p => negb (on_promotion p)) prompts in
  let selected := selectPromptsForPromotion (@rev Prompt) prompts 2 in
  (forall p, In p selected -> In p prompts /\ on_promotion p = false) /\
  List.length selected = Nat.min 2 (List.length available) /\
  ((List.length available <= 2)%nat -> selected = available) /\
  (NoDup prompts -> NoDup selected).
Proof.
  intro prompts.
  apply (selectPromptsForPromotion_sound (@rev Prompt) prompts 2).
  intro l. apply Permutation_rev.
Defined.

(** ** The end of a test *)

Lemma getPromptPerformance_catalog (k : string) (w w' : World) (r : Result Performance) :
  getPromptPerformance k w = (r, w') -> catalog w' = catalog w.
Proof.
  unfold getPromptPerformance, try_catch, bind, remote, throw.
  destruct (faults w) as [| [] f]; simpl.
  - destruct (lookup k (performances w)); intro H; inversion H; reflexivity.
  - intro H; inversion H; reflexivity.
  - destruct (lookup k (performances w)); intro H; inversion H; reflexivity.
Qed.

Lemma updatePrompt_Throw (k : string) (data : UpdateData) (w w' : World) (e : string) :
  updatePrompt k data w = (Throw e, w') -> catalog w' = catalog w.
Proof.
  unfold updatePrompt, try_catch, client_patch, bind, remote, throw.
  simpl. destruct (faults w) as [| [] f]; simpl.
  - destruct (find_prompt k (catalog w)); intro H; inversion H; reflexivity.
  - intro H; inversion H; reflexivity.
  - destruct (find_prompt k (catalog w)); intro H; inversion H; reflexivity.
Qed.

(** X14.  The function that ends a test never throws, whatever the storing of
    the results does, and it clears the experiment flag last.  When the
    performance of the listing cannot be fetched, nothing is sent and the
    catalog is as it was: the listing stays flagged.  When the results cannot
    be stored, the flag is not cleared either.  When both succeed and the
    request succeeds, the stored listing has its flag cleared and keeps its
    title, description and price.  When both succeed and the request fails,
    the function returns all the same: the request was sent, and the catalog
    is as it was. *)
Theorem testEnd_clears_flag_last (storeTestResults : string -> Z -> Performance -> M unit)
    (promptId : string) (variationIndex : Z) (w : World) :
  (exists w', testEnd storeTestResults promptId variationIndex w = (Ok tt, w')) /\
  (forall e w1,
      getPromptPerformance promptId w = (Throw e, w1) ->
      testEnd storeTestResults promptId variationIndex w = (Ok tt, w1) /\
      requests w1 = requests w /\ catalog w1 = catalog w) /\
  (forall perf w1 e w2,
      getPromptPerformance promptId w = (Ok perf, w1) ->
      storeTestResults promptId variationIndex perf w1 = (Throw e, w2) ->
      testEnd storeTestResults promptId variationIndex w = (Ok tt, w2)) /\
  (forall perf w1 w2 stored,
      getPromptPerformance promptId w = (Ok perf, w1) ->
      storeTestResults promptId variationIndex perf w1 = (Ok tt, w2) ->
      find_prompt promptId (catalog w2) = Some stored ->
      succeeds 0 w2 ->
      exists w3 stored',
        testEnd storeTestResults promptId variationIndex w = (Ok tt, w3) /\
        requests w3 = requests w2 ++ [Patch promptId (content_patch None None (Some false))] /\
        find_prompt promptId (catalog w3) = Some stored' /\
        currently_testing stored' = false /\
        title stored' = title stored /\ description stored' = description stored /\
        price stored' = price stored) /\
  (forall perf w1 w2 e w3,
      getPromptPerformance promptId w = (Ok perf, w1) ->
      storeTestResults promptId variationIndex perf w1 = (Ok tt, w2) ->
      updatePrompt promptId (content_patch None None (Some false)) w2 = (Throw e, w3) ->
      testEnd storeTestResults promptId variationIndex w = (Ok tt, w3) /\
      requests w3 = requests w2 ++ [Patch promptId (content_patch None None (Some false))] /\
      catalog w3 = catalog w2).
Proof.
  split; [| split; [| split; [| split]]].
  - unfold testEnd, try_catch.
    match goal with
    | |- context [match ?c w with _ => _ end] => destruct (c w) as [[[] | e] w1]
    end; eexists; reflexivity.
  - intros e w1 H. split; [| split].
    + unfold testEnd, try_catch, bind. rewrite H. reflexivity.
    + exact (getPromptPerformance_requests _ _ _ _ H).
    + exact (getPromptPerformance_catalog _ _ _ _ H).
  - intros perf w1 e w2 H1 H2. unfold testEnd, try_catch, bind. rewrite H1, H2. reflexivity.
  - intros perf w1 w2 stored H1 H2 Hf H0.
    set (data := content_patch None None (Some false)).
    destruct (patched_fields promptId stored data w2) as (_ & Preq & _ & Pcat).
    exists (patched promptId stored data w2), (applyPatch stored data).
    split; [| split; [exact Preq | split; [| repeat split]]].
    + unfold testEnd, try_catch, bind. rewrite H1, H2. fold data.
      rewrite (updatePrompt_succeeds promptId stored data w2 H0 Hf). reflexivity.
    + rewrite Pcat. apply find_prompt_stored with (p := stored); [exact Hf |].
      simpl. apply (find_prompt_id _ _ _ Hf).
  - intros perf w1 w2 e w3 H1 H2 H3. split; [| split].
    + unfold testEnd, try_catch, bind. rewrite H1, H2, H3. reflexivity.
    + exact (updatePrompt_sent _ _ _ _ _ H3).
    + exact (updatePrompt_Throw _ _ _ _ _ H3).
Qed.

Lemma testEnd_clears_flag_last_witness :
  let p := listing "p" 50 (5 # 100) 0 150 true in
  let w := world [p] [true] in
  let w' := world_with [p] [false; true] [] [("p"%string,
              {| views_last_7_days := 0; perf_conversion_rate := 0 |})] in
  (testEnd (fun _ _ _ => ret tt) "p" 0 w = (Ok tt, pop_fault w) /\
   requests (pop_fault w) = requests w /\ catalog (pop_fault w) = catalog w) /\
  (testEnd (fun _ _ _ => ret tt) "p" 0 w' =
     (Ok tt, pop_fault (add_request (Patch "p" (content_patch None None (Some false)))
                          (pop_fault w'))) /\
   requests (pop_fault (add_request (Patch "p" (content_patch None None (Some false)))
                          (pop_fault w')))
   = requests (pop_fault w') ++ [Patch "p" (content_patch None None (Some false))] /\
   catalog (pop_fault (add_request (Patch "p" (content_patch None None (Some false)))
                         (pop_fault w')))
   = catalog (pop_fault w')).
Proof.
  intros p w w'. split.
  - destruct (testEnd_clears_flag_last (fun _ _ _ => ret tt) "p" 0 w) as (_ & H & _).
    apply (H "Network Error"%string (pop_fault w)). reflexivity.
  - destruct (testEnd_clears_flag_last (fun _ _ _ => ret tt) "p" 0 w') as (_ & _ & _ & _ & H).
    apply (H {| views_last_7_days := 0; perf_conversion_rate := 0 |} (pop_fault w')
             (pop_fault w') "Network Error"%string); reflexivity.
Defined.

(** In that second world the listing is still flagged when the function has
    returned. *)
Example testEnd_failed_patch :
  let p := listing "p" 50 (5 # 100) 0 150 true in
  let w' := world_with [p] [false; true] [] [("p"%string,
              {| views_last_7_days := 0; perf_conversion_rate := 0 |})] in
  option_map currently_testing
    (find_prompt "p" (catalog (snd (testEnd (fun _ _ _ => ret tt) "p" 0 w')))) = Some true.
Proof. reflexivity. Qed.

(** ** The cache of the statistics *)

Lemma api_getPromptStats_cases (w w' : World) (r : Result (list Prompt)) :
  api_getPromptStats w = (r, w') ->
  w' = pop_fault w /\ (r = Ok (catalog w) \/ r = Throw "Network Error"%string).
Proof.
  unfold api_getPromptStats, try_catch, bind, remote, throw, pop_fault.
  destruct (faults w) as [| [] f]; simpl; intro H; inversion H; subst; auto.
Qed.

(** What a call returns is what the cache returned holds; it throws only on
    an empty cache. *)
Lemma getPromptStats_entries (cache : Cache) (w w' : World) (r : Result (list Prompt * Cache)) :
  getPromptStats cache w = (r, w') ->
  match r with
  | Ok (stats, cache') =>
      c_data cache' = Some stats /\
      (cache' = cache \/ (stats = catalog w /\ c_timestamp cache' = now w))
  | Throw _ => c_data cache = None
  end.
Proof.
  intro H. unfold getPromptStats, try_catch, bind, Date_now in H.
  destruct (c_data cache) as [d |] eqn:Ed.
  - destruct (now w - c_timestamp cache <? ttl)%Z eqn:Et.
    + inversion H; subst. split; [exact Ed | left; reflexivity].
    + destruct (api_getPromptStats w) as [r0 w0] eqn:Ha.
      destruct (api_getPromptStats_cases _ _ _ Ha) as [-> [-> | ->]]; inversion H; subst.
      * split; [reflexivity | right; split; reflexivity].
      * split; [exact Ed | left; reflexivity].
  - destruct (api_getPromptStats w) as [r0 w0] eqn:Ha.
    destruct (api_getPromptStats_cases _ _ _ Ha) as [-> [-> | ->]]; inversion H; subst.
    + split; [reflexivity | right; split; reflexivity].
    + reflexivity.
Qed.



(** ** The hourly job *)

Lemma total_hourlyOptimization (env : Env) (stats : list Prompt) :
  total (hourlyOptimization env stats).
Proof.
  apply total_try_catch. intro e.
  apply total_bind; [apply total_sendNotification | intro; apply total_ret].
Qed.

(** X16.  The hourly job of the scheduler.  With an empty cache and a fetch of
    the statistics that fails, the job returns having done nothing: no
    request, no notification, the catalog and the cache as they were.  With a
    cache that was filled once, the job always runs the hourly optimisation,
    on the fresh statistics or, when they cannot be fetched, on the data of
    the cache, and the cache it returns holds the statistics it used. *)
Theorem hourlyJob_statistics (env : Env) (cache : Cache) (w : World) :
  (c_data cache = None -> nth 0 (faults w) false = true ->
   hourlyJob env cache w = (Ok cache, pop_fault w) /\
   requests (pop_fault w) = requests w /\ outbox (pop_fault w) = outbox w /\
   catalog (pop_fault w) = catalog w) /\
  (forall d, c_data cache = Some d ->
     exists stats cache' w1 l w',
       getPromptStats cache w = (Ok (stats, cache'), w1) /\
       (stats = d \/ stats = catalog w) /\
       c_data cache' = Some stats /\
       hourlyOptimization env stats w1 = (Ok l, w') /\
       hourlyJob env cache w = (Ok cache', w')).
Proof.
  split.
  - intros Hnone Hfault.
    destruct (pop_fault_fields w) as (_ & Ecat & _ & _ & Ereq & Eout).
    split; [| repeat split; assumption].
    unfold hourlyJob, getPromptStats, api_getPromptStats, try_catch, bind, Date_now, remote,
      pop_fault, throw.
    rewrite Hnone. destruct (faults w) as [| [] f]; simpl in *; try discriminate.
    reflexivity.
  - intros d Hd.
    destruct (getPromptStats cache w) as [r w1] eqn:Hg.
    pose proof (getPromptStats_entries cache w w1 r Hg) as Hr.
    destruct r as [[stats cache'] | e]; [| rewrite Hd in Hr; discriminate].
    destruct Hr as (Hdata & Hfrom).
    destruct (total_hourlyOptimization env stats w1) as (l & w' & Hrun).
    exists stats, cache', w1, l, w'.
    split; [reflexivity |]. split.
    { destruct Hfrom as [-> | [-> _]]; [left | right; reflexivity].
      rewrite Hd in Hdata. inversion Hdata. reflexivity. }
    split; [exact Hdata |]. split; [exact Hrun |].
    unfold hourlyJob, try_catch, bind. rewrite Hg. simpl fst. rewrite Hrun. reflexivity.
Qed.

Lemma hourlyJob_statistics_witness :
  let p := listing "p" 50 (5 # 100) 0 150 false in
  let cache := {| c_data := None; c_timestamp := 0 |} in
  let w := world [p] [true] in
  hourlyJob default_env cache w = (Ok cache, pop_fault w) /\
  requests (pop_fault w) = requests w /\ outbox (pop_fault w) = outbox w /\
  catalog (pop_fault w) = catalog w.
Proof.
  intros p cache w.
  destruct (hourlyJob_statistics default_env cache w) as [H _].
  apply H; reflexivity.
Defined.

(** ** A finished experiment stays open *)

Lemma startABTest_winner_run (prompt stored : Prompt) (v : Variations)
    (ts ds : list string) (n : Z) (rs rest : list TestResult) (best : TestResult) (w : World) :
  lookup (id prompt) (variationStorage w) = Some (Some v) ->
  titles v = Some ts -> descriptions v = Some ds -> (2 <= List.length ts)%nat ->
  tested_count v = Some n -> (Z.of_nat (List.length ts) <= n)%Z ->
  results v = Some rs -> JS.sort by_conversion_desc rs = best :: rest ->
  find_prompt (id prompt) (catalog w) = Some stored ->
  succeeds 0 w -> succeeds 1 w ->
  startABTest prompt w =
    (Ok (Some (apply_best_variation (id prompt) best (now w))),
     patched (id prompt) stored
       (content_patch (Some (r_title best)) (Some (r_description best)) None) (pop_fault w)).
Proof.
  intros Hl Ht Hd Hlen Hn Hall Hr Hs Hf H0 H1.
  set (data := content_patch (Some (r_title best)) (Some (r_description best)) None).
  destruct (pop_fault_fields w) as (Enow & Ecat & _).
  destruct (patched_fields (id prompt) stored data (pop_fault w)) as (Pnow & _).
  unfold startABTest, try_catch, bind.
  rewrite (retrievePromptVariations_succeeds _ _ w H0 Hl).
  rewrite Ht, Hd.
  destruct (List.length ts <=? 1)%nat eqn:E1; [apply Nat.leb_le in E1; lia |].
  rewrite Hn. destruct (Z.of_nat (List.length ts) <=? n)%Z eqn:E2;
    [| apply Z.leb_gt in E2; lia].
  rewrite Hr. destruct rs as [| r0 rs0]; [discriminate |].
  rewrite Hs. fold data.
  rewrite (updatePrompt_succeeds (id prompt) stored data (pop_fault w));
    [| apply succeeds_pop; exact H1 | rewrite Ecat; exact Hf].
  unfold Date_now. rewrite Pnow, Enow. reflexivity.
Qed.

Lemma patched_storage (k : string) (p : Prompt) (data : UpdateData) (w : World) :
  variationStorage (patched k p data w) = variationStorage w.
Proof.
  unfold patched.
  destruct (pop_fault_fields (add_request (Patch k data) w)) as (_ & _ & E & _).
  simpl. rewrite E. reflexivity.
Qed.

(** X17.  Applying the winner does not close the experiment.  Under the
    conditions in which [startABTest] applies the winner of a finished
    experiment, a second call finds the experiment as it was and applies the
    same winner again: the same request is sent twice and the same action is
    returned twice.  The listing, whose figures the request does not touch, is
    still a candidate of the daily run when it was one. *)
Theorem winner_applied_again (prompt stored : Prompt) (v : Variations)
    (ts ds : list string) (n : Z) (rs : list TestResult) (w : World) :
  lookup (id prompt) (variationStorage w) = Some (Some v) ->
  titles v = Some ts -> descriptions v = Some ds -> (2 <= List.length ts)%nat ->
  tested_count v = Some n -> (Z.of_nat (List.length ts) <= n)%Z ->
  results v = Some rs -> rs <> [] ->
  find_prompt (id prompt) (catalog w) = Some stored ->
  succeeds 0 w -> succeeds 1 w -> succeeds 2 w -> succeeds 3 w ->
  exists best w1 w2 stored',
    startABTest prompt w = (Ok (Some (apply_best_variation (id prompt) best (now w))), w1) /\
    startABTest prompt w1 = (Ok (Some (apply_best_variation (id prompt) best (now w))), w2) /\
    requests w2 =
      requests w ++
      [Patch (id prompt) (content_patch (Some (r_title best)) (Some (r_description best)) None);
       Patch (id prompt) (content_patch (Some (r_title best)) (Some (r_description best)) None)] /\
    find_prompt (id prompt) (catalog w1) = Some stored' /\
    promptsForTesting [stored'] = map (fun _ => stored') (promptsForTesting [stored]).
Proof.
  intros Hl Ht Hd Hlen Hn Hall Hr Hne Hf H0 H1 H2 H3.
  destruct (sort_by_conversion_head rs Hne) as (best & rest & _ & _ & Hs & _).
  set (data := content_patch (Some (r_title best)) (Some (r_description best)) None).
  set (w1 := patched (id prompt) stored data (pop_fault w)).
  set (stored' := applyPatch stored data).
  destruct (pop_fault_fields w) as (Enow & Ecat & Evar & _ & Ereq & _).
  destruct (patched_fields (id prompt) stored data (pop_fault w)) as (Pnow & Preq & _ & Pcat).
  fold w1 in Pnow, Preq, Pcat.
  assert (Hf1 : find_prompt (id prompt) (catalog w1) = Some stored').
  { rewrite Pcat, Ecat. apply find_prompt_stored with (p := stored); [exact Hf |].
    simpl. apply (find_prompt_id _ _ _ Hf). }
  assert (Hl1 : lookup (id prompt) (variationStorage w1) = Some (Some v)).
  { unfold w1. rewrite patched_storage, Evar. exact Hl. }
  assert (S0 : succeeds 0 w1) by (apply succeeds_patched, succeeds_pop; exact H2).
  assert (S1 : succeeds 1 w1) by (apply succeeds_patched, succeeds_pop; exact H3).
  pose proof (startABTest_winner_run prompt stored v ts ds n rs rest best w
                Hl Ht Hd Hlen Hn Hall Hr Hs Hf H0 H1) as R1.
  pose proof (startABTest_winner_run prompt stored' v ts ds n rs rest best w1
                Hl1 Ht Hd Hlen Hn Hall Hr Hs Hf1 S0 S1) as R2.
  fold data in R1, R2. fold w1 in R1.
  exists best, w1, (patched (id prompt) stored' data (pop_fault w1)), stored'.
  split; [exact R1 |]. split; [rewrite R2, Pnow, Enow; reflexivity |].
  split; [| split; [exact Hf1 |]].
  - destruct (pop_fault_fields w1) as (_ & _ & _ & _ & Ereq1 & _).
    destruct (patched_fields (id prompt) stored' data (pop_fault w1)) as (_ & Preq1 & _).
    rewrite Preq1, Ereq1, Preq, Ereq, <- app_assoc. reflexivity.
  - unfold promptsForTesting. cbn [filter].
    change (total_views stored') with (total_views stored).
    change (currently_testing stored') with (currently_testing stored).
    change (conversion_rate stored') with (conversion_rate stored).
    destruct (JS.gt (total_views stored) minTestViews && negb (currently_testing stored)
              && JS.lt (conversion_rate stored) highConversionThreshold); reflexivity.
Qed.

Lemma winner_applied_again_witness :
  let p := listing "p" 50 (5 # 100) 0 150 false in
  let w := world_with [p] [] [("p"%string, Some finished_experiment)] [] in
  exists best w1 w2 stored',
    startABTest p w = (Ok (Some (apply_best_variation (id p) best (now w))), w1) /\
    startABTest p w1 = (Ok (Some (apply_best_variation (id p) best (now w))), w2) /\
    requests w2 =
      requests w ++
      [Patch (id p) (content_patch (Some (r_title best)) (Some (r_description best)) None);
       Patch (id p) (content_patch (Some (r_title best)) (Some (r_description best)) None)] /\
    find_prompt (id p) (catalog w1) = Some stored' /\
    promptsForTesting [stored'] = map (fun _ => stored') (promptsForTesting [p]).
Proof.
  intros p w.
  apply (winner_applied_again p p finished_experiment ["A"; "B"]%string ["a"; "b"]%string 2%Z
           [result_of "A" 5; result_of "B" 7; result_of "C" 7] w);
    try reflexivity.
  discriminate.
Defined.

(** ** Bundles *)


Lemma after_calls_catalog (n : nat) (w : World) : catalog (after_calls n w) = catalog w.
Proof.
  induction n as [| n IH]; [reflexivity |].
  unfold after_calls in *. simpl.
  destruct (pop_fault_fields (Nat.iter n pop_fault w)) as (_ & E & _).
  rewrite E. exact IH.
Qed.






Section BundleProperties.

Variable api_createBundle : Bundle -> M Bundle.


End BundleProperties.


(** The bundle of two listings priced 30 and 44 is priced 59. *)
Example createBundle_example :
  let a := listing "a" 30 (5 # 100) 0 150 false in
  let b := listing "b" 44 (5 # 100) 0 150 false in
  match fst (createBundle echo_bundle ["a"; "b"]%string None None (world [a; b] [])) with
  | Ok r => Some (b_name r, Qred (b_price r), Qred (original_price r))
  | Throw _ => None
  end = Some ("Bundle of 2 prompts"%string, 59, 74).
Proof. vm_compute. reflexivity. Qed.

(** ** The calendar *)

Lemma div4_succ (y : Z) :
  ((y - 1969 + 1) / 4 = (y - 1969) / 4 + (if y mod 4 =? 0 then 1 else 0))%Z.
Proof.
  destruct (y mod 4 =? 0)%Z eqn:E; rewrite ?Z.eqb_eq, ?Z.eqb_neq in E;
    Z.to_euclidean_division_equations; lia.
Qed.

Lemma div100_succ (y : Z) :
  ((y - 1901 + 1) / 100 = (y - 1901) / 100 + (if y mod 100 =? 0 then 1 else 0))%Z.
Proof.
  destruct (y mod 100 =? 0)%Z eqn:E; rewrite ?Z.eqb_eq, ?Z.eqb_neq in E;
    Z.to_euclidean_division_equations; lia.
Qed.

Lemma div400_succ (y : Z) :
  ((y - 1601 + 1) / 400 = (y - 1601) / 400 + (if y mod 400 =? 0 then 1 else 0))%Z.
Proof.
  destruct (y mod 400 =? 0)%Z eqn:E; rewrite ?Z.eqb_eq, ?Z.eqb_neq in E;
    Z.to_euclidean_division_equations; lia.
Qed.

Lemma mod100_mod4 (y : Z) : (y mod 100 = 0 -> y mod 4 = 0)%Z.
Proof.
  intro H. rewrite (Z.div_mod y 100) by lia. rewrite H, Z.add_0_r.
  replace (100 * (y / 100))%Z with (25 * (y / 100) * 4)%Z by lia. apply Z_mod_mult.
Qed.

Lemma mod400_mod100 (y : Z) : (y mod 400 = 0 -> y mod 100 = 0)%Z.
Proof.
  intro H. rewrite (Z.div_mod y 400) by lia. rewrite H, Z.add_0_r.
  replace (400 * (y / 400))%Z with (4 * (y / 400) * 100)%Z by lia. apply Z_mod_mult.
Qed.

(** A year has 366 days when it is a leap year, and 365 otherwise. *)
Lemma DayFromYear_succ (y : Z) :
  DayFromYear (y + 1) = (DayFromYear y + (if InLeapYear y then 366 else 365))%Z.
Proof.
  unfold DayFromYear, InLeapYear.
  replace (y + 1 - 1970)%Z with (y - 1970 + 1)%Z by lia.
  replace (y + 1 - 1969)%Z with (y - 1969 + 1)%Z by lia.
  replace (y + 1 - 1901)%Z with (y - 1901 + 1)%Z by lia.
  replace (y + 1 - 1601)%Z with (y - 1601 + 1)%Z by lia.
  rewrite div4_succ, div100_succ, div400_succ.
  destruct (y mod 4 =? 0)%Z eqn:E4; destruct (y mod 100 =? 0)%Z eqn:E100;
    destruct (y mod 400 =? 0)%Z eqn:E400; cbn [andb orb negb];
    rewrite ?Z.eqb_eq, ?Z.eqb_neq in *; try lia.
  all: try (apply mod100_mod4 in E100; lia).
  all: try (apply mod400_mod100 in E400; lia).
Qed.

Lemma DayFromYear_mono (a b : Z) :
  (a <= b)%Z -> (DayFromYear a + 365 * (b - a) <= DayFromYear b)%Z.
Proof. intro H. unfold DayFromYear. Z.to_euclidean_division_equations. lia. Qed.

Lemma DayFromYear_upper (a b : Z) :
  (a <= b)%Z -> (DayFromYear b <= DayFromYear a + 366 * (b - a))%Z.
Proof. intro H. unfold DayFromYear. Z.to_euclidean_division_equations. lia. Qed.

Lemma year_from_spec (fuel : nat) (y d : Z) :
  (DayFromYear y <= d)%Z -> (d - DayFromYear y < 365 * Z.of_nat fuel)%Z ->
  (DayFromYear (year_from fuel y d) <= d < DayFromYear (year_from fuel y d + 1))%Z.
Proof.
  revert y. induction fuel as [| fuel IH]; intros y Hlo Hhi.
  - simpl in Hhi. lia.
  - cbn [year_from]. destruct (DayFromYear (y + 1) <=? d)%Z eqn:E.
    + apply Z.leb_le in E. apply IH; [exact E |].
      pose proof (DayFromYear_mono y (y + 1)). lia.
    + apply Z.leb_gt in E. lia.
Qed.

Lemma start_year_below (d : Z) :
  (DayFromYear (1969 + (if 0 <=? d then d / 366 else d / 365)) <= d)%Z.
Proof.
  destruct (0 <=? d)%Z eqn:E; [apply Z.leb_le in E | apply Z.leb_gt in E].
  - pose proof (DayFromYear_upper 1969 (1969 + d / 366)) as H.
    change (DayFromYear 1969) with (-365)%Z in H.
    Z.to_euclidean_division_equations. lia.
  - pose proof (DayFromYear_mono (1969 + d / 365) 1969) as H.
    change (DayFromYear 1969) with (-365)%Z in H.
    Z.to_euclidean_division_equations. lia.
Qed.

(** The year of a day is the year the day falls in. *)
Lemma YearFromDay_spec (d : Z) :
  (DayFromYear (YearFromDay d) <= d < DayFromYear (YearFromDay d + 1))%Z.
Proof.
  unfold YearFromDay. pose proof (start_year_below d) as H.
  set (y0 := (1969 + (if 0 <=? d then d / 366 else d / 365))%Z) in *.
  apply year_from_spec; [exact H |].
  rewrite Z2Nat.id by (Z.to_euclidean_division_equations; lia).
  Z.to_euclidean_division_equations. lia.
Qed.

Lemma YearFromDay_unique (d y : Z) :
  (DayFromYear y <= d < DayFromYear (y + 1))%Z -> YearFromDay d = y.
Proof.
  intro H. pose proof (YearFromDay_spec d) as S.
  destruct (Z.lt_trichotomy (YearFromDay d) y) as [L | [E | G]]; [| exact E |].
  - pose proof (DayFromYear_mono (YearFromDay d + 1) y). lia.
  - pose proof (DayFromYear_mono (y + 1) (YearFromDay d)). lia.
Qed.

Ltac table_day :=
  match goal with
  | |- context [((?m - 1) / 12)%Z] =>
      let q := eval vm_compute in ((m - 1) / 12)%Z in
      change ((m - 1) / 12)%Z with q;
      let r := eval vm_compute in ((m - 1) mod 12)%Z in
      change ((m - 1) mod 12)%Z with r
  end;
  rewrite Z.add_0_r; destruct (InLeapYear _);
  match goal with
  | |- context [monthStart ?b ?r] =>
      let v := eval vm_compute in (monthStart b r) in
      change (monthStart b r) with v
  end; lia.

(** The day of an event of the table, in the year [y]. *)
Lemma MakeDay_event (e : SpecialEvent) (y : Z) :
  In e specialEvents ->
  exists k k' : Z,
    MakeDay y (ev_month e - 1) (ev_day e)
    = (DayFromYear y + (if InLeapYear y then k' else k))%Z /\
    (0 <= k)%Z /\ (k <= k' <= k + 1)%Z /\ (k' <= 364)%Z /\
    MonthFromDay false k = (ev_month e - 1)%Z /\
    MonthFromDay true k' = (ev_month e - 1)%Z /\
    (k - monthStart false (ev_month e - 1) + 1 = ev_day e)%Z /\
    (k' - monthStart true (ev_month e - 1) + 1 = ev_day e)%Z /\
    (0 < ev_duration e)%Z.
Proof.
  intro H. unfold specialEvents in H. simpl in H.
  destruct H as [<- | [<- | [<- | [<- | []]]]]; unfold MakeDay; cbn [ev_month ev_day ev_duration].
  - exists 171%Z, 172%Z. split; [table_day |]. repeat split; try lia; reflexivity.
  - exists 328%Z, 329%Z. split; [table_day |]. repeat split; try lia; reflexivity.
  - exists 331%Z, 332%Z. split; [table_day |]. repeat split; try lia; reflexivity.
  - exists 0%Z, 0%Z. split; [table_day |]. repeat split; try lia; reflexivity.
Qed.

Lemma localDay_midnight (utcOffset n : Z) : localDay utcOffset (n * msPerDay - utcOffset) = n.
Proof.
  unfold localDay. replace (n * msPerDay - utcOffset + utcOffset)%Z with (n * msPerDay)%Z by lia.
  apply Z.div_mul. discriminate.
Qed.

(** [setFullYear] moves the day of an event of the table to the same day of
    another year. *)
Lemma setFullYear_event (utcOffset : Z) (e : SpecialEvent) (y y' : Z) :
  In e specialEvents ->
  setFullYear utcOffset (MakeDay y (ev_month e - 1) (ev_day e) * msPerDay - utcOffset) y'
  = (MakeDay y' (ev_month e - 1) (ev_day e) * msPerDay - utcOffset)%Z.
Proof.
  intro He.
  destruct (MakeDay_event e y He) as (k & k' & E & Hk & Hk' & Hk364 & M & M' & D & D' & _).
  unfold setFullYear. rewrite localDay_midnight.
  replace (MakeDay y (ev_month e - 1) (ev_day e) * msPerDay - utcOffset + utcOffset)%Z
    with (MakeDay y (ev_month e - 1) (ev_day e) * msPerDay)%Z by lia.
  rewrite Z.mod_mul by discriminate.
  assert (Y : YearFromDay (MakeDay y (ev_month e - 1) (ev_day e)) = y).
  { apply YearFromDay_unique. rewrite E, DayFromYear_succ.
    destruct (InLeapYear y); lia. }
  rewrite Y, E.
  destruct (InLeapYear y).
  - replace (DayFromYear y + k' - DayFromYear y)%Z with k' by lia.
    rewrite M', D'. lia.
  - replace (DayFromYear y + k - DayFromYear y)%Z with k by lia.
    rewrite M, D. lia.
Qed.

(** The same day of the next year is 365 or 366 days later. *)
Lemma MakeDay_next_year (e : SpecialEvent) (y : Z) :
  In e specialEvents ->
  (MakeDay y (ev_month e - 1) (ev_day e) + 365
   <= MakeDay (y + 1) (ev_month e - 1) (ev_day e)
   <= MakeDay y (ev_month e - 1) (ev_day e) + 366)%Z.
Proof.
  intro He.
  destruct (MakeDay_event e y He) as (k & k' & E & Hk & Hk' & _ & M & M' & D & D' & _).
  destruct (MakeDay_event e (y + 1) He) as (j & j' & E1 & _ & Hj' & _ & _ & _ & D1 & D1' & _).
  assert (j = k) by lia. assert (j' = k') by lia. subst j j'.
  rewrite E, E1, DayFromYear_succ.
  destruct (InLeapYear y); destruct (InLeapYear (y + 1)); lia.
Qed.

Lemma Math_ceil_days (a : Z) :
  Qle_bool (Math_ceil (inject_Z a / inject_Z (1000 * 60 * 60 * 24))) 14
  = (a <=? 14 * msPerDay)%Z.
Proof.
  assert (E : inject_Z a / inject_Z (1000 * 60 * 60 * 24) == a # 86400000).
  { unfold Qdiv, Qinv, Qmult, Qeq, inject_Z. simpl. lia. }
  unfold Math_ceil.
  destruct (a <=? 14 * msPerDay)%Z eqn:H.
  - apply Z.leb_le in H. apply Qle_bool_iff.
    assert (L : inject_Z a / inject_Z (1000 * 60 * 60 * 24) <= 14).
    { rewrite E. unfold Qle. simpl. unfold msPerDay, msPerHour in H. lia. }
    apply Qceiling_resp_le in L. change (Qceiling 14) with 14%Z in L.
    unfold Qle. cbn [Qnum Qden inject_Z]. lia.
  - apply Z.leb_gt in H.
    destruct (Qle_bool _ 14) eqn:B; [| reflexivity].
    apply Qle_bool_iff in B.
    pose proof (Qle_ceiling (inject_Z a / inject_Z (1000 * 60 * 60 * 24))) as C.
    assert (L : inject_Z a / inject_Z (1000 * 60 * 60 * 24) <= 14)
      by (eapply Qle_trans; [exact C | exact B]).
    rewrite E in L. unfold Qle in L. simpl in L. unfold msPerDay, msPerHour in H. lia.
Qed.

(** ** Upcoming events *)

Lemma fold_left_nil {A B : Type} (f : A -> B -> A) (a : A) : fold_left f [] a = a.
Proof. reflexivity. Qed.

Lemma fold_left_cons {A B : Type} (f : A -> B -> A) (x : B) (l : list B) (a : A) :
  fold_left f (x :: l) a = fold_left f l (f a x).
Proof. reflexivity. Qed.

Lemma upcoming_cases (utcOffset today : Z) (acc : list UpcomingEvent) (e : SpecialEvent) :
  In e specialEvents ->
  exists u,
    event u = e /\
    (today <= startDate u)%Z /\
    ((startDate u + utcOffset) mod msPerDay = 0)%Z /\
    endDate u = (startDate u + ev_duration e * msPerHour)%Z /\
    (startDate u < endDate u)%Z /\
    ((startDate u = this_year utcOffset today e /\ (this_year utcOffset today e >= today)%Z) \/
     ((this_year utcOffset today e < today)%Z /\
      (this_year utcOffset today e + 365 * msPerDay <= startDate u)%Z)) /\
    upcoming utcOffset today acc e =
      if (startDate u - today <=? 14 * msPerDay)%Z then acc ++ [u] else acc.
Proof.
  intro He. unfold upcoming, this_year, new_Date.
  set (y := getFullYear utcOffset today).
  set (y' := if (0 <=? y)%Z && (y <=? 99)%Z then (1900 + y)%Z else y).
  set (m := (ev_month e - 1)%Z). set (d := ev_day e).
  destruct (MakeDay_event e y' He) as (k & _ & _ & Hk & _ & _ & _ & _ & _ & _ & Hdur).
  pose proof (YearFromDay_spec (localDay utcOffset today)) as Hy. fold (getFullYear utcOffset today) in Hy.
  fold y in Hy.
  assert (Hday : (1 <= msPerDay)%Z) by (unfold msPerDay, msPerHour; lia).
  assert (Htoday : (today + utcOffset < (localDay utcOffset today + 1) * msPerDay)%Z).
  { unfold localDay. pose proof (Z.mod_pos_bound (today + utcOffset) msPerDay).
    pose proof (Z.div_mod (today + utcOffset) msPerDay). lia. }
  assert (Hmid : forall n, ((n * msPerDay - utcOffset + utcOffset) mod msPerDay = 0)%Z).
  { intro n. replace (n * msPerDay - utcOffset + utcOffset)%Z with (n * msPerDay)%Z by lia.
    apply Z.mod_mul. lia. }
  assert (Hend : forall s, (s < s + ev_duration e * msPerHour)%Z)
    by (intro s; unfold msPerHour; lia).
  destruct (MakeDay y' m d * msPerDay - utcOffset <? today)%Z eqn:Eroll.
  - apply Z.ltb_lt in Eroll.
    unfold m, d. rewrite (setFullYear_event utcOffset e y' (y + 1) He). fold m d.
    destruct (MakeDay_event e (y + 1) He) as (j & j' & Ej & Hj & Hj' & _).
    fold m d in Ej.
    assert (Hstart : (DayFromYear (y + 1) <= MakeDay (y + 1) m d)%Z)
      by (rewrite Ej; destruct (InLeapYear (y + 1)); lia).
    assert (Hyy : y' = y).
    { unfold y'. destruct ((0 <=? y)%Z && (y <=? 99)%Z) eqn:Ey; [| reflexivity].
      exfalso. apply andb_prop in Ey. destruct Ey as [E0 E99].
      apply Z.leb_le in E0, E99.
      destruct (MakeDay_event e (1900 + y) He) as (i & i' & Ei & Hi & Hi' & _).
      fold m d in Ei.
      assert (Ey' : y' = (1900 + y)%Z)
        by (unfold y'; destruct (0 <=? y)%Z, (y <=? 99)%Z; try reflexivity; lia).
      rewrite Ey', Ei in Eroll.
      pose proof (DayFromYear_mono (y + 1) (1900 + y)) as Hm.
      assert (Hge : (DayFromYear (y + 1) <= DayFromYear (1900 + y) + (if InLeapYear (1900 + y) then i' else i))%Z)
        by (destruct (InLeapYear (1900 + y)); lia).
      unfold msPerDay, msPerHour in *. lia. }
    exists {| event := e;
              startDate := (MakeDay (y + 1) m d * msPerDay - utcOffset)%Z;
              endDate := (MakeDay (y + 1) m d * msPerDay - utcOffset
                          + ev_duration e * 60 * 60 * 1000)%Z;
              daysUntilEvent :=
                Math_ceil (inject_Z (MakeDay (y + 1) m d * msPerDay - utcOffset - today)
                           / inject_Z (1000 * 60 * 60 * 24)) |}.
    cbn [event startDate endDate].
    split; [reflexivity |]. split; [unfold msPerDay, msPerHour in *; lia |]. split; [apply Hmid |].
    split; [unfold msPerHour; f_equal; lia |].
    split; [rewrite <- Z.mul_assoc, <- Z.mul_assoc; apply Hend |].
    split.
    + right. split; [exact Eroll |].
      rewrite Hyy. pose proof (MakeDay_next_year e y He) as Hn. fold m d in Hn. unfold msPerDay, msPerHour in *. lia.
    + rewrite Math_ceil_days. reflexivity.
  - apply Z.ltb_ge in Eroll.
    exists {| event := e;
              startDate := (MakeDay y' m d * msPerDay - utcOffset)%Z;
              endDate := (MakeDay y' m d * msPerDay - utcOffset
                          + ev_duration e * 60 * 60 * 1000)%Z;
              daysUntilEvent :=
                Math_ceil (inject_Z (MakeDay y' m d * msPerDay - utcOffset - today)
                           / inject_Z (1000 * 60 * 60 * 24)) |}.
    cbn [event startDate endDate].
    split; [reflexivity |]. split; [exact Eroll |]. split; [apply Hmid |].
    split; [unfold msPerHour; f_equal; lia |].
    split; [rewrite <- Z.mul_assoc, <- Z.mul_assoc; apply Hend |].
    split.
    + left. split; [reflexivity | lia].
    + rewrite Math_ceil_days. reflexivity.
Qed.

Lemma upcoming_loop (utcOffset today : Z) (l : list SpecialEvent) :
  (forall e, In e l -> In e specialEvents) ->
  forall acc r,
    r = fold_left (upcoming utcOffset today) l acc ->
    (List.length r <= List.length acc + List.length l)%nat /\
    (forall u, In u acc -> In u r) /\
    (forall u, In u r -> In u acc \/ (In (event u) l /\ well_dated utcOffset today u)) /\
    (forall e, In e l ->
       (today <= this_year utcOffset today e <= today + 14 * msPerDay)%Z ->
       In e (map event r)).
Proof.
  induction l as [| e l IH]; intros Hl acc r Hr.
  - rewrite fold_left_nil in Hr. subst r.
    split; [cbn [List.length]; lia |]. split; [auto |]. split; [auto |].
    intros e [].
  - rewrite fold_left_cons in Hr.
    destruct (upcoming_cases utcOffset today acc e (Hl e (or_introl eq_refl)))
      as (u0 & Eu & Hge & Hmid & Hend & Hlt & Hyear & Hstep).
    rewrite Hstep in Hr.
    assert (Hl' : forall x, In x l -> In x specialEvents) by (intros x Hx; apply Hl; right; exact Hx).
    destruct (startDate u0 - today <=? 14 * msPerDay)%Z eqn:E14;
      [apply Z.leb_le in E14 | apply Z.leb_gt in E14].
    + destruct (IH Hl' (acc ++ [u0]) r Hr) as (Hlen & Hkeep & Hin & Hall).
      rewrite length_app in Hlen. cbn [List.length] in Hlen |- *.
      split; [lia |]. split; [intros u Hu; apply Hkeep, in_or_app; left; exact Hu |].
      split.
      * intros u Hu. destruct (Hin u Hu) as [Hacc | [Hev Hw]].
        -- apply in_app_or in Hacc. destruct Hacc as [Hacc | [<- | []]]; [left; exact Hacc |].
           right. split; [left; symmetry; exact Eu |].
           unfold well_dated. rewrite Eu.
           split; [lia |]. split; [exact Hmid |]. split; [exact Hend |]. split; [exact Hlt |].
           destruct Hyear as [[H1 _] | [_ H2]]; [left; exact H1 | right; exact H2].
        -- right. split; [right; exact Hev | exact Hw].
      * intros x [<- | Hx] Hx14.
        -- apply in_map_iff. exists u0. split; [exact Eu |].
           apply Hkeep, in_or_app. right. left. reflexivity.
        -- apply (Hall x Hx Hx14).
    + destruct (IH Hl' acc r Hr) as (Hlen & Hkeep & Hin & Hall).
      cbn [List.length]. split; [lia |]. split; [exact Hkeep |].
      split.
      * intros u Hu. destruct (Hin u Hu) as [Hacc | [Hev Hw]]; [left; exact Hacc |].
        right. split; [right; exact Hev | exact Hw].
      * intros x [<- | Hx] Hx14; [| apply (Hall x Hx Hx14)].
        destruct Hyear as [[H1 _] | [H2 _]]; lia.
Qed.

Lemma checkUpcomingSpecialEvents_unfold (utcOffset today : Z) :
  checkUpcomingSpecialEvents utcOffset today
  = fold_left (upcoming utcOffset today) specialEvents [].
Proof. reflexivity. Qed.

(** X19.  [checkUpcomingSpecialEvents] at any instant, in a time zone at a
    constant offset from UTC (no daylight saving time), whatever the offset.
    At most four events are upcoming, each an event of the table, beginning
    at a local midnight from now to 14 days from now and ending after its
    duration.  An event whose day of this year begins within the next 14 days
    is upcoming.  An event whose day of this year has begun, were it a
    millisecond ago, is no longer upcoming, and is not for the next 350
    days. *)
Theorem checkUpcomingSpecialEvents_window (utcOffset today : Z) :
  let upcomingEvents := checkUpcomingSpecialEvents utcOffset today in
  (List.length upcomingEvents <= 4)%nat /\
  (forall u, In u upcomingEvents ->
     In (event u) specialEvents /\ well_dated utcOffset today u) /\
  (forall e, In e specialEvents ->
     (today <= this_year utcOffset today e <= today + 14 * msPerDay)%Z ->
     In e (map event upcomingEvents)) /\
  (forall e, In e specialEvents ->
     (this_year utcOffset today e < today <= this_year utcOffset today e + 350 * msPerDay)%Z ->
     ~ In e (map event upcomingEvents)).
Proof.
  intro upcomingEvents.
  destruct (upcoming_loop utcOffset today specialEvents (fun e H => H) [] upcomingEvents
              (checkUpcomingSpecialEvents_unfold utcOffset today))
    as (Hlen & _ & Hin & Hall).
  split; [exact Hlen |]. split; [| split; [exact Hall |]].
  - intros u Hu. destruct (Hin u Hu) as [[] | H]. exact H.
  - intros e He Hpast Hlisted.
    apply in_map_iff in Hlisted. destruct Hlisted as (u & <- & Hu).
    destruct (Hin u Hu) as [[] | [_ (Hwin & _ & _ & _ & Hyear)]].
    unfold msPerDay, msPerHour in *. lia.
Qed.

Lemma checkUpcomingSpecialEvents_window_witness :
  let summer :=
    {| ev_name := "Summer Sale"; ev_month := 6; ev_day := 21; ev_duration := 7 * 24 |} in
  In summer (map event (checkUpcomingSpecialEvents 0 1749556800000)) /\
  ~ In summer (map event (checkUpcomingSpecialEvents 0 1750464000001)).
Proof.
  intro summer. split.
  - apply (proj1 (proj2 (proj2 (checkUpcomingSpecialEvents_window 0 1749556800000))) summer).
    + left. reflexivity.
    + vm_compute. split; discriminate.
  - apply (proj2 (proj2 (proj2 (checkUpcomingSpecialEvents_window 0 1750464000001))) summer).
    + left. reflexivity.
    + vm_compute. split; [reflexivity | discriminate].
Defined.

(** The tenth of June 2025 at noon, the day of the summer sale a millisecond
    after midnight, and the 26th of December, an hour east of Greenwich. *)
Example checkUpcomingSpecialEvents_examples :
  map (fun u => (ev_name (event u), startDate u, daysUntilEvent u))
      (checkUpcomingSpecialEvents 0 1749556800000)
  = [("Summer Sale"%string, 1750464000000%Z, 11)] /\
  checkUpcomingSpecialEvents 0 1750464000001 = [] /\
  map (fun u => (ev_name (event u), startDate u, daysUntilEvent u))
      (checkUpcomingSpecialEvents 3600000 1766707200000)
  = [("New Year Sale"%string, 1767222000000%Z, 6)].
Proof. vm_compute. repeat split. Qed.

(** ** Dynamic promotions *)

Lemma same_view_refl (w : World) : same_view w w.
Proof. repeat split. Qed.

Lemma same_view_trans (w w1 w2 : World) : same_view w w1 -> same_view w1 w2 -> same_view w w2.
Proof. unfold same_view. intros (A1 & B1 & C1) (A2 & B2 & C2). repeat split; congruence. Qed.

Lemma same_view_pop (w : World) : same_view w (pop_fault w).
Proof. destruct (pop_fault_fields w) as (A & B & _ & _ & _ & C). repeat split; assumption. Qed.

Lemma getPrompts_cases (w w' : World) (r : Result (list Prompt)) :
  getPrompts w = (r, w') ->
  w' = pop_fault w /\ (r = Ok (catalog w) \/ r = Throw "Network Error"%string).
Proof.
  unfold getPrompts, try_catch, bind, remote, throw, pop_fault.
  destruct (faults w) as [| [] f]; simpl; intro H; inversion H; subst; auto.
Qed.

Lemma schedulePromotion_cases (p : Promotion) (w w' : World) (r : Result Promotion) :
  schedulePromotion p w = (r, w') ->
  w' = pop_fault w /\ (r = Ok p \/ r = Throw "Network Error"%string).
Proof.
  unfold schedulePromotion, try_catch, bind, remote, throw, pop_fault, ret.
  destruct (faults w) as [| [] f]; simpl; intro H; inversion H; subst; auto.
Qed.

Lemma selected_available (shuffle : list Prompt -> list Prompt) (prompts : list Prompt)
    (count : nat) (p : Prompt) :
  (forall l, Permutation l (shuffle l)) ->
  In p (selectPromptsForPromotion shuffle prompts count) ->
  In p (filter (fun q => negb (on_promotion q)) prompts).
Proof.
  intros Hperm. unfold selectPromptsForPromotion.
  destruct (_ <=? count)%nat; [auto |].
  intro H. apply In_firstn in H.
  apply (Permutation_in _ (Permutation_sym (Hperm _))) in H. exact H.
Qed.

Lemma selected_length (shuffle : list Prompt -> list Prompt) (prompts : list Prompt)
    (count : nat) :
  (List.length (selectPromptsForPromotion shuffle prompts count) <= count)%nat.
Proof.
  unfold selectPromptsForPromotion.
  destruct (_ <=? count)%nat eqn:E; [apply Nat.leb_le in E; exact E |].
  unfold JS.slice0. rewrite length_firstn. lia.
Qed.

Lemma selected_all (shuffle : list Prompt -> list Prompt) (prompts : list Prompt) :
  selectPromptsForPromotion shuffle prompts (List.length prompts)
  = filter (fun q => negb (on_promotion q)) prompts.
Proof.
  unfold selectPromptsForPromotion.
  destruct (_ <=? _)%nat eqn:E; [reflexivity |].
  apply Nat.leb_gt in E. pose proof (filter_length_le (fun q => negb (on_promotion q)) prompts).
  lia.
Qed.

Lemma dayName_valid (utcOffset t : Z) : indexOf days (dayName utcOffset t) <> (-1)%Z.
Proof.
  unfold dayName. pose proof (getDay_range utcOffset t) as H.
  set (g := getDay utcOffset t) in *.
  assert (C : (g = 0 \/ g = 1 \/ g = 2 \/ g = 3 \/ g = 4 \/ g = 5 \/ g = 6)%Z) by lia.
  destruct C as [-> | [-> | [-> | [-> | [-> | [-> | ->]]]]]]; vm_compute; discriminate.
Qed.

(** The periods of low activity are hours of days of the week. *)
Lemma period_valid (utcOffset : Z) (analytics : list DataPoint) (e : Entry) :
  In e (findLowActivityPeriods utcOffset analytics) ->
  indexOf days (day e) <> (-1)%Z /\ (0 <= hour e < 24)%Z.
Proof.
  unfold findLowActivityPeriods, JS.slice0. intro H.
  apply In_firstn in H.
  apply (Permutation_in _ (Permutation_sym (sort_perm _ _))) in H.
  apply filter_In in H. destruct H as [H _].
  apply in_map_iff in H. destruct H as (e0 & <- & H0).
  destruct (bucket_bucketed utcOffset analytics) as (_ & Hc & _).
  destruct (Hc e0 H0) as ((Hne & _) & _).
  destruct (points_of utcOffset (day e0) (hour e0) analytics) as [| dp l] eqn:E; [contradiction |].
  assert (Hdp : In dp (points_of utcOffset (day e0) (hour e0) analytics))
    by (rewrite E; left; reflexivity).
  apply filter_In in Hdp. destruct Hdp as [_ Hb].
  apply in_bucket_true in Hb. injection Hb as Hd Hh.
  cbn [set_average day hour]. rewrite <- Hd, <- Hh.
  split; [apply dayName_valid |].
  pose proof (getHours_range utcOffset (dp_timestamp dp)). lia.
Qed.

Lemma getNextOccurrence_on_the_hour (utcOffset : Z) (day : string) (hour today : Z) :
  ((getNextOccurrence utcOffset day hour today + utcOffset) mod msPerHour = 0)%Z.
Proof.
  unfold getNextOccurrence.
  destruct (indexOf days day =? -1)%Z; apply setHours_on_the_hour.
Qed.

Lemma getNextOccurrence_future (utcOffset : Z) (day : string) (hour today : Z) :
  indexOf days day <> (-1)%Z -> (0 <= hour < 24)%Z ->
  (today < getNextOccurrence utcOffset day hour today)%Z.
Proof.
  intros Hd Hh. apply (after_the_day utcOffset).
  pose proof (getNextOccurrence_after_today utcOffset day hour today Hd Hh). lia.
Qed.

(** A loop whose rounds never throw, only read, and add nothing or one element
    to the list. *)
Lemma for_of_gathers {A B : Type} (w0 : World) (P : B -> Prop) (Q : A -> Prop)
    (body : A -> list B -> M (list B)) :
  (forall x acc w, Q x -> same_view w0 w ->
     exists r w', body x acc w = (Ok r, w') /\ same_view w0 w' /\
                  (r = acc \/ exists b, r = acc ++ [b] /\ P b)) ->
  forall l acc w, Forall Q l -> same_view w0 w ->
    exists new w', for_of l body acc w = (Ok (acc ++ new), w') /\ same_view w0 w' /\
                   (List.length new <= List.length l)%nat /\ Forall P new.
Proof.
  intros Hbody l. induction l as [| x l IH]; intros acc w HQ Hw.
  - exists [], w. rewrite app_nil_r. repeat split; auto. apply Hw. apply Hw. apply Hw.
  - inversion HQ as [| x' l' Hx Hl]; subst.
    destruct (Hbody x acc w Hx Hw) as (r & w1 & E & Hw1 & Hr).
    destruct (IH r w1 Hl Hw1) as (new & w' & E' & Hw' & Hlen & HP).
    cbn [for_of]. unfold bind. rewrite E, E'.
    destruct Hr as [-> | (b & -> & Hb)].
    + exists new, w'. repeat split; try apply Hw'; [cbn [List.length]; lia | exact HP].
    + exists (b :: new), w'. rewrite <- app_assoc.
      repeat split; try apply Hw'; [cbn [List.length]; lia | constructor; assumption].
Qed.

Lemma flash_round (utcOffset : Z) (shuffle : nat -> list Prompt -> list Prompt)
    (w0 : World) (x : nat * Entry) (acc : list Promotion) (w : World) :
  (forall k l, Permutation l (shuffle k l)) ->
  indexOf days (day (snd x)) <> (-1)%Z /\ (0 <= hour (snd x) < 24)%Z ->
  same_view w0 w ->
  exists r w',
    flash_promotion utcOffset shuffle (catalog w0) x acc w = (Ok r, w') /\
    same_view w0 w' /\
    (r = acc \/ exists b, r = acc ++ [b] /\ flash_sale utcOffset w0 b).
Proof.
  intros Hperm [Hday Hhour] Hw. destruct x as [k period]. cbn [snd] in Hday, Hhour.
  unfold flash_promotion, try_catch.
  set (selectedPrompts := selectPromptsForPromotion (shuffle k) (catalog w0) 3).
  destruct (List.length selectedPrompts =? 0)%nat eqn:E0.
  - exists acc, w. split; [reflexivity |]. split; [exact Hw | left; reflexivity].
  - apply Nat.eqb_neq in E0. unfold bind at 1. unfold Date_now.
    set (promotion := {| pr_name := _ |}).
    unfold bind.
    destruct (schedulePromotion promotion w) as [r w1] eqn:Es.
    destruct (schedulePromotion_cases promotion w w1 r Es) as [-> [-> | ->]].
    + exists (acc ++ [promotion]), (pop_fault w).
      split; [reflexivity |].
      split; [exact (same_view_trans _ _ _ Hw (same_view_pop w)) |].
      right. exists promotion. split; [reflexivity |].
      destruct Hw as (Hnow & _).
      unfold flash_sale, promotion. cbn [discount_percentage start_time end_time pr_prompt_ids].
      split; [reflexivity |].
      split; [rewrite <- Hnow; apply getNextOccurrence_future; assumption |].
      split; [apply getNextOccurrence_on_the_hour |].
      split; [unfold msPerHour; lia |].
      rewrite length_map.
      split; [pose proof (selected_length (shuffle k) (catalog w0) 3);
              fold selectedPrompts in H; lia |].
      intros i Hi. apply in_map_iff in Hi. destruct Hi as (q & <- & Hq).
      apply in_map. apply (selected_available (shuffle k) (catalog w0) 3 q (Hperm k) Hq).
    + exists acc, (pop_fault w). split; [reflexivity |].
      split; [exact (same_view_trans _ _ _ Hw (same_view_pop w)) | left; reflexivity].
Qed.

Lemma event_round (utcOffset : Z) (shuffle : nat -> list Prompt -> list Prompt)
    (w0 : World) (x : nat * UpcomingEvent) (acc : list Promotion) (w : World) :
  well_dated utcOffset (now w0) (snd x) ->
  same_view w0 w ->
  exists r w',
    event_promotion shuffle (catalog w0) x acc w = (Ok r, w') /\
    same_view w0 w' /\
    (r = acc \/ exists b, r = acc ++ [b] /\ event_sale utcOffset w0 b).
Proof.
  intros Hwd Hw. destruct x as [k u]. cbn [snd] in Hwd.
  unfold event_promotion, try_catch.
  rewrite selected_all. fold (available w0).
  destruct (List.length (available w0) =? 0)%nat eqn:E0.
  - exists acc, w. split; [reflexivity |]. split; [exact Hw | left; reflexivity].
  - apply Nat.eqb_neq in E0.
    set (promotion := {| pr_name := _ |}).
    unfold bind.
    destruct (schedulePromotion promotion w) as [r w1] eqn:Es.
    destruct (schedulePromotion_cases promotion w w1 r Es) as [-> [-> | ->]].
    + exists (acc ++ [promotion]), (pop_fault w).
      split; [reflexivity |].
      split; [exact (same_view_trans _ _ _ Hw (same_view_pop w)) |].
      right. exists promotion. split; [reflexivity |].
      destruct Hwd as (Hwin & Hmid & _ & Hlt & _).
      unfold event_sale, promotion. cbn [discount_percentage start_time end_time pr_prompt_ids].
      split; [reflexivity |]. split; [exact Hwin |]. split; [exact Hmid |].
      split; [exact Hlt |]. split; [reflexivity |].
      intro Hnil. apply (f_equal (@List.length string)) in Hnil.
      rewrite length_map in Hnil. cbn [List.length] in Hnil. lia.
    + exists acc, (pop_fault w). split; [reflexivity |].
      split; [exact (same_view_trans _ _ _ Hw (same_view_pop w)) | left; reflexivity].
Qed.

Lemma indexed_snd {A : Type} (n : nat) (l : list A) (x : nat * A) :
  In x (indexed n l) -> In (snd x) l.
Proof. destruct x as [k a]. unfold indexed. intro H. apply in_combine_r in H. exact H. Qed.

Lemma indexed_length {A : Type} (n : nat) (l : list A) :
  List.length (indexed n l) = List.length l.
Proof. unfold indexed. rewrite length_combine, length_seq. lia. Qed.

Lemma bind_run {A B : Type} (c : M A) (k : A -> M B) (w w1 : World) (a : A) :
  c w = (Ok a, w1) -> bind c k w = k a w1.
Proof. intro H. unfold bind. rewrite H. reflexivity. Qed.

Lemma bind_throws {A B : Type} (c : M A) (k : A -> M B) (w w1 : World) (e : string) :
  c w = (Throw e, w1) -> bind c k w = (Throw e, w1).
Proof. intro H. unfold bind. rewrite H. reflexivity. Qed.

Lemma try_catch_run {A : Type} (c : M A) (h : string -> M A) (w w1 : World) (a : A) :
  c w = (Ok a, w1) -> try_catch c h w = (Ok a, w1).
Proof. intro H. unfold try_catch. rewrite H. reflexivity. Qed.

Lemma try_catch_handles {A : Type} (c : M A) (h : string -> M A) (w w1 : World) (e : string) :
  c w = (Throw e, w1) -> try_catch c h w = h e w1.
Proof. intro H. unfold try_catch. rewrite H. reflexivity. Qed.

Lemma sendNotification_run (n : Notification) (w : World) :
  sendNotification n w = (Ok true, add_notification n w).
Proof. reflexivity. Qed.

(** X20.  [setupDynamicPromotions], for shuffles that permute and an analytics
    service that only reads.  It never throws.  It returns the promotions the
    server registered: first at most three flash sales, then at most four
    sales of events; a flash sale is at 25%, on one to three listings that are
    not on promotion, for three hours from an hour sharp that is still to
    come; the sale of an event is at 30%, on all the listings that are not on
    promotion, from a local midnight of the next 14 days.  No listing is
    changed.  One notification of type info is sent when a promotion was
    registered; when none was, nothing is sent, or one notification of type
    error is. *)
Theorem setupDynamicPromotions_promotions (utcOffset : Z)
    (shuffle : nat -> list Prompt -> list Prompt)
    (getHourlyAnalytics : Z -> M (list DataPoint)) (w : World) :
  (forall k l, Permutation l (shuffle k l)) ->
  reads_only (getHourlyAnalytics 7%Z) ->
  exists flash events w',
    setupDynamicPromotions utcOffset shuffle getHourlyAnalytics w
    = (Ok (flash ++ events), w') /\
    (List.length flash <= 3)%nat /\ Forall (flash_sale utcOffset w) flash /\
    (List.length events <= 4)%nat /\ Forall (event_sale utcOffset w) events /\
    catalog w' = catalog w /\
    (flash ++ events <> [] ->
     exists n, outbox w' = outbox w ++ [n] /\ n_type n = t_info) /\
    (flash ++ events = [] ->
     outbox w' = outbox w \/
     exists n, outbox w' = outbox w ++ [n] /\ n_type n = t_error).
Proof.
  intros Hperm Hread.
  assert (Hfail : forall e w1,
            same_view w w1 ->
            exists n, (sendNotification
                         {| n_type := t_error;
                            subject := "Erreur de configuration des promotions";
                            message := "Une erreur est survenue lors de la configuration des promotions: "
                                       ++ e;
                            attachment := None |} ;;; ret []) w1
                      = (Ok (@nil Promotion), add_notification n w1) /\ n_type n = t_error).
  { intros e w1 _. eexists. split; reflexivity. }
  unfold setupDynamicPromotions.
  match goal with |- context [try_catch ?c ?h] => set (body := c); set (handler := h) end.
  destruct (getHourlyAnalytics 7%Z w) as [[hourlyAnalytics | e] w1] eqn:Ea;
    pose proof (Hread _ _ _ Ea) as V1.
  2: { (* the analytics fail *)
    assert (Eb : body w = (Throw e, w1)) by (unfold body; apply bind_throws; exact Ea).
    rewrite (try_catch_handles _ _ _ _ _ Eb). unfold handler.
    destruct (Hfail e w1 V1) as (n & En & Hn). rewrite En.
    exists [], [], (add_notification n w1). cbn [app List.length].
    destruct V1 as (_ & Vc & Vo).
    split; [reflexivity |]. split; [lia |]. split; [constructor |].
    split; [lia |]. split; [constructor |]. split; [exact Vc |].
    split; [intro C; contradiction |].
    intros _. right. exists n. cbn [outbox add_notification]. rewrite Vo. split; [reflexivity | exact Hn]. }
  destruct (getPrompts w1) as [r w2] eqn:Eg.
  destruct (getPrompts_cases w1 w2 r Eg) as [-> [-> | ->]].
  2: { (* the listings cannot be fetched *)
    assert (V2 : same_view w (pop_fault w1)) by (exact (same_view_trans _ _ _ V1 (same_view_pop w1))).
    assert (Eb : body w = (Throw "Network Error"%string, pop_fault w1)).
    { unfold body. rewrite (bind_run _ _ _ _ _ Ea). apply bind_throws. exact Eg. }
    rewrite (try_catch_handles _ _ _ _ _ Eb). unfold handler.
    destruct (Hfail "Network Error"%string (pop_fault w1) V2) as (n & En & Hn). rewrite En.
    exists [], [], (add_notification n (pop_fault w1)). cbn [app List.length].
    destruct V2 as (_ & Vc & Vo).
    split; [reflexivity |]. split; [lia |]. split; [constructor |].
    split; [lia |]. split; [constructor |]. split; [exact Vc |].
    split; [intro C; contradiction |].
    intros _. right. exists n. cbn [outbox add_notification]. rewrite Vo. split; [reflexivity | exact Hn]. }
  assert (V2 : same_view w (pop_fault w1)) by (exact (same_view_trans _ _ _ V1 (same_view_pop w1))).
  assert (Ec : catalog w1 = catalog w) by apply V1.
  rewrite Ec in Eg.
  set (periods := JS.slice0 3 (findLowActivityPeriods utcOffset hourlyAnalytics)).
  (* the flash sales *)
  destruct (for_of_gathers w (flash_sale utcOffset w)
              (fun x => indexOf days (day (snd x)) <> (-1)%Z /\ (0 <= hour (snd x) < 24)%Z)
              (flash_promotion utcOffset shuffle (catalog w))
              (fun x acc w' Hx Hw' => flash_round utcOffset shuffle w x acc w' Hperm Hx Hw')
              (indexed 0 periods) [] (pop_fault w1))
    as (flash & w3 & E1 & V3 & L1 & F1).
  { apply Forall_forall. intros x Hx. apply indexed_snd in Hx.
    unfold periods, JS.slice0 in Hx. apply In_firstn in Hx.
    apply (period_valid utcOffset hourlyAnalytics). exact Hx. }
  { exact V2. }
  cbn [app] in E1.
  rewrite indexed_length in L1.
  assert (L1' : (List.length flash <= 3)%nat).
  { unfold periods, JS.slice0 in L1. rewrite length_firstn in L1. lia. }
  (* the sales of the events *)
  set (upcomingEvents := checkUpcomingSpecialEvents utcOffset (now w)).
  destruct (upcoming_loop utcOffset (now w) specialEvents (fun e H => H) [] upcomingEvents
              (checkUpcomingSpecialEvents_unfold utcOffset (now w)))
    as (Lu & _ & Hu & _).
  destruct (for_of_gathers w (event_sale utcOffset w)
              (fun x => well_dated utcOffset (now w) (snd x))
              (event_promotion shuffle (catalog w))
              (fun x acc w' Hx Hw' => event_round utcOffset shuffle w x acc w' Hx Hw')
              (indexed 3 upcomingEvents) flash w3)
    as (events & w4 & E2 & V4 & L2 & F2).
  { apply Forall_forall. intros x Hx. apply indexed_snd in Hx.
    destruct (Hu _ Hx) as [[] | [_ Hwd]]. exact Hwd. }
  { exact V3. }
  rewrite indexed_length in L2.
  change (List.length (@nil UpcomingEvent) + List.length specialEvents)%nat with 4%nat in Lu.
  assert (E3 : now w3 = now w) by apply V3.
  exists flash, events.
  destruct (0 <? List.length (flash ++ events))%nat eqn:E0.
  - eexists (add_notification _ w4).
    assert (Eb : body w = (Ok (flash ++ events), add_notification
              {| n_type := t_info;
                 subject := "Promotions programmées";
                 message := JS.toString (List.length (flash ++ events))
                            ++ " promotions ont été configurées automatiquement.";
                 attachment := None |} w4)).
    { unfold body. rewrite (bind_run _ _ _ _ _ Ea). cbv beta.
      rewrite (bind_run _ _ _ _ _ Eg). cbv beta. fold periods.
      rewrite (bind_run _ _ _ _ _ E1). cbv beta.
      unfold bind at 1. unfold Date_now. rewrite E3. fold upcomingEvents.
      rewrite (bind_run _ _ _ _ _ E2). cbv beta.
      rewrite E0. reflexivity. }
    rewrite (try_catch_run _ _ _ _ _ Eb).
    destruct V4 as (_ & Vc & Vo).
    split; [reflexivity |]. split; [exact L1' |]. split; [exact F1 |].
    split; [lia |]. split; [exact F2 |]. split; [exact Vc |].
    split.
    + intros _. eexists. cbn [outbox add_notification]. rewrite Vo. split; reflexivity.
    + intro C. rewrite C in E0. discriminate.
  - exists w4.
    assert (Eb : body w = (Ok (flash ++ events), w4)).
    { unfold body. rewrite (bind_run _ _ _ _ _ Ea). cbv beta.
      rewrite (bind_run _ _ _ _ _ Eg). cbv beta. fold periods.
      rewrite (bind_run _ _ _ _ _ E1). cbv beta.
      unfold bind at 1. unfold Date_now. rewrite E3. fold upcomingEvents.
      rewrite (bind_run _ _ _ _ _ E2). cbv beta.
      rewrite E0. reflexivity. }
    rewrite (try_catch_run _ _ _ _ _ Eb).
    destruct V4 as (_ & Vc & Vo).
    split; [reflexivity |]. split; [exact L1' |]. split; [exact F1 |].
    split; [lia |]. split; [exact F2 |]. split; [exact Vc |].
    split.
    + intro C. apply Nat.ltb_ge in E0. destruct (flash ++ events); [contradiction |].
      cbn [List.length] in E0. lia.
    + intros _. left. exact Vo.
Qed.

Lemma setupDynamicPromotions_promotions_witness :
  let w := world [listing "a" 50 (5 # 100) 0 150 false; promoted "b" 40] [] in
  let analytics :=
    analytics_of [{| dp_timestamp := 28800000; dp_visits := Some 3 |}] in
  exists flash events w',
    setupDynamicPromotions 0 reversing analytics w = (Ok (flash ++ events), w') /\
    (List.length flash <= 3)%nat /\ Forall (flash_sale 0 w) flash /\
    (List.length events <= 4)%nat /\ Forall (event_sale 0 w) events /\
    catalog w' = catalog w /\
    (flash ++ events <> [] ->
     exists n, outbox w' = outbox w ++ [n] /\ n_type n = t_info) /\
    (flash ++ events = [] ->
     outbox w' = outbox w \/
     exists n, outbox w' = outbox w ++ [n] /\ n_type n = t_error).
Proof.
  intros w analytics.
  apply (setupDynamicPromotions_promotions 0 reversing analytics w).
  - intros k l. apply Permutation_rev.
  - intros w0 r w' H. inversion H. apply same_view_refl.
Defined.

(** At midnight on the first of January 1970, a Thursday, with visits counted
    at eight on Thursdays: the flash sale is set for the Thursday after, the
    new year's sale begins at once, and the listing on promotion is in
    neither. *)
Example setupDynamicPromotions_example :
  let w := world [listing "a" 50 (5 # 100) 0 150 false; promoted "b" 40] [] in
  let analytics :=
    analytics_of [{| dp_timestamp := 28800000; dp_visits := Some 3 |}] in
  map (fun p => (pr_name p, pr_prompt_ids p, start_time p, end_time p))
      (returned (setupDynamicPromotions 0 reversing analytics w))
  = [("Flash Sale Thursday 8h"%string, ["a"%string], 633600000%Z, 644400000%Z);
     ("New Year Sale"%string, ["a"%string], 0%Z, 604800000%Z)].
Proof. vm_compute. reflexivity. Qed.
